(** * uc3m_money: validation and ledger engine of the account manager

    A shallow embedding of [account_manager.py] and [account_deposit.py].

    Python values are modelled as they are at run time: a [str] is the
    list of its Unicode code points, a [float] is an IEEE 754 binary64
    value ([spec_float] of the Standard Library), a decoded JSON document
    is a [pyval], a [dict] is a finite map.  Exceptions are values of
    [exn]; a function that can raise returns a [result].  The JSON store
    files are passed explicitly: every operation takes the files it opens
    and returns them as it leaves them. *)

From Stdlib Require Import ZArith NArith List String Ascii Bool Lia.
From Stdlib Require Import Floats.SpecFloat.
From stdpp Require Import base option list strings gmap.

Set Warnings "-register-all".
Local Open Scope Z_scope.

(** ** Strings *)

(** A Python [str]: the sequence of its code points. *)
Abbreviation char := N (only parsing).
Abbreviation str := (list N) (only parsing).

(** A string literal of the source (ASCII only). *)
Definition lit (s : string) : str :=
  map N_of_ascii (list_ascii_of_string s).

Definition str_eqb (s t : str) : bool := bool_decide (s = t).

(** [ch in s] for a single character. *)
Definition contains (c : char) (s : str) : bool := existsb (N.eqb c) s.

(** Character classes of [re] on [str] patterns.  [[0-9]] and [[a-zA-Z]]
    are ranges of code points; [\s] is Unicode white space
    ([str.isspace]); [.] is anything but a line feed. *)
Definition in_range (lo hi : N) (c : char) : bool :=
  ((lo <=? c) && (c <=? hi))%N.

Definition is_ascii_digit : char -> bool := in_range 48 57.
Definition is_ascii_alpha (c : char) : bool :=
  in_range 97 122 c || in_range 65 90 c.
Definition is_space (c : char) : bool :=
  in_range 9 13 c || in_range 28 32 c || N.eqb c 133 || N.eqb c 160
  || N.eqb c 5760 || in_range 8192 8202 c || N.eqb c 8232 || N.eqb c 8233
  || N.eqb c 8239 || N.eqb c 8287 || N.eqb c 12288.
Definition is_dot (c : char) : bool := negb (N.eqb c 10).
Definition is_char (a : char) (c : char) : bool := N.eqb a c.

(** First code points of the runs of ten decimal digits (general
    category Nd) of the Unicode database; the digit of value [v] of a run
    is at offset [v].  This is the table behind [\d], [int] and [float]. *)
Definition decimal_runs : list N :=
  [48; 1632; 1776; 1984; 2406; 2534; 2662; 2790; 2918; 3046; 3174; 3302;
   3430; 3558; 3664; 3792; 3872; 4160; 4240; 6112; 6160; 6470; 6608; 6784;
   6800; 6992; 7088; 7232; 7248; 42528; 43216; 43264; 43472; 43504; 43600;
   44016; 65296; 66720; 68912; 69734; 69872; 69942; 70096; 70384; 70736;
   70864; 71248; 71360; 71472; 71904; 72016; 72784; 73040; 73120; 92768;
   92864; 93008; 120782; 120792; 120802; 120812; 120822; 123200; 123632;
   125264; 130032]%N.

(** [Py_UNICODE_TODECIMAL]: the value of a decimal digit. *)
Definition decimal_value (c : char) : option N :=
  match find (fun lo => in_range lo (lo + 9) c) decimal_runs with
  | Some lo => Some (c - lo)%N
  | None => None
  end.

Definition is_decimal (c : char) : bool :=
  match decimal_value c with Some _ => true | None => false end.

(** ** Exceptions *)

Inductive exn : Type :=
| AccountManagementException (message : string)
| KeyError
| TypeError
| ValueError
| AttributeError
| OverflowError
| UnicodeEncodeError
| FileNotFoundError
| JSONDecodeError.

Inductive result (A : Type) : Type :=
| Ok (a : A)
| Raise (e : exn).
Arguments Ok {A} a.
Arguments Raise {A} e.

#[global] Instance result_ret : MRet result := fun A a => Ok a.
#[global] Instance result_bind : MBind result := fun A B f m =>
  match m with
  | Ok a => f a
  | Raise e => Raise e
  end.

#[global] Instance exn_eq_dec : EqDecision exn.
Proof. solve_decision. Defined.

(** [try: m except caught: handler].  No exception class caught in the
    sources is a base class of another one raised inside its [try]. *)
Definition except {A} (m : result A) (caught : exn) (handler : result A)
  : result A :=
  match m with
  | Raise e => if bool_decide (e = caught) then handler else Raise e
  | Ok a => Ok a
  end.

(** [x and y], which evaluates [y] only when [x] is true. *)
Definition and_then (x y : result bool) : result bool :=
  b ← x; if b : bool then y else Ok false.

(** The messages of the exceptions the manager raises, under the names
    the specification gives to the failures. *)
Definition InvalidFormat := AccountManagementException "Invalid IBAN format".
Definition InvalidCheckDigit :=
  AccountManagementException "Invalid IBAN control digit".
Definition InvalidConcept := AccountManagementException "Invalid concept format".
Definition InvalidDateFormat := AccountManagementException "Invalid date format".
Definition DateInPast :=
  AccountManagementException "Transfer date must be today or later.".
Definition InvalidTransferType :=
  AccountManagementException "Invalid transfer type".
Definition InvalidAmount := AccountManagementException "Invalid transfer amount".
Definition DuplicateTransfer :=
  AccountManagementException "Duplicated transfer in transfer list".
Definition MalformedStore :=
  AccountManagementException "JSON Decode Error - Wrong JSON Format".
Definition StoreUnreadable :=
  AccountManagementException "Wrong file  or file path".
Definition InputNotFound :=
  AccountManagementException "Error: file input not found".
Definition InvalidInputKey :=
  AccountManagementException "Error - Invalid Key in JSON".
Definition InvalidDepositAmount :=
  AccountManagementException "Error - Invalid deposit amount".
Definition ZeroDeposit :=
  AccountManagementException "Error - Deposit must be greater than 0".
Definition IbanNotFound := AccountManagementException "IBAN not found".

(** ** Regular expressions *)

Module Re.

(** The fragment of [re] syntax the manager uses. *)
Inductive regex : Type :=
| Eps
| Class (p : char -> bool)
| Cat (r1 r2 : regex)
| Alt (r1 r2 : regex)
| Star (r : regex)
| Bol                      (* ^ *)
| Eol                      (* $ *)
| Ahead (r : regex).       (* (?=r) *)

(** A position in the subject: whether it is the start of the subject,
    and what is left of it. *)
Definition pos : Type := bool * str.

Definition at_end (x : pos) : bool :=
  match x.2 with [] => true | _ => false end.

(** [$] without [re.MULTILINE]: at the end, or just before a line feed
    that ends the subject. *)
Definition at_eol (x : pos) : bool :=
  match x.2 with
  | [] => true
  | [c] => N.eqb c 10
  | _ => false
  end.

(** Zero or more rounds of [step], longest first.  A round that consumes
    nothing is not repeated, so [fuel] rounds suffice on a subject of
    [fuel] characters. *)
Fixpoint repeat_step (step : pos -> list pos) (fuel : nat) (x : pos)
  : list pos :=
  match fuel with
  | O => [x]
  | S fuel' =>
      flat_map (fun y =>
                  if (length y.2 <? length x.2)%nat
                  then repeat_step step fuel' y else [])
               (step x) ++ [x]
  end.

(** All the positions at which a match of [r] started at [x] can end, in
    the order the backtracking matcher tries them. *)
Fixpoint ends (r : regex) (x : pos) : list pos :=
  match r with
  | Eps => [x]
  | Class p =>
      match x.2 with
      | c :: s => if p c then [(false, s)] else []
      | [] => []
      end
  | Cat r1 r2 => flat_map (ends r2) (ends r1 x)
  | Alt r1 r2 => ends r1 x ++ ends r2 x
  | Star r1 => repeat_step (ends r1) (length x.2) x
  | Bol => if x.1 then [x] else []
  | Eol => if at_eol x then [x] else []
  | Ahead r1 => match ends r1 x with [] => [] | _ => [x] end
  end.

(** [pattern.fullmatch(s)]: some match consumes the whole subject. *)
Definition fullmatch (r : regex) (s : str) : bool :=
  existsb at_end (ends r (true, s)).

(** Derived forms. *)
Definition plus (r : regex) : regex := Cat r (Star r).

Fixpoint rep (n : nat) (r : regex) : regex :=       (* r{n} *)
  match n with
  | O => Eps
  | S n' => Cat r (rep n' r)
  end.

Fixpoint upto (n : nat) (r : regex) : regex :=      (* r{0,n} *)
  match n with
  | O => Eps
  | S n' => Alt (Cat r (upto n' r)) Eps
  end.

Definition between (lo hi : nat) (r : regex) : regex :=   (* r{lo,hi} *)
  Cat (rep lo r) (upto (hi - lo) r).

Definition word (s : string) : regex :=
  fold_right (fun c r => Cat (Class (is_char c)) r) Eps (lit s).

End Re.

(** ** Numbers of the Python runtime *)

Module Py.

(** [str(n)] for an [int]. *)
Fixpoint uint_chars (d : Decimal.uint) : str :=
  match d with
  | Decimal.Nil => []
  | Decimal.D0 d => 48%N :: uint_chars d
  | Decimal.D1 d => 49%N :: uint_chars d
  | Decimal.D2 d => 50%N :: uint_chars d
  | Decimal.D3 d => 51%N :: uint_chars d
  | Decimal.D4 d => 52%N :: uint_chars d
  | Decimal.D5 d => 53%N :: uint_chars d
  | Decimal.D6 d => 54%N :: uint_chars d
  | Decimal.D7 d => 55%N :: uint_chars d
  | Decimal.D8 d => 56%N :: uint_chars d
  | Decimal.D9 d => 57%N :: uint_chars d
  end.

Definition str_of_int (z : Z) : str :=
  match z with
  | Z0 => [48%N]
  | Zpos p => uint_chars (Pos.to_uint p)
  | Zneg p => 45%N :: uint_chars (Pos.to_uint p)
  end.

(** What [int] and [float] do to a [str] before they read it: white space
    outside ASCII becomes a blank, a decimal digit becomes its ASCII
    digit, any other character outside ASCII becomes a question mark. *)
Definition to_ascii (s : str) : str :=
  map (fun c => if (c <? 128)%N then c
                else if is_space c then 32%N
                else match decimal_value c with
                     | Some v => (48 + v)%N
                     | None => 63%N
                     end) s.

(** [Py_ISSPACE]. *)
Definition is_blank (c : char) : bool := in_range 9 13 c || N.eqb c 32.

Fixpoint lstrip (s : str) : str :=
  match s with
  | c :: t => if is_blank c then lstrip t else s
  | [] => []
  end.

Definition strip (s : str) : str := rev (lstrip (rev (lstrip s))).

Definition digit (c : char) : Z := Z.of_N c - 48.

(** An optional sign: whether it is a minus, and what follows. *)
Definition sign (s : str) : bool * str :=
  match s with
  | 45%N :: t => (true, t)
  | 43%N :: t => (false, t)
  | _ => (false, s)
  end.

(** Decimal digits with single underscores between them. *)
Fixpoint int_digits (acc : Z) (after_underscore : bool) (s : str) : option Z :=
  match s with
  | [] => if after_underscore then None else Some acc
  | c :: t =>
      if is_ascii_digit c then int_digits (10 * acc + digit c) false t
      else if N.eqb c 95 then
        if after_underscore then None else int_digits acc true t
      else None
  end.

(** [int(s)] for a [str], base ten. *)
Definition int (s : str) : result Z :=
  let '(minus, t) := sign (strip (to_ascii s)) in
  match t with
  | c :: _ =>
      if is_ascii_digit c then
        match int_digits 0 false t with
        | Some z => Ok (if minus then - z else z)
        | None => Raise ValueError
        end
      else Raise ValueError
  | [] => Raise ValueError
  end.

(** *** binary64 *)

Abbreviation float := spec_float (only parsing).

Definition prec : Z := 53.
Definition emax : Z := 1024.

#[global] Instance float_eq_dec : EqDecision spec_float.
Proof. solve_decision. Defined.

Definition flt : float -> float -> bool := SFltb.
Definition fadd : float -> float -> float := SFadd prec emax.

(** The float nearest to the fraction [n / d] (ties to even), for
    positive [n] and [d]; infinite from [2^1024 (1 - 2^-54)] on. *)
Definition round_ratio (minus : bool) (n d : Z) : float :=
  if n <=? 0 then S754_zero minus
  else
    let k := Z.max 0 (55 + Z.log2 d - Z.log2 n) in
    let q := (n * 2 ^ k) / d in
    let r := (n * 2 ^ k) mod d in
    let loc := if r =? 0 then loc_Exact else loc_Inexact (2 * r ?= d) in
    binary_round_aux prec emax minus q (- k) loc.

(** The float nearest to [m * 10^e]. *)
Definition of_decimal (minus : bool) (m e : Z) : float :=
  if 0 <=? e then round_ratio minus (m * 10 ^ e) 1
  else round_ratio minus m (10 ^ (- e)).

(** [float(n)] for an [int]. *)
Definition of_int (z : Z) : result float :=
  match round_ratio (z <? 0) (Z.abs z) 1 with
  | S754_infinity _ => Raise OverflowError
  | f => Ok f
  end.

(** Underscores of a numeric literal: each one stands between two
    digits, and they are dropped. *)
Fixpoint drop_underscores (prev : char) (s : str) : option str :=
  match s with
  | [] => if N.eqb prev 95 then None else Some []
  | c :: t =>
      if N.eqb c 95 then
        if is_ascii_digit prev then drop_underscores c t else None
      else if N.eqb prev 95 && negb (is_ascii_digit c) then None
      else cons c <$> drop_underscores c t
  end.

Definition lower (c : char) : char :=
  if in_range 65 90 c then (c + 32)%N else c.

Definition ci_eq (s : str) (w : string) : bool :=
  str_eqb (map lower s) (lit w).

(** A run of digits at the head of [s]: its value continuing [acc], how
    many there are, and what follows. *)
Fixpoint digits_run (acc : Z) (count : Z) (s : str) : Z * Z * str :=
  match s with
  | c :: t =>
      if is_ascii_digit c then digits_run (10 * acc + digit c) (count + 1) t
      else (acc, count, s)
  | [] => (acc, count, s)
  end.

(** The exponent part [e[+-]ddd]; without a digit after the sign it is
    not read. *)
Definition exponent (s : str) : Z * str :=
  match s with
  | c :: t =>
      if N.eqb (lower c) 101 then
        let '(minus, u) := sign t in
        let '(e, count, v) := digits_run 0 0 u in
        if count =? 0 then (0, s) else (if minus then - e else e, v)
      else (0, s)
  | [] => (0, s)
  end.

(** [float(s)] for a [str]: [None] where Python raises [ValueError]. *)
Definition float_of_str (s : str) : option float :=
  a ← (let a := to_ascii s in
        if contains 95 a then drop_underscores 0%N a else Some a);
  let '(minus, t) := sign (strip a) in
  if ci_eq t "inf" || ci_eq t "infinity" then Some (S754_infinity minus)
  else if ci_eq t "nan" then Some S754_nan
  else
    let '(m1, n1, t1) := digits_run 0 0 t in
    let '(m2, n2, t2) :=
      match t1 with
      | 46%N :: u => digits_run m1 0 u
      | _ => (m1, 0, t1)
      end in
    if n1 + n2 =? 0 then None
    else
      let '(e, t3) := exponent t2 in
      match t3 with
      | [] => Some (of_decimal minus m2 (e - n2))
      | _ => None
      end.

(** The exact value of a positive finite float as a fraction. *)
Definition ratio_of (m : positive) (e : Z) : Z * Z :=
  if 0 <=? e then (Zpos m * 2 ^ e, 1) else (Zpos m, 2 ^ (- e)).

(** [10^k <= n / d]. *)
Definition pow10_le (k n d : Z) : bool :=
  if 0 <=? k then 10 ^ k * d <=? n else d <=? n * 10 ^ (- k).

(** The decimal exponent of [n / d]: the [k] with
    [10^k <= n / d < 10^(k+1)]. *)
Definition ilog10 (n d : Z) : Z :=
  let est := (Z.log2 n - Z.log2 d) * 30103 / 100000 in
  if pow10_le (est + 2) n d then est + 2
  else if pow10_le (est + 1) n d then est + 1
  else if pow10_le est n d then est
  else if pow10_le (est - 1) n d then est - 1
  else est - 2.

(** The decimal with [count] significant digits that reads back as the
    float [m * 2^e], if there is one: its digits as an integer [c], for
    the value [c * 10^(- s)].  Of the two decimals around the float the
    nearer one is preferred. *)
Definition shortest_at (m : positive) (e : Z) (count : Z) : option (Z * Z) :=
  let '(n, d) := ratio_of m e in
  let s := count - 1 - ilog10 n d in
  let '(num, den) := if 0 <=? s then (n * 10 ^ s, d) else (n, d * 10 ^ (- s)) in
  let lo := num / den in
  let r := num mod den in
  let reads_back c := bool_decide (of_decimal false c (- s) = S754_finite false m e) in
  let hi_nearer :=
    match 2 * r ?= den with
    | Gt => true
    | Eq => Z.odd lo
    | Lt => false
    end in
  if r =? 0 then (if reads_back lo then Some (lo, s) else None)
  else if hi_nearer then
    if reads_back (lo + 1) then Some (lo + 1, s)
    else if reads_back lo then Some (lo, s) else None
  else
    if reads_back lo then Some (lo, s)
    else if reads_back (lo + 1) then Some (lo + 1, s) else None.

Fixpoint shortest_from (m : positive) (e : Z) (count : Z) (fuel : nat)
  : Z * Z :=
  match shortest_at m e count, fuel with
  | Some cs, _ => cs
  | None, S fuel' => shortest_from m e (count + 1) fuel'
  | None, O => (0, 0)
  end.

Fixpoint strip_zeros (fuel : nat) (c : Z) : Z :=
  match fuel with
  | S fuel' => if (c mod 10 =? 0) && negb (c =? 0)
               then strip_zeros fuel' (c / 10) else c
  | O => c
  end.

(** The shortest digits that read back as the float, and the position of
    the decimal point after the first of them ([decpt] of [dtoa]). *)
Definition shortest_digits (m : positive) (e : Z) : str * Z :=
  let '(c, s) := shortest_from m e 1 17 in
  let all := str_of_int c in
  (str_of_int (strip_zeros 20 c), Z.of_nat (length all) - s).

Definition zeros (n : Z) : str := repeat 48%N (Z.to_nat n).

Definition exponent_chars (x : Z) : str :=
  (if x <? 0 then 45%N else 43%N)
    :: (if Z.abs x <? 10 then [48%N] else []) ++ str_of_int (Z.abs x).

(** [repr(x)], which is also [str(x)] and what an f-string shows. *)
Definition repr (x : float) : str :=
  match x with
  | S754_nan => lit "nan"
  | S754_infinity minus => (if minus then [45%N] else []) ++ lit "inf"
  | S754_zero minus => (if minus then [45%N] else []) ++ lit "0.0"
  | S754_finite minus m e =>
      let '(ds, decpt) := shortest_digits m e in
      let count := Z.of_nat (length ds) in
      (if minus then [45%N] else []) ++
      (if (decpt <=? -4) || (16 <? decpt) then
         firstn 1 ds
           ++ (if 1 <? count then 46%N :: skipn 1 ds else [])
           ++ 101%N :: exponent_chars (decpt - 1)
       else if decpt <=? 0 then lit "0." ++ zeros (- decpt) ++ ds
       else if count <=? decpt then ds ++ zeros (decpt - count) ++ lit ".0"
       else firstn (Z.to_nat decpt) ds ++ 46%N :: skipn (Z.to_nat decpt) ds)
  end.

End Py.

(** ** IBAN, concept and date validation *)

Import Re.

(** [s[i:j]] for [0 <= i <= j]. *)
Definition slice (i j : nat) (s : str) : str := firstn (j - i) (skipn i s).

(** [re.compile(r"^ES[0-9]{22}")] *)
Definition iban_pattern : regex :=
  Cat Bol (Cat (word "ES") (rep 22 (Class is_ascii_digit))).

(** [str(ord(ch) - ord('A') + 10) if 'A' <= ch <= 'Z' else ch] *)
Definition letter_value (ch : char) : str :=
  if in_range 65 90 ch then Py.str_of_int (Z.of_N ch - 65 + 10) else [ch].

Definition validate_iban (iban_input : str) : result str :=
  if negb (fullmatch iban_pattern iban_input) then Raise InvalidFormat
  else
    let iban := iban_input in
    let original_code := slice 2 4 iban in
    let iban := firstn 2 iban ++ lit "00" ++ skipn 4 iban in
    let iban := skipn 4 iban ++ firstn 4 iban in
    let iban := flat_map letter_value iban in
    int_i ← Py.int iban;
    let mod_ := int_i mod 97 in
    let control_digit := 98 - mod_ in
    code ← Py.int original_code;
    if negb (code =? control_digit) then Raise InvalidCheckDigit
    else Ok iban_input.

(** [re.compile(r"^(?=^.{10,30}$)([a-zA-Z]+(\s[a-zA-Z]+)+)$")] *)
Definition concept_pattern : regex :=
  Cat Bol
    (Cat (Ahead (Cat Bol (Cat (between 10 30 (Class is_dot)) Eol)))
       (Cat (Cat (plus (Class is_ascii_alpha))
               (plus (Cat (Class is_space) (plus (Class is_ascii_alpha)))))
          Eol)).

Definition validate_concept (concept : str) : result unit :=
  if negb (fullmatch concept_pattern concept) then Raise InvalidConcept
  else Ok tt.

(** [re.compile(r"^(([0-2]\d|3[0-1])\/(0\d|1[0-2])\/\d\d\d\d)$")] *)
Definition date_pattern : regex :=
  Cat Bol
    (Cat (Cat (Alt (Cat (Class (in_range 48 50)) (Class is_decimal))
                 (Cat (Class (is_char 51)) (Class (in_range 48 49))))
            (Cat (Class (is_char 47))
               (Cat (Alt (Cat (Class (is_char 48)) (Class is_decimal))
                       (Cat (Class (is_char 49)) (Class (in_range 48 50))))
                  (Cat (Class (is_char 47)) (rep 4 (Class is_decimal))))))
       Eol).

(** A [datetime.date]. *)
Record date : Type := Date { year : Z; month : Z; day : Z }.

Definition is_leap (y : Z) : bool :=
  (y mod 4 =? 0) && (negb (y mod 100 =? 0) || (y mod 400 =? 0)).

Definition days_in_month (y m : Z) : Z :=
  if m =? 2 then (if is_leap y then 29 else 28)
  else if (m =? 4) || (m =? 6) || (m =? 9) || (m =? 11) then 30
  else 31.

(** [datetime.date(y, m, d)], which raises [ValueError] off the
    calendar. *)
Definition make_date (y m d : Z) : result date :=
  if (1 <=? y) && (y <=? 9999) && (1 <=? m) && (m <=? 12)
     && (1 <=? d) && (d <=? days_in_month y m)
  then Ok (Date y m d) else Raise ValueError.

(** [a < b] on dates. *)
Definition date_ltb (a b : date) : bool :=
  (year a <? year b)
  || ((year a =? year b)
      && ((month a <? month b)
          || ((month a =? month b) && (day a <? day b)))).

(** The head of [s] read against a sequence of character classes: what
    was read and what follows. *)
Fixpoint take_classes (ps : list (char -> bool)) (s : str)
  : option (str * str) :=
  match ps, s with
  | [], _ => Some ([], s)
  | p :: ps', c :: t =>
      if p c then (fun r => (c :: r.1, r.2)) <$> take_classes ps' t
      else None
  | _ :: _, [] => None
  end.

(** One field of [strptime]: the alternatives of its directive, tried in
    order. *)
Definition field (alternatives : list (list (char -> bool))) (s : str)
  : list (str * str) :=
  omap (fun ps => take_classes ps s) alternatives.

(** [%d]: [3[0-1]|[1-2]\d|0[1-9]|[1-9]| [1-9]] *)
Definition directive_d : list (list (char -> bool)) :=
  [ [is_char 51; in_range 48 49]; [in_range 49 50; is_decimal];
    [is_char 48; in_range 49 57]; [in_range 49 57];
    [is_char 32; in_range 49 57] ].

(** [%m]: [1[0-2]|0[1-9]|[1-9]] *)
Definition directive_m : list (list (char -> bool)) :=
  [ [is_char 49; in_range 48 50]; [is_char 48; in_range 49 57];
    [in_range 49 57] ].

(** [%Y]: [\d\d\d\d] *)
Definition directive_Y : list (list (char -> bool)) :=
  [ [is_decimal; is_decimal; is_decimal; is_decimal] ].

(** The matches of the regular expression [strptime] builds for
    ["%d/%m/%Y"], in the order the matcher finds them: the text of the
    three groups and what is left of the subject. *)
Definition strptime_matches (s : str) : list (str * str * str * str) :=
  '(d, s1) ← field directive_d s;
  '(_, s2) ← field [[is_char 47]] s1;
  '(m, s3) ← field directive_m s2;
  '(_, s4) ← field [[is_char 47]] s3;
  '(y, s5) ← field directive_Y s4;
  [(d, m, y, s5)].

(** [datetime.strptime(s, "%d/%m/%Y").date()] *)
Definition strptime_date (s : str) : result date :=
  match strptime_matches s with
  | (d, m, y, []) :: _ =>
      y ← Py.int y; m ← Py.int m; d ← Py.int d; make_date y m d
  | _ => Raise ValueError
  end.

(** [today] is [datetime.now(timezone.utc).date()]. *)
Definition validate_transfer_date (today : date) (date_str : str)
  : result str :=
  if negb (fullmatch date_pattern date_str) then Raise InvalidDateFormat
  else
    parsed_date ← except (strptime_date date_str) ValueError
                    (Raise InvalidDateFormat);
    if date_ltb parsed_date today then Raise DateInPast
    else if (year parsed_date <? 2025) || (2050 <? year parsed_date)
    then Raise InvalidDateFormat
    else Ok date_str.

(** ** Python values and the JSON stores *)

(** What [json.load] returns, and what the callers pass. *)
Inductive pyval : Type :=
| PNone
| PBool (b : bool)
| PInt (z : Z)
| PFloat (f : Py.float)
| PStr (s : str)
| PList (l : list pyval)
| PDict (d : gmap str pyval).

(** [float(x)] *)
Definition to_float (x : pyval) : result Py.float :=
  match x with
  | PFloat f => Ok f
  | PInt z => Py.of_int z
  | PBool b => Py.of_int (if b then 1 else 0)
  | PStr s =>
      match Py.float_of_str s with
      | Some f => Ok f
      | None => Raise ValueError
      end
  | PNone | PList _ | PDict _ => Raise TypeError
  end.

(** The value of a finite float is the integer [z]. *)
Definition float_is_int (f : Py.float) (z : Z) : bool :=
  match f with
  | S754_zero _ => z =? 0
  | S754_finite minus m e =>
      let '(n, d) := Py.ratio_of m e in
      (n mod d =? 0) && ((if minus then - (n / d) else n / d) =? z)
  | _ => false
  end.

(** [a == b]: numbers compare by value across [bool], [int] and [float],
    containers element by element, anything else is unequal. *)
Fixpoint py_eq (a b : pyval) : bool :=
  match a, b with
  | PNone, PNone => true
  | PStr s, PStr t => str_eqb s t
  | PList l, PList k =>
      (fix all2 (l k : list pyval) : bool :=
         match l, k with
         | [], [] => true
         | x :: l', y :: k' => py_eq x y && all2 l' k'
         | _, _ => false
         end) l k
  | PDict d, PDict d' =>
      bool_decide (dom d = dom d')
      && map_fold (fun key x acc =>
                     acc && match d' !! key with
                            | Some y => py_eq x y
                            | None => false
                            end) true d
  | PBool x, PBool y => Bool.eqb x y
  | PBool x, PInt z | PInt z, PBool x => z =? (if x then 1 else 0)
  | PBool x, PFloat f | PFloat f, PBool x =>
      float_is_int f (if x then 1 else 0)
  | PInt x, PInt y => x =? y
  | PInt z, PFloat f | PFloat f, PInt z => float_is_int f z
  | PFloat f, PFloat g => SFeqb f g
  | _, _ => false
  end.

(** [v[key]] for a [str] key. *)
Definition subscript (v : pyval) (key : string) : result pyval :=
  match v with
  | PDict d =>
      match d !! lit key with
      | Some x => Ok x
      | None => Raise KeyError
      end
  | _ => Raise TypeError
  end.

(** What [for x in v] goes through.  A dictionary yields its keys. *)
Definition iterate (v : pyval) : result (list pyval) :=
  match v with
  | PList l => Ok l
  | PDict d => Ok (PStr <$> (map_to_list d).*1)
  | PStr s => Ok ((fun c => PStr [c]) <$> s)
  | PNone | PBool _ | PInt _ | PFloat _ => Raise TypeError
  end.

(** [v.append(x)]: the method is looked up before [x] is evaluated. *)
Definition append (v : pyval) (x : result pyval) : result pyval :=
  match v with
  | PList l => x ← x; Ok (PList (l ++ [x]))
  | _ => Raise AttributeError
  end.

(** A pattern matched against a value that may not be a [str]. *)
Definition as_str (v : pyval) : result str :=
  match v with
  | PStr s => Ok s
  | _ => Raise TypeError
  end.

(** [s.split(sep)] for a separator of one character. *)
Fixpoint split (sep : char) (s : str) : list str :=
  match s with
  | [] => [[]]
  | c :: t =>
      if N.eqb c sep then [] :: split sep t
      else match split sep t with
           | piece :: pieces => (c :: piece) :: pieces
           | [] => [[c]]
           end
  end.

(** A file of the ledger as [open] and [json.load] see it.  Of the
    failures of [open] and [json.load] these are the ones the manager
    catches; the others (a file that may not be read, a directory in its
    place, text that is not UTF-8, nesting too deep, a number of more
    than 4300 digits) are left out. *)
Inductive file : Type :=
| NoDirectory             (* its directory does not exist *)
| NoFile                  (* it does not exist *)
| NotJson (text : str)    (* its text is not JSON *)
| Json (v : pyval).       (* its text decodes to [v] *)

(** The store files of [account_management_config]. *)
Inductive store_id : Type :=
| TRANSFERS_STORE_FILE
| DEPOSITS_STORE_FILE
| TRANSACTIONS_STORE_FILE
| BALANCES_STORE_FILE.

Record stores : Type := Stores {
  transfers : file;
  deposits : file;
  transactions : file;
  balances : file
}.

Definition store (i : store_id) (st : stores) : file :=
  match i with
  | TRANSFERS_STORE_FILE => transfers st
  | DEPOSITS_STORE_FILE => deposits st
  | TRANSACTIONS_STORE_FILE => transactions st
  | BALANCES_STORE_FILE => balances st
  end.

Definition set_store (i : store_id) (f : file) (st : stores) : stores :=
  match i with
  | TRANSFERS_STORE_FILE => Stores f (deposits st) (transactions st) (balances st)
  | DEPOSITS_STORE_FILE => Stores (transfers st) f (transactions st) (balances st)
  | TRANSACTIONS_STORE_FILE => Stores (transfers st) (deposits st) f (balances st)
  | BALANCES_STORE_FILE => Stores (transfers st) (deposits st) (transactions st) f
  end.

(** [with open(f, "r") as file: json.load(file)] *)
Definition json_load (f : file) : result pyval :=
  match f with
  | NoDirectory | NoFile => Raise FileNotFoundError
  | NotJson _ => Raise JSONDecodeError
  | Json v => Ok v
  end.

(** Operations on the stores: a result and the stores as they are left. *)
Definition io (A : Type) : Type := stores -> result A * stores.

#[global] Instance io_ret : MRet io := fun A a st => (Ok a, st).
#[global] Instance io_bind : MBind io := fun A B f m st =>
  match m st with
  | (Ok a, st') => f a st'
  | (Raise e, st') => (Raise e, st')
  end.

Definition lift {A} (r : result A) : io A := fun st => (r, st).
Definition raise {A} (e : exn) : io A := lift (Raise e).

Definition load (i : store_id) : io pyval :=
  fun st => (json_load (store i st), st).

(** [with open(f, "w") as file: json.dump(v, file, indent=2)] *)
Definition dump (i : store_id) (v : pyval) : io unit :=
  fun st =>
    match store i st with
    | NoDirectory => (Raise FileNotFoundError, st)
    | _ => (Ok tt, set_store i (Json v) st)
    end.

(** [try: m] followed by [except] clauses, the first that applies. *)
Definition try {A} (m : io A) (handlers : list (exn * io A)) : io A :=
  fun st =>
    match m st with
    | (Raise e, st') =>
        match find (fun h => bool_decide (h.1 = e)) handlers with
        | Some h => h.2 st'
        | None => (Raise e, st')
        end
    | r => r
    end.

(** The clock: [datetime.now(timezone.utc)] as a date and as a
    timestamp. *)
Record clock : Type := Clock { utc_today : date; utc_timestamp : Py.float }.

(** ** SHA-256 and UTF-8 *)

Module Sha256.

Definition w32 (x : Z) : Z := x mod 2 ^ 32.
Definition add (x y : Z) : Z := w32 (x + y).
Definition rotr (n x : Z) : Z := Z.lor (Z.shiftr x n) (w32 (Z.shiftl x (32 - n))).
Definition lnot (x : Z) : Z := Z.lxor x (2 ^ 32 - 1).

Definition Ch (x y z : Z) : Z := Z.lxor (Z.land x y) (Z.land (lnot x) z).
Definition Maj (x y z : Z) : Z :=
  Z.lxor (Z.lxor (Z.land x y) (Z.land x z)) (Z.land y z).
Definition Sigma0 (x : Z) : Z := Z.lxor (Z.lxor (rotr 2 x) (rotr 13 x)) (rotr 22 x).
Definition Sigma1 (x : Z) : Z := Z.lxor (Z.lxor (rotr 6 x) (rotr 11 x)) (rotr 25 x).
Definition sigma0 (x : Z) : Z := Z.lxor (Z.lxor (rotr 7 x) (rotr 18 x)) (Z.shiftr x 3).
Definition sigma1 (x : Z) : Z := Z.lxor (Z.lxor (rotr 17 x) (rotr 19 x)) (Z.shiftr x 10).

(** The primes below 312, by trial division: the first 64 of them. *)
Definition is_prime (p : Z) : bool :=
  forallb (fun d => negb (p mod Z.of_nat d =? 0)) (seq 2 (Z.to_nat p - 2)).
Definition primes (count : nat) : list Z :=
  firstn count (List.filter is_prime (Z.of_nat <$> seq 2 310)).

(** The largest [r] below [2 ^ bits] whose cube is at most [n], from
    [r = 0]. *)
Fixpoint cube_root (bits : nat) (n r : Z) : Z :=
  match bits with
  | O => r
  | S bits' =>
      let r' := r + 2 ^ Z.of_nat bits' in
      cube_root bits' n (if r' ^ 3 <=? n then r' else r)
  end.

(** The round constants: the first 32 bits of the fractional parts of
    the cube roots of the first 64 primes. *)
Definition K : list Z :=
  Eval vm_compute in
    (fun p => w32 (cube_root 40 (p * 2 ^ 96) 0)) <$> primes 64.

(** The initial hash value: the same of the square roots of the first
    8 primes. *)
Definition H0 : list Z :=
  Eval vm_compute in (fun p => w32 (Z.sqrt (p * 2 ^ 64))) <$> primes 8.

(** Big-endian bytes of a number, [count] of them. *)
Fixpoint be_bytes (count : nat) (x : Z) : list Z :=
  match count with
  | O => []
  | S count' => be_bytes count' (x / 256) ++ [x mod 256]
  end.

Definition be_word (bs : list Z) : Z :=
  fold_left (fun acc b => acc * 256 + b) bs 0.

(** The message, a one bit, zeros up to 56 modulo 64 bytes, and the
    length in bits on 8 bytes. *)
Definition pad (msg : list Z) : list Z :=
  let len := Z.of_nat (length msg) in
  msg ++ [128] ++ repeat 0 (Z.to_nat ((55 - len) mod 64)) ++ be_bytes 8 (8 * len).

Fixpoint chunks {A} (size : nat) (count : nat) (l : list A) : list (list A) :=
  match count with
  | O => []
  | S count' => firstn size l :: chunks size count' (skipn size l)
  end.

(** The message schedule: [w] holds the words so far, latest first. *)
Fixpoint schedule (count : nat) (w : list Z) : list Z :=
  match count with
  | O => rev w
  | S count' =>
      let at_ i := nth i w 0 in
      schedule count'
        (add (add (sigma1 (at_ 1%nat)) (at_ 6%nat))
             (add (sigma0 (at_ 14%nat)) (at_ 15%nat)) :: w)
  end.

Definition round (h : list Z) (kw : Z * Z) : list Z :=
  match h with
  | [a; b; c; d; e; f; g; hh] =>
      let t1 := add (add (add hh (Sigma1 e)) (add (Ch e f g) kw.1)) kw.2 in
      let t2 := add (Sigma0 a) (Maj a b c) in
      [add t1 t2; a; b; c; add d t1; e; f; g]
  | _ => h
  end.

Definition compress (h : list Z) (block : list Z) : list Z :=
  let w := schedule 48 (rev (be_word <$> chunks 4 16 block)) in
  zip_with add h (fold_left round (zip K w) h).

Definition digest (msg : list Z) : list Z :=
  let padded := pad msg in
  let blocks := chunks 64 (length padded / 64) padded in
  fold_left compress blocks H0 ≫= be_bytes 4.

Definition hex_digit (x : Z) : char :=
  Z.to_N (if x <? 10 then 48 + x else 87 + x).

(** [hashlib.sha256(data).hexdigest()] *)
Definition hexdigest (msg : list Z) : str :=
  digest msg ≫= fun b => [hex_digit (b / 16); hex_digit (b mod 16)].

End Sha256.

(** [s.encode()]: UTF-8, which has no encoding for a surrogate. *)
Definition encode_char (c : char) : option (list Z) :=
  let z := Z.of_N c in
  if z <? 0x80 then Some [z]
  else if z <? 0x800 then Some [0xC0 + z / 64; 0x80 + z mod 64]
  else if (0xD800 <=? z) && (z <=? 0xDFFF) then None
  else if z <? 0x10000 then
    Some [0xE0 + z / 4096; 0x80 + z / 64 mod 64; 0x80 + z mod 64]
  else if z <? 0x110000 then
    Some [0xF0 + z / 262144; 0x80 + z / 4096 mod 64; 0x80 + z / 64 mod 64;
          0x80 + z mod 64]
  else None.

Definition encode (s : str) : result (list Z) :=
  match mapM encode_char s with
  | Some bs => Ok (concat bs)
  | None => Raise UnicodeEncodeError
  end.

(** ** account_deposit.py *)

Module AccountDeposit.

Record t : Type := Build {
  alg : str;
  type : str;
  to_iban : str;
  deposit_amount : Py.float;
  deposit_timestamp : Py.float
}.

(** [AccountDeposit(to_iban, deposit_amount)], at the time [now]. *)
Definition new (now : clock) (to_iban : str) (deposit_amount : Py.float) : t :=
  {| alg := lit "SHA-256";
     type := lit "DEPOSIT";
     to_iban := to_iban;
     deposit_amount := deposit_amount;
     deposit_timestamp := utc_timestamp now |}.

Definition _get_signature_string (self : t) : str :=
  lit "{alg:" ++ alg self ++ lit ",typ:" ++ type self
    ++ lit ",iban:" ++ to_iban self
    ++ lit ",amount:" ++ Py.repr (deposit_amount self)
    ++ lit ",deposit_date:" ++ Py.repr (deposit_timestamp self) ++ lit "}".

Definition deposit_signature (self : t) : result str :=
  data ← encode (_get_signature_string self);
  Ok (Sha256.hexdigest data).

Definition to_json (self : t) : result pyval :=
  signature ← deposit_signature self;
  Ok (PDict (list_to_map
               [ (lit "alg", PStr (alg self));
                 (lit "type", PStr (type self));
                 (lit "to_iban", PStr (to_iban self));
                 (lit "deposit_amount", PFloat (deposit_amount self));
                 (lit "deposit_timestamp", PFloat (deposit_timestamp self));
                 (lit "deposit_signature", PStr signature) ])).

(** The setters. *)
Definition set_to_iban (value : str) (self : t) : t :=
  Build (alg self) (type self) value (deposit_amount self)
        (deposit_timestamp self).
Definition set_deposit_amount (value : Py.float) (self : t) : t :=
  Build (alg self) (type self) (to_iban self) value (deposit_timestamp self).

End AccountDeposit.

(** ** account_manager.py *)

Module TransferRequest.

(** Modelled from the spec: the class [TransferRequest] of
    [uc3m_money.transfer_request], which is not among the sources.  It
    holds the six fields it is built from (section 3 of the
    specification); its [transfer_code] is derived from them, and its
    stored form has the field names of section 6. *)
Record t : Type := New {
  from_iban : str;
  to_iban : str;
  transfer_concept : str;
  transfer_type : str;
  transfer_date : str;
  transfer_amount : pyval
}.

End TransferRequest.

(** [re.compile(r"(ORDINARY|INMEDIATE|URGENT)")] *)
Definition transfer_type_pattern : regex :=
  Alt (word "ORDINARY") (Alt (word "INMEDIATE") (word "URGENT")).

(** [re.compile(r"^EUR [0-9]{4}\.[0-9]{2}")] *)
Definition deposit_amount_pattern : regex :=
  Cat Bol
    (Cat (word "EUR ")
       (Cat (rep 4 (Class is_ascii_digit))
          (Cat (Class (is_char 46)) (rep 2 (Class is_ascii_digit))))).

(** An [int] of the source as the float it is compared with. *)
Definition const (z : Z) : Py.float := Py.round_ratio (z <? 0) (Z.abs z) 1.

(** The amount validation of [transfer_request]: [float(amount)], the
    digits after the point of its [str], and the range. *)
Definition validate_amount (amount : pyval) : result Py.float :=
  amount_value ← except (to_float amount) ValueError (Raise InvalidAmount);
  let amount_str := Py.repr amount_value in
  _ ← (if contains 46 amount_str then
         let decimal_count := length (nth 1 (split 46 amount_str) []) in
         if (2 <? decimal_count)%nat then Raise InvalidAmount else Ok tt
       else Ok tt);
  if Py.flt amount_value (const 10) || Py.flt (const 10000) amount_value
  then Raise InvalidAmount
  else Ok amount_value.

(** The condition of the duplicate check, with the short circuit of
    [and]. *)
Definition same_transfer (existing_transfer : pyval)
    (new_transfer : TransferRequest.t) : result bool :=
  let field_is (name : string) (value : pyval) : result bool :=
    v ← subscript existing_transfer name; Ok (py_eq v value) in
  and_then (field_is "from_iban" (PStr (TransferRequest.from_iban new_transfer)))
  (and_then (field_is "to_iban" (PStr (TransferRequest.to_iban new_transfer)))
  (and_then (field_is "transfer_date" (PStr (TransferRequest.transfer_date new_transfer)))
  (and_then (field_is "transfer_amount" (TransferRequest.transfer_amount new_transfer))
  (and_then (field_is "transfer_concept" (PStr (TransferRequest.transfer_concept new_transfer)))
            (field_is "transfer_type" (PStr (TransferRequest.transfer_type new_transfer))))))).

(** The loop over the stored transfers. *)
Fixpoint find_duplicate (transfer_list : list pyval)
    (new_transfer : TransferRequest.t) : result unit :=
  match transfer_list with
  | [] => Ok tt
  | existing_transfer :: rest =>
      same ← same_transfer existing_transfer new_transfer;
      if same : bool then Raise DuplicateTransfer
      else find_duplicate rest new_transfer
  end.

Section AccountManager.

(** Modelled from the spec: how a [TransferRequest] derives its
    [transfer_code] from its fields. *)
Variable transfer_code : TransferRequest.t -> str.

(** Modelled from the spec: [TransferRequest.to_json], the stored
    record. *)
Definition to_json (self : TransferRequest.t) : pyval :=
  PDict (list_to_map
           [ (lit "from_iban", PStr (TransferRequest.from_iban self));
             (lit "to_iban", PStr (TransferRequest.to_iban self));
             (lit "transfer_type", PStr (TransferRequest.transfer_type self));
             (lit "transfer_date", PStr (TransferRequest.transfer_date self));
             (lit "transfer_amount", TransferRequest.transfer_amount self);
             (lit "transfer_concept", PStr (TransferRequest.transfer_concept self));
             (lit "transfer_code", PStr (transfer_code self)) ]).

Definition transfer_request (now : clock)
    (from_iban to_iban concept transfer_type date : str) (amount : pyval)
  : io str :=
  _ ← lift (validate_iban from_iban);
  _ ← lift (validate_iban to_iban);
  _ ← lift (validate_concept concept);
  _ ← (if negb (fullmatch transfer_type_pattern transfer_type)
       then raise InvalidTransferType else mret tt);
  _ ← lift (validate_transfer_date (utc_today now) date);
  _ ← lift (validate_amount amount);
  let new_transfer :=
    TransferRequest.New from_iban to_iban concept transfer_type date amount in
  transfer_list ← try (load TRANSFERS_STORE_FILE)
                    [ (FileNotFoundError, mret (PList []));
                      (JSONDecodeError, raise MalformedStore) ];
  existing ← lift (iterate transfer_list);
  _ ← lift (find_duplicate existing new_transfer);
  transfer_list ← lift (append transfer_list (Ok (to_json new_transfer)));
  _ ← try (dump TRANSFERS_STORE_FILE transfer_list)
        [ (FileNotFoundError, raise StoreUnreadable);
          (JSONDecodeError, raise MalformedStore) ];
  mret (transfer_code new_transfer).

End AccountManager.

(** [input_file] is the file at the path given to the call. *)
Definition deposit_into_account (now : clock) (input_file : file) : io str :=
  input_data ← try (lift (json_load input_file))
                 [ (FileNotFoundError, raise InputNotFound);
                   (JSONDecodeError, raise MalformedStore) ];
  '(deposit_iban, deposit_amount) ←
    try (lift (deposit_iban ← subscript input_data "IBAN";
               deposit_amount ← subscript input_data "AMOUNT";
               Ok (deposit_iban, deposit_amount)))
      [ (KeyError, raise InvalidInputKey) ];
  deposit_iban ← lift (as_str deposit_iban ≫= validate_iban);
  deposit_amount ← lift (as_str deposit_amount);
  _ ← (if negb (fullmatch deposit_amount_pattern deposit_amount)
       then raise InvalidDepositAmount else mret tt);
  deposit_amount_value ← lift (to_float (PStr (skipn 4 deposit_amount)));
  _ ← (if py_eq (PFloat deposit_amount_value) (PInt 0)
       then raise ZeroDeposit else mret tt);
  let deposit_obj := AccountDeposit.new now deposit_iban deposit_amount_value in
  deposit_list ← try (load DEPOSITS_STORE_FILE)
                   [ (FileNotFoundError, mret (PList []));
                     (JSONDecodeError, raise MalformedStore) ];
  deposit_list ← lift (append deposit_list
                            (AccountDeposit.to_json deposit_obj));
  _ ← try (dump DEPOSITS_STORE_FILE deposit_list)
        [ (FileNotFoundError, raise StoreUnreadable);
          (JSONDecodeError, raise MalformedStore) ];
  lift (AccountDeposit.deposit_signature deposit_obj).

Definition read_transactions_file : io pyval :=
  try (load TRANSACTIONS_STORE_FILE)
    [ (FileNotFoundError, raise StoreUnreadable);
      (JSONDecodeError, raise MalformedStore) ].

(** [balance_sum += x] for a float [x]; [balance_sum] starts as the
    [int] zero. *)
Definition add_float (balance_sum : pyval) (x : Py.float) : result pyval :=
  match balance_sum with
  | PInt z => f ← Py.of_int z; Ok (PFloat (Py.fadd f x))
  | PFloat f => Ok (PFloat (Py.fadd f x))
  | _ => Raise TypeError
  end.

(** The loop of [calculate_balance], from the state [(iban_found,
    balance_sum)]. *)
Fixpoint sum_transactions (transactions : list pyval) (iban : str)
    (state : bool * pyval) : result (bool * pyval) :=
  match transactions with
  | [] => Ok state
  | transaction :: rest =>
      transaction_iban ← subscript transaction "IBAN";
      state ← (if py_eq transaction_iban (PStr iban) then
                 amount ← subscript transaction "amount";
                 amount ← to_float amount;
                 balance_sum ← add_float state.2 amount;
                 Ok (true, balance_sum)
               else Ok state);
      sum_transactions rest iban state
  end.

Definition calculate_balance (now : clock) (iban : str) : io bool :=
  iban ← lift (validate_iban iban);
  transactions ← read_transactions_file;
  transactions ← lift (iterate transactions);
  '(iban_found, balance_sum) ←
    lift (sum_transactions transactions iban (false, PInt 0));
  _ ← (if negb iban_found then raise IbanNotFound else mret tt);
  let last_balance :=
    PDict (list_to_map [ (lit "IBAN", PStr iban);
                         (lit "time", PFloat (utc_timestamp now));
                         (lit "BALANCE", balance_sum) ]) in
  balance_list ← try (load BALANCES_STORE_FILE)
                   [ (FileNotFoundError, mret (PList []));
                     (JSONDecodeError, raise MalformedStore) ];
  balance_list ← lift (append balance_list (Ok last_balance));
  _ ← try (dump BALANCES_STORE_FILE balance_list)
        [ (FileNotFoundError, raise StoreUnreadable) ];
  mret true.

(** ** The notions of the specification *)

Module Spec.

(** [^ES[0-9]{22}$] *)
Definition iban_format : regex :=
  Cat Bol (Cat (word "ES") (Cat (rep 22 (Class is_ascii_digit)) Eol)).

(** The number a string of ASCII digits denotes. *)
Definition digits_value (s : str) : Z :=
  fold_left (fun acc c => 10 * acc + Py.digit c) s 0.

(** The rearranged, letter-substituted string of an IBAN: the account
    digits, then [14] and [28] for [E] and [S], then the zeroed check
    code. *)
Definition rearranged (iban : str) : str := skipn 4 iban ++ lit "142800".

Definition expected_check (iban : str) : Z :=
  98 - digits_value (rearranged iban) mod 97.

(** The check code at positions [[2:4)]. *)
Definition check_code (iban : str) : Z := digits_value (slice 2 4 iban).

Definition two_digits (n : Z) : str :=
  [Z.to_N (48 + n / 10); Z.to_N (48 + n mod 10)].

(** The IBAN of twenty account digits, with the check digits the formula
    gives. *)
Definition generate_iban (account : str) : str :=
  lit "ES"
    ++ two_digits (98 - digits_value (account ++ lit "142800") mod 97)
    ++ account.

(** A run of alphabetic characters. *)
Definition alpha_run (w : str) : Prop :=
  w <> [] /\ forallb is_ascii_alpha w = true.

(** A first run followed by more runs, each after its separator. *)
Definition join_runs (first : str) (more : list (char * str)) : str :=
  first ++ flat_map (fun p => p.1 :: p.2) more.

(** At least two runs of alphabetic characters, each separated from the
    next by a white-space character. *)
Definition separated_runs (s : str) : Prop :=
  exists first more,
    more <> [] /\ alpha_run first
    /\ Forall (fun p => is_space p.1 = true /\ alpha_run p.2) more
    /\ s = join_runs first more.

(** What claim C8 says [validate_concept] accepts. *)
Definition concept_ok (s : str) : Prop :=
  (10 <= length s <= 30)%nat /\ separated_runs s.

(** The number a run of decimal digits denotes. *)
Definition decimals_value (cs : str) : option Z :=
  fold_left (fun acc c => a ← acc; v ← decimal_value c;
                          Some (10 * a + Z.of_N v)) cs (Some 0).

(** The day, month and year of a string [DD/MM/YYYY] of decimal
    digits. *)
Definition date_fields (s : str) : option (Z * Z * Z) :=
  match s with
  | [d1; d2; s1; m1; m2; s2; y1; y2; y3; y4] =>
      if N.eqb s1 47 && N.eqb s2 47 then
        d ← decimals_value [d1; d2];
        m ← decimals_value [m1; m2];
        y ← decimals_value [y1; y2; y3; y4];
        Some (d, m, y)
      else None
  | _ => None
  end.

(** The string matches [DD/MM/YYYY] with the day in [[00-31]] and the
    month in [[00-12]]. *)
Definition date_format (s : str) : Prop :=
  exists d m y, date_fields s = Some (d, m, y) /\ d <= 31 /\ m <= 12.

(** The calendar date the string denotes, if it denotes one. *)
Definition read_date (s : str) : option date :=
  match date_fields s with
  | Some (d, m, y) =>
      match make_date y m d with
      | Ok x => Some x
      | Raise _ => None
      end
  | None => None
  end.

(** What becomes of a string that denotes the date [d]: the past is
    refused first, then the years outside [[2025, 2050]]. *)
Definition date_outcome (today : date) (s : str) (d : date) : result str :=
  if date_ltb d today then Raise DateInPast
  else if (year d <? 2025) || (2050 <? year d) then Raise InvalidDateFormat
  else Ok s.

Definition is_ascii (s : str) : bool := forallb (fun c => (c <? 128)%N) s.



(** The six fields on which a duplicate is decided. *)
Definition dedup_fields (t : TransferRequest.t) : list (string * pyval) :=
  [ ("from_iban", PStr (TransferRequest.from_iban t));
    ("to_iban", PStr (TransferRequest.to_iban t));
    ("transfer_date", PStr (TransferRequest.transfer_date t));
    ("transfer_amount", TransferRequest.transfer_amount t);
    ("transfer_concept", PStr (TransferRequest.transfer_concept t));
    ("transfer_type", PStr (TransferRequest.transfer_type t)) ]%string.

(** The record holds the field, and it equals the value. *)
Definition field_agrees (record : pyval) (name : string) (value : pyval)
  : bool :=
  match record with
  | PDict d =>
      match d !! lit name with
      | Some v => py_eq v value
      | None => false
      end
  | _ => false
  end.

(** The stored record agrees with the transfer on all six fields. *)
Definition agrees (record : pyval) (t : TransferRequest.t) : bool :=
  forallb (fun f => field_agrees record f.1 f.2) (dedup_fields t).

(** A record of the transfers store: an object with the six fields. *)
Definition has_fields (record : pyval) : bool :=
  match record with
  | PDict d =>
      forallb (fun name => bool_decide (is_Some (d !! lit name)))
        [ "from_iban"; "to_iban"; "transfer_date"; "transfer_amount";
          "transfer_concept"; "transfer_type" ]%string
  | _ => false
  end.

(** The records of a store: none when the file is yet to be written. *)
Definition ledger (f : file) : option (list pyval) :=
  match f with
  | Json (PList l) => Some l
  | NoFile => Some []
  | _ => None
  end.

(** Every validation of [transfer_request] passes. *)
Definition valid_request (today : date)
    (from_iban to_iban concept transfer_type date : str) (amount : pyval)
  : Prop :=
  validate_iban from_iban = Ok from_iban
  /\ validate_iban to_iban = Ok to_iban
  /\ validate_concept concept = Ok tt
  /\ fullmatch transfer_type_pattern transfer_type = true
  /\ validate_transfer_date today date = Ok date
  /\ exists f, validate_amount amount = Ok f.

(** What claim C2 asks of the input of a deposit: its keys are [IBAN]
    and [AMOUNT], no less and no more. *)
Definition exact_keys (input : gmap str pyval) : Prop :=
  dom input = ({[ lit "IBAN"; lit "AMOUNT" ]} : gset str).

(** The canonical string of a deposit:
    [{alg:<ALG>,typ:<TYPE>,iban:<IBAN>,amount:<AMOUNT>,deposit_date:<TIMESTAMP>}] *)
Definition canonical (alg typ iban amount timestamp : str) : str :=
  lit "{alg:" ++ alg ++ lit ",typ:" ++ typ ++ lit ",iban:" ++ iban
    ++ lit ",amount:" ++ amount ++ lit ",deposit_date:" ++ timestamp
    ++ lit "}".

(** The hexadecimal SHA-256 digest of a string. *)
Definition sha256_hex (s : str) : result str :=
  data ← encode s; Ok (Sha256.hexdigest data).

(** The transaction is of the IBAN. *)
Definition of_iban (iban : str) (transaction : pyval) : bool :=
  field_agrees transaction "IBAN" (PStr iban).

(** The amount of a transaction, as a float. *)
Definition amount_of (transaction : pyval) : option Py.float :=
  match transaction with
  | PDict d =>
      match d !! lit "amount" with
      | Some a =>
          match to_float a with
          | Ok f => Some f
          | Raise _ => None
          end
      | None => None
      end
  | _ => None
  end.

(** A transaction the balance can be computed over: an object with an
    IBAN, and with an amount [float] reads when it is of the IBAN. *)
Definition readable (iban : str) (transaction : pyval) : bool :=
  match transaction with
  | PDict d =>
      bool_decide (is_Some (d !! lit "IBAN"))
      && (negb (of_iban iban transaction)
          || bool_decide (is_Some (amount_of transaction)))
  | _ => false
  end.

(** The sum of the amounts of the transactions of the IBAN, in the order
    of the store. *)
Definition balance (iban : str) (transactions : list pyval) : Py.float :=
  fold_left Py.fadd
    (omap amount_of (filter (fun t => of_iban iban t = true) transactions))
    (S754_zero false).

(** The snapshot appended to the balances store. *)
Definition snapshot (now : clock) (iban : str) (sum : Py.float) : pyval :=
  PDict (list_to_map [ (lit "IBAN", PStr iban);
                       (lit "time", PFloat (utc_timestamp now));
                       (lit "BALANCE", PFloat sum) ]).


End Spec.

(** ** Auxiliary notions of the proofs *)

Module Aux.

Definition is_nil {A} (l : list A) : bool :=
  match l with [] => true | _ => false end.

(** The repeated group of [concept_pattern]: a separator and a run. *)
Definition group : regex :=
  Cat (Class is_space) (plus (Class is_ascii_alpha)).

Definition good (p : char * str) : Prop :=
  is_space p.1 = true /\ Spec.alpha_run p.2.

Definition glue (more : list (char * str)) : str :=
  flat_map (fun p => p.1 :: p.2) more.

(** What [date_pattern] asks of the ten characters of a date. *)
Definition date_shape (s : str) : bool :=
  match s with
  | [d1; d2; s1; m1; m2; s2; y1; y2; y3; y4] =>
      ((in_range 48 50 d1 && is_decimal d2)
       || (is_char 51 d1 && in_range 48 49 d2))
      && is_char 47 s1
      && ((is_char 48 m1 && is_decimal m2)
          || (is_char 49 m1 && in_range 48 50 m2))
      && is_char 47 s2
      && is_decimal y1 && is_decimal y2 && is_decimal y3 && is_decimal y4
  | _ => false
  end.

(** The part of [transfer_request] that follows the validations. *)
Definition store_transfer (transfer_code : TransferRequest.t -> str)
    (new_transfer : TransferRequest.t) : io str :=
  transfer_list ← try (load TRANSFERS_STORE_FILE)
                    [ (FileNotFoundError, mret (PList []));
                      (JSONDecodeError, raise MalformedStore) ];
  existing ← lift (iterate transfer_list);
  _ ← lift (find_duplicate existing new_transfer);
  transfer_list ← lift (append transfer_list
                          (Ok (to_json transfer_code new_transfer)));
  _ ← try (dump TRANSFERS_STORE_FILE transfer_list)
        [ (FileNotFoundError, raise StoreUnreadable);
          (JSONDecodeError, raise MalformedStore) ];
  mret (transfer_code new_transfer).

(** An operation that writes nothing. *)
Definition quiet {A} (m : io A) : Prop := forall st, (m st).2 = st.

(** An operation that leaves the stores as they were when it raises. *)
Definition careful {A} (m : io A) : Prop :=
  forall st e, (m st).1 = Raise e -> (m st).2 = st.

(** A text that has the classes [ps], one character each. *)
Definition matched (ps : list (N -> bool)) (txt : list N) : bool :=
  Nat.eqb (length txt) (length ps) && forallb (fun pc => pc.1 pc.2) (combine ps txt).

End Aux.

(** ** What the operations can raise and write *)

Module Outcome.

(** The exceptions a computation can raise are among [allowed]. *)
Definition fails_within {A} (allowed : list exn) (r : result A) : Prop :=
  forall e, r = Raise e -> In e allowed.

(** The same of an operation on the stores, whatever they hold. *)
Definition raises_within {A} (allowed : list exn) (m : io A) : Prop :=
  forall st e, (m st).1 = Raise e -> In e allowed.

(** An operation that writes to no store but [i]. *)
Definition writes_only {A} (i : store_id) (m : io A) : Prop :=
  forall st j, j <> i -> store j (m st).2 = store j st.

(** An operation whose result depends on no store but [i]. *)
Definition reads_only {A} (i : store_id) (m : io A) : Prop :=
  forall st st', store i st = store i st' -> (m st).1 = (m st').1.

(** An operation that neither reads nor writes the stores. *)
Definition apart {A} (m : io A) : Prop :=
  exists r, forall st, m st = (r, st).

(** A digit of [hexdigest]. *)
Definition is_hex_digit (c : char) : bool :=
  is_ascii_digit c || in_range 97 102 c.

End Outcome.

(** ** The steps of the operations *)

Module Steps.

(** The part of [deposit_into_account] before the deposit is built: the
    IBAN and the amount it reads from the input file. *)
Definition deposit_input (input_file : file) : io (str * Py.float) :=
  input_data ← try (lift (json_load input_file))
                 [ (FileNotFoundError, raise InputNotFound);
                   (JSONDecodeError, raise MalformedStore) ];
  '(deposit_iban, deposit_amount) ←
    try (lift (deposit_iban ← subscript input_data "IBAN";
               deposit_amount ← subscript input_data "AMOUNT";
               Ok (deposit_iban, deposit_amount)))
      [ (KeyError, raise InvalidInputKey) ];
  deposit_iban ← lift (as_str deposit_iban ≫= validate_iban);
  deposit_amount ← lift (as_str deposit_amount);
  _ ← (if negb (fullmatch deposit_amount_pattern deposit_amount)
       then raise InvalidDepositAmount else mret tt);
  deposit_amount_value ← lift (to_float (PStr (skipn 4 deposit_amount)));
  _ ← (if py_eq (PFloat deposit_amount_value) (PInt 0)
       then raise ZeroDeposit else mret tt);
  mret (deposit_iban, deposit_amount_value).

(** The part that follows: the deposit is stored and its signature
    returned. *)
Definition store_deposit (deposit_obj : AccountDeposit.t) : io str :=
  deposit_list ← try (load DEPOSITS_STORE_FILE)
                   [ (FileNotFoundError, mret (PList []));
                     (JSONDecodeError, raise MalformedStore) ];
  deposit_list ← lift (append deposit_list
                            (AccountDeposit.to_json deposit_obj));
  _ ← try (dump DEPOSITS_STORE_FILE deposit_list)
        [ (FileNotFoundError, raise StoreUnreadable);
          (JSONDecodeError, raise MalformedStore) ];
  lift (AccountDeposit.deposit_signature deposit_obj).

(** The part of [calculate_balance] before the balances store is read:
    the IBAN and the sum of its transactions. *)
Definition sum_balance (iban : str) : io (str * pyval) :=
  iban ← lift (validate_iban iban);
  transactions ← read_transactions_file;
  transactions ← lift (iterate transactions);
  '(iban_found, balance_sum) ←
    lift (sum_transactions transactions iban (false, PInt 0));
  _ ← (if negb iban_found then raise IbanNotFound else mret tt);
  mret (iban, balance_sum).

(** The snapshot of a balance. *)
Definition last_balance (now : clock) (iban : str) (balance_sum : pyval)
  : pyval :=
  PDict (list_to_map [ (lit "IBAN", PStr iban);
                       (lit "time", PFloat (utc_timestamp now));
                       (lit "BALANCE", balance_sum) ]).

(** The part that follows: the snapshot is stored. *)
Definition store_balance (now : clock) (iban : str) (balance_sum : pyval)
  : io bool :=
  balance_list ← try (load BALANCES_STORE_FILE)
                   [ (FileNotFoundError, mret (PList []));
                     (JSONDecodeError, raise MalformedStore) ];
  balance_list ← lift (append balance_list
                         (Ok (last_balance now iban balance_sum)));
  _ ← try (dump BALANCES_STORE_FILE balance_list)
        [ (FileNotFoundError, raise StoreUnreadable) ];
  mret true.

End Steps.

(** ** The metaclass of singletons *)

Module SingletonMeta.

Section Meta.
Context {class object args : Type} `{Countable class}.

(** [__call__(cls, *args, **kwargs)], where [_instances] holds the
    instance of each class that has been created and [construct] is
    [super().__call__]: it is called when the class has no instance
    yet, and what it returns is kept. *)
Definition call (construct : class -> args -> result object)
    (cls : class) (a : args) (_instances : gmap class object)
  : result object * gmap class object :=
  match _instances !! cls with
  | Some instance => (Ok instance, _instances)
  | None =>
      match construct cls a with
      | Ok instance => (Ok instance, <[cls := instance]> _instances)
      | Raise e => (Raise e, _instances)
      end
  end.

(** A sequence of calls, each with the constructor of its time; the
    results are in the order of the calls. *)
Fixpoint calls
    (l : list ((class -> args -> result object) * class * args))
    (_instances : gmap class object)
  : list (result object) * gmap class object :=
  match l with
  | [] => ([], _instances)
  | (construct, cls, a) :: rest =>
      let '(r, _instances) := call construct cls a _instances in
      let '(rs, _instances) := calls rest _instances in
      (r :: rs, _instances)
  end.

End Meta.

End SingletonMeta.

(** Splits the tests of a goal, outermost first. *)
Ltac split_tests :=
  repeat match goal with
         | |- context [if ?b then _ else _] =>
             match b with
             | context [if _ then _ else _] => fail 1
             | _ => destruct b eqn:?; cbn -[is_decimal in_range is_char]
             end
         end.

(** * Properties *)

(** ** The matcher *)

Module ReFacts.

Lemma flat_map_nil {A B} (f : A -> list B) (l : list A) :
  (forall y, f y = []) -> flat_map f l = [].
Proof. intros H. induction l; simpl; [|rewrite H]; auto. Qed.

Lemma repeat_step_fuel step n : forall m x,
  (length x.2 <= n)%nat -> (length x.2 <= m)%nat ->
  repeat_step step n x = repeat_step step m x.
Proof.
  induction n as [|n IH]; intros m x Hn Hm.
  - destruct m as [|m]; simpl; [reflexivity|].
    rewrite flat_map_nil; [reflexivity|].
    intros y. destruct (Nat.ltb_spec (length y.2) (length x.2)); [lia|reflexivity].
  - destruct m as [|m]; simpl.
    + rewrite flat_map_nil; [reflexivity|].
      intros y. destruct (Nat.ltb_spec (length y.2) (length x.2)); [lia|reflexivity].
    + f_equal. apply flat_map_ext. intros y.
      destruct (Nat.ltb_spec (length y.2) (length x.2)); [|reflexivity].
      apply IH; lia.
Qed.

(** One round of a star, then the star again. *)
Lemma star_unfold r x :
  ends (Star r) x =
  flat_map (fun y => if (length y.2 <? length x.2)%nat
                     then ends (Star r) y else []) (ends r x) ++ [x].
Proof.
  simpl. destruct (length x.2) as [|n] eqn:E.
  - simpl. rewrite flat_map_nil; [reflexivity|].
    intros y. destruct (Nat.ltb_spec (length y.2) 0); [lia|reflexivity].
  - simpl. f_equal. apply flat_map_ext. intros y. rewrite E.
    destruct (Nat.ltb_spec (length y.2) (S n)); [|reflexivity].
    apply repeat_step_fuel; lia.
Qed.

Lemma star_zero r x : In x (ends (Star r) x).
Proof. rewrite star_unfold. apply in_or_app. right. left. reflexivity. Qed.

Lemma star_more r x y z :
  In y (ends r x) -> (length y.2 < length x.2)%nat ->
  In z (ends (Star r) y) -> In z (ends (Star r) x).
Proof.
  intros Hy Hlt Hz. rewrite star_unfold. apply in_or_app. left.
  apply in_flat_map. exists y. split; [assumption|].
  destruct (Nat.ltb_spec (length y.2) (length x.2)); [assumption|lia].
Qed.

(** Induction over the rounds of a star. *)
Lemma star_ind r (P : pos -> pos -> Prop) :
  (forall x, P x x) ->
  (forall x y z, In y (ends r x) -> (length y.2 < length x.2)%nat ->
                 P y z -> P x z) ->
  forall x z, In z (ends (Star r) x) -> P x z.
Proof.
  intros H0 Hstep x. 
  remember (length x.2) as n eqn:En. revert x En.
  induction n as [n IH] using lt_wf_ind. intros x En z Hz.
  rewrite star_unfold in Hz. apply in_app_or in Hz. destruct Hz as [Hz|Hz].
  - apply in_flat_map in Hz. destruct Hz as (y & Hy & Hz).
    destruct (Nat.ltb_spec (length y.2) (length x.2)) as [Hlt|]; [|destruct Hz].
    apply (Hstep x y z Hy Hlt). apply (IH (length y.2)); [lia|reflexivity|assumption].
  - destruct Hz as [<-|[]]. apply H0.
Qed.

Lemma in_cat r1 r2 x z :
  In z (ends (Cat r1 r2) x) <-> exists y, In y (ends r1 x) /\ In z (ends r2 y).
Proof. simpl. apply in_flat_map. Qed.

Lemma in_class p a s y :
  In y (ends (Class p) (a, s)) <->
  exists c t, s = c :: t /\ p c = true /\ y = (false, t).
Proof.
  simpl. destruct s as [|c t].
  - split; [intros []|intros (c & t & H & _); discriminate].
  - destruct (p c) eqn:E; split.
    + intros [<-|[]]. eauto.
    + intros (c' & t' & [= <- <-] & _ & ->). left. reflexivity.
    + intros [].
    + intros (c' & t' & [= <- <-] & H & _). congruence.
Qed.

(** A fixed number of characters of one class. *)
Lemma ends_rep_class p n : forall a s,
  ends (rep n (Class p)) (a, s) =
  if (n <=? length s)%nat && forallb p (firstn n s)
  then [(a && (n =? 0)%nat, skipn n s)] else [].
Proof.
  induction n as [|n IH]; intros a s.
  - simpl. rewrite andb_true_r. reflexivity.
  - cbn [rep]. cbn [ends]. destruct s as [|c t]; [reflexivity|].
    cbn [snd length firstn forallb skipn]. destruct (p c).
    + cbn [flat_map]. rewrite IH, app_nil_r. cbn [andb].
      change (S n <=? S (length t))%nat with (n <=? length t)%nat.
      destruct ((n <=? length t)%nat && forallb p (firstn n t)); [|reflexivity].
      rewrite andb_false_r. reflexivity.
    + cbn [flat_map andb]. rewrite andb_false_r. reflexivity.
Qed.

(** At most [n] characters of one class. *)
Lemma in_upto_class p n : forall a s y,
  In y (ends (upto n (Class p)) (a, s)) <->
  exists k, (k <= n)%nat /\ (k <= length s)%nat
            /\ forallb p (firstn k s) = true
            /\ y = (a && (k =? 0)%nat, skipn k s).
Proof.
  induction n as [|n IH]; intros a s y.
  - simpl. split.
    + intros [<-|[]]. exists 0%nat. rewrite andb_true_r. simpl. repeat split; lia.
    + intros (k & Hk & _ & _ & ->). assert (k = 0)%nat as -> by lia.
      rewrite andb_true_r. left. reflexivity.
  - cbn [upto]. cbn [ends]. rewrite in_app_iff, in_flat_map. split.
    + intros [(z & Hz & Hy)|[<-|[]]].
      * destruct s as [|c t]; [destruct Hz|]. cbn [snd] in Hz.
        destruct (p c) eqn:E; [|destruct Hz]. destruct Hz as [<-|[]].
        apply IH in Hy. destruct Hy as (k & Hk & Hl & Hp & ->).
        exists (S k). cbn [length firstn forallb skipn]. rewrite E, Hp.
        repeat split; try lia. destruct a; reflexivity.
      * exists 0%nat. rewrite andb_true_r. simpl. repeat split; lia.
    + intros (k & Hk & Hl & Hp & ->). destruct k as [|k].
      * right. left. rewrite andb_true_r. reflexivity.
      * left. destruct s as [|c t]; [simpl in Hl; lia|].
        cbn [length firstn forallb skipn] in *.
        apply andb_true_iff in Hp. destruct Hp as [Hc Hp].
        exists (false, t). cbn [snd]. rewrite Hc. split; [left; reflexivity|].
        apply IH. exists k. rewrite andb_false_r. repeat split; try lia; auto.
Qed.

Lemma forallb_firstn_add {A} (p : A -> bool) a b : forall s,
  forallb p (firstn (a + b) s)
  = forallb p (firstn a s) && forallb p (firstn b (skipn a s)).
Proof.
  induction a as [|a IH]; intros s; [reflexivity|].
  destruct s as [|c t]; simpl.
  - destruct b; reflexivity.
  - rewrite IH. apply andb_assoc.
Qed.

(** Between [lo] and [hi] characters of one class. *)
Lemma in_between_class p lo hi a s y :
  (lo <= hi)%nat ->
  In y (ends (between lo hi (Class p)) (a, s)) <->
  exists k, (lo <= k <= hi)%nat /\ (k <= length s)%nat
            /\ forallb p (firstn k s) = true
            /\ y = (a && (k =? 0)%nat, skipn k s).
Proof.
  intros Hlh. unfold between. rewrite in_cat. split.
  - intros (z & Hz & Hy). rewrite ends_rep_class in Hz.
    destruct ((lo <=? length s)%nat && forallb p (firstn lo s)) eqn:E; [|destruct Hz].
    destruct Hz as [<-|[]]. apply andb_true_iff in E. destruct E as [E1 E2].
    apply Nat.leb_le in E1.
    apply in_upto_class in Hy. destruct Hy as (k & Hk & Hl & Hp & ->).
    rewrite length_skipn in Hl.
    exists (lo + k)%nat. repeat split; try lia.
    + rewrite forallb_firstn_add, E2, Hp. reflexivity.
    + rewrite skipn_skipn. f_equal; [|f_equal; lia].
      destruct a, lo, k; reflexivity.
  - intros (k & Hk & Hl & Hp & ->).
    replace k with (lo + (k - lo))%nat in Hp by lia.
    rewrite forallb_firstn_add in Hp. apply andb_true_iff in Hp.
    destruct Hp as [Hp1 Hp2].
    exists (a && (lo =? 0)%nat, skipn lo s). split.
    + rewrite ends_rep_class, Hp1.
      destruct (Nat.leb_spec lo (length s)); [|lia]. left. reflexivity.
    + apply in_upto_class. exists (k - lo)%nat. rewrite length_skipn, skipn_skipn.
      repeat split; try lia; [assumption|].
      f_equal; [|f_equal; lia]. destruct a; simpl; [|reflexivity].
      destruct lo as [|lo]; simpl.
      * rewrite Nat.sub_0_r. reflexivity.
      * destruct k; [lia|reflexivity].
Qed.

Lemma fullmatch_iff r s :
  fullmatch r s = true <-> exists a, In (a, []) (ends r (true, s)).
Proof.
  unfold fullmatch. rewrite existsb_exists. split.
  - intros ([a t] & Hin & Hend). destruct t; [|discriminate]. eauto.
  - intros (a & Hin). exists (a, []). auto.
Qed.

(** Under [fullmatch] a final [$] changes nothing. *)
Lemma fullmatch_eol r s : fullmatch (Cat r Eol) s = fullmatch r s.
Proof.
  unfold fullmatch. cbn [ends].
  induction (ends r (true, s)) as [|[a t] l IH]; [reflexivity|].
  cbn [flat_map existsb]. rewrite existsb_app, IH. f_equal.
  cbn [ends]. destruct t as [|c [|c' t]]; cbn; try reflexivity.
  destruct (N.eqb c 10); reflexivity.
Qed.

End ReFacts.

(** ** validate_iban *)

Module IbanFacts.
Import ReFacts.

Lemma cat_assoc r1 r2 r3 x :
  ends (Cat (Cat r1 r2) r3) x = ends (Cat r1 (Cat r2 r3)) x.
Proof.
  cbn [ends]. induction (ends r1 x) as [|y l IH]; [reflexivity|].
  cbn [flat_map]. rewrite flat_map_app, IH. reflexivity.
Qed.

Lemma ends_class_cat p r a s :
  ends (Cat (Class p) r) (a, s) =
  match s with
  | c :: t => if p c then ends r (false, t) else []
  | [] => []
  end.
Proof.
  cbn [ends snd]. destruct s as [|c t]; [reflexivity|].
  destruct (p c); cbn [flat_map]; rewrite ?app_nil_r; reflexivity.
Qed.

Lemma ends_bol_cat r s : ends (Cat Bol r) (true, s) = ends r (true, s).
Proof. cbn [ends fst flat_map]. apply app_nil_r. Qed.

Lemma ends_eps_cat r x : ends (Cat Eps r) x = ends r x.
Proof. cbn [ends flat_map]. apply app_nil_r. Qed.

(** The pattern of the code accepts ES and 22 digits, nothing else. *)
Lemma fullmatch_iban_pattern s :
  fullmatch iban_pattern s = true <->
  exists ds, s = 69%N :: 83%N :: ds /\ length ds = 22%nat
             /\ forallb is_ascii_digit ds = true.
Proof.
  unfold fullmatch, iban_pattern.
  change (word "ES") with (Cat (Class (is_char 69)) (Cat (Class (is_char 83)) Eps)).
  rewrite ends_bol_cat, cat_assoc, ends_class_cat.
  destruct s as [|c1 s].
  { split; [discriminate|]. intros (ds & H & _); discriminate H. }
  unfold is_char at 1. destruct (N.eqb_spec 69 c1) as [<-|Hc1].
  2:{ split; [discriminate|]. intros (ds & [= -> ->] & _). congruence. }
  rewrite cat_assoc, ends_class_cat.
  destruct s as [|c2 ds].
  { split; [discriminate|]. intros (ds & H & _); discriminate H. }
  unfold is_char at 1. destruct (N.eqb_spec 83 c2) as [<-|Hc2].
  2:{ split; [discriminate|]. intros (ds' & [= -> ->] & _). congruence. }
  rewrite ends_eps_cat, ends_rep_class.
  destruct (Nat.leb_spec 22 (length ds)) as [Hl|Hl]; cbn [andb].
  2:{ split; [discriminate|]. intros (ds' & [= <-] & Hlen & _). lia. }
  destruct (forallb is_ascii_digit (firstn 22 ds)) eqn:E.
  - cbn [existsb at_end snd]. rewrite orb_false_r. split.
    + intros H. exists ds. destruct (skipn 22 ds) eqn:Ed; [|discriminate].
      assert (length (skipn 22 ds) = 0%nat) as Hz by (rewrite Ed; reflexivity).
      rewrite length_skipn in Hz.
      assert (length ds = 22%nat) as Hlen by lia.
      rewrite firstn_all2 in E by lia. auto.
    + intros (ds' & [= <-] & Hlen & _).
      rewrite skipn_all2 by lia. reflexivity.
  - split; [discriminate|]. intros (ds' & [= <-] & Hlen & Hd).
    rewrite firstn_all2 in E by lia. congruence.
Qed.

(** The pattern of the specification accepts the same strings. *)
Lemma fullmatch_iban_format s :
  fullmatch Spec.iban_format s = fullmatch iban_pattern s.
Proof.
  rewrite <- (fullmatch_eol iban_pattern). unfold fullmatch, Spec.iban_format, iban_pattern.
  f_equal. rewrite cat_assoc, !ends_bol_cat. symmetry. apply cat_assoc.
Qed.

Lemma digit_not_upper c : is_ascii_digit c = true -> in_range 65 90 c = false.
Proof.
  unfold is_ascii_digit, in_range. intros H.
  apply andb_true_iff in H. destruct H as [_ H%N.leb_le].
  destruct (N.leb_spec 65 c); [lia|reflexivity].
Qed.

Lemma letter_value_digits s :
  forallb is_ascii_digit s = true -> flat_map letter_value s = s.
Proof.
  induction s as [|c t IH]; [reflexivity|]. cbn [forallb flat_map].
  intros [Hc Ht]%andb_true_iff. unfold letter_value at 1.
  rewrite (digit_not_upper c Hc), IH by assumption. reflexivity.
Qed.

Lemma to_ascii_digits s :
  forallb is_ascii_digit s = true -> Py.to_ascii s = s.
Proof.
  induction s as [|c t IH]; [reflexivity|]. cbn [forallb Py.to_ascii map].
  intros [Hc Ht]%andb_true_iff. fold (Py.to_ascii t). rewrite IH by assumption.
  unfold is_ascii_digit, in_range in Hc.
  apply andb_true_iff in Hc. destruct Hc as [_ H%N.leb_le].
  destruct (N.ltb_spec c 128); [reflexivity|lia].
Qed.

Lemma digit_not_blank c : is_ascii_digit c = true -> Py.is_blank c = false.
Proof.
  unfold is_ascii_digit, Py.is_blank, in_range. intros H.
  apply andb_true_iff in H. destruct H as [H1%N.leb_le H2%N.leb_le].
  destruct (N.leb_spec c 13); [lia|]. destruct (N.eqb_spec c 32); [lia|].
  rewrite andb_false_r. reflexivity.
Qed.

Lemma lstrip_digits s : forallb is_ascii_digit s = true -> Py.lstrip s = s.
Proof.
  destruct s as [|c t]; [reflexivity|]. cbn [forallb Py.lstrip].
  intros [Hc _]%andb_true_iff. rewrite (digit_not_blank c Hc). reflexivity.
Qed.

Lemma forallb_rev {A} (p : A -> bool) l : forallb p (rev l) = forallb p l.
Proof.
  induction l as [|x l IH]; [reflexivity|]. cbn [rev forallb].
  rewrite forallb_app, IH. cbn. rewrite andb_true_r. apply andb_comm.
Qed.

Lemma strip_digits s : forallb is_ascii_digit s = true -> Py.strip s = s.
Proof.
  intros H. unfold Py.strip. rewrite (lstrip_digits s H).
  rewrite lstrip_digits by (rewrite forallb_rev; exact H). apply rev_involutive.
Qed.

Lemma sign_digit c t : is_ascii_digit c = true -> Py.sign (c :: t) = (false, c :: t).
Proof.
  unfold is_ascii_digit, in_range. intros H.
  apply andb_true_iff in H. destruct H as [H1%N.leb_le H2%N.leb_le].
  destruct c as [|p]; [reflexivity|].
  do 6 (destruct p as [p|p|]; try reflexivity); lia.
Qed.

Lemma int_digits_value s : forall acc,
  forallb is_ascii_digit s = true ->
  Py.int_digits acc false s
  = Some (fold_left (fun acc c => 10 * acc + Py.digit c) s acc).
Proof.
  induction s as [|c t IH]; intros acc; [reflexivity|]. cbn [forallb Py.int_digits fold_left].
  intros [Hc Ht]%andb_true_iff. rewrite Hc. apply IH, Ht.
Qed.

(** [int] reads a string of ASCII digits as the number it denotes. *)
Lemma int_digits_string s :
  s <> [] -> forallb is_ascii_digit s = true ->
  Py.int s = Ok (Spec.digits_value s).
Proof.
  intros Hne H. unfold Py.int. rewrite (to_ascii_digits s H), (strip_digits s H).
  destruct s as [|c t]; [congruence|].
  pose proof H as H'. cbn [forallb] in H'. apply andb_true_iff in H'. destruct H' as [Hc _].
  rewrite (sign_digit c t Hc), Hc, (int_digits_value (c :: t) 0 H). reflexivity.
Qed.

(** What the code computes on a string of the IBAN format. *)
Lemma validate_iban_format c1 c2 account :
  forallb is_ascii_digit (c1 :: c2 :: account) = true ->
  length account = 20%nat ->
  let iban := 69%N :: 83%N :: c1 :: c2 :: account in
  validate_iban iban =
  if Spec.expected_check iban =? Spec.check_code iban
  then Ok iban else Raise InvalidCheckDigit.
Proof.
  intros Hd Hlen iban.
  assert (fullmatch iban_pattern iban = true) as Hm.
  { apply fullmatch_iban_pattern. exists (c1 :: c2 :: account).
    repeat split; [cbn [length]; lia|exact Hd]. }
  unfold validate_iban. rewrite Hm. cbn [negb].
  cbn [forallb] in Hd. apply andb_true_iff in Hd. destruct Hd as [H1 Hd].
  apply andb_true_iff in Hd. destruct Hd as [H2 Hacc].
  change (firstn 2 iban ++ lit "00" ++ skipn 4 iban)
    with (69%N :: 83%N :: 48%N :: 48%N :: account).
  change (skipn 4 (69%N :: 83%N :: 48%N :: 48%N :: account)) with account.
  change (firstn 4 (69%N :: 83%N :: 48%N :: 48%N :: account)) with (lit "ES00").
  rewrite flat_map_app, (letter_value_digits account Hacc).
  change (flat_map letter_value (lit "ES00")) with (lit "142800").
  rewrite (int_digits_string (account ++ lit "142800")).
  2:{ destruct account; discriminate. }
  2:{ rewrite forallb_app, Hacc. reflexivity. }
  cbn [mbind result_bind].
  change (slice 2 4 iban) with [c1; c2].
  rewrite (int_digits_string [c1; c2]);
    [|discriminate|cbn [forallb]; rewrite H1, H2; reflexivity].
  cbn [mbind result_bind].
  unfold Spec.expected_check, Spec.check_code, Spec.rearranged.
  change (skipn 4 iban) with account. change (slice 2 4 iban) with [c1; c2].
  rewrite (Z.eqb_sym (Spec.digits_value [c1; c2])).
  destruct (_ =? _); reflexivity.
Qed.

Lemma two_digits_ok n :
  0 <= n < 100 ->
  forallb is_ascii_digit (Spec.two_digits n) = true
  /\ Spec.digits_value (Spec.two_digits n) = n.
Proof.
  intros Hn. unfold Spec.two_digits, Spec.digits_value, Py.digit.
  cbn [forallb fold_left]. unfold is_ascii_digit, in_range.
  assert (0 <= n / 10 < 10) by (split; [apply Z.div_pos; lia|apply Z.div_lt_upper_bound; lia]).
  assert (0 <= n mod 10 < 10) by (apply Z.mod_pos_bound; lia).
  rewrite !Z2N.id by lia. split.
  - repeat (apply andb_true_iff; split); try reflexivity; apply N.leb_le; lia.
  - pose proof (Z.div_mod n 10). lia.
Qed.

End IbanFacts.

(** C1.  [validate_iban] fails with [InvalidFormat] exactly on the strings
    that do not match [^ES[0-9]{22}$] in full; on a string of that
    format it returns the input when 98 minus the value of the
    rearranged string modulo 97 is the check code at positions [[2:4)],
    and fails with [InvalidCheckDigit] otherwise; an IBAN whose check
    digits were generated by the formula validates. *)
Theorem validate_iban_correct (iban : str) :
  (validate_iban iban = Raise InvalidFormat
   <-> fullmatch Spec.iban_format iban = false)
  /\ (fullmatch Spec.iban_format iban = true ->
      validate_iban iban =
      if Spec.expected_check iban =? Spec.check_code iban
      then Ok iban else Raise InvalidCheckDigit)
  /\ (forall account,
        iban = Spec.generate_iban account ->
        length account = 20%nat ->
        forallb is_ascii_digit account = true ->
        validate_iban iban = Ok iban).
Proof.
  assert (fullmatch Spec.iban_format iban = true ->
      validate_iban iban =
      if Spec.expected_check iban =? Spec.check_code iban
      then Ok iban else Raise InvalidCheckDigit) as Hfmt.
  { rewrite IbanFacts.fullmatch_iban_format.
    intros (ds & -> & Hlen & Hd)%IbanFacts.fullmatch_iban_pattern.
    destruct ds as [|c1 [|c2 account]]; [discriminate..|].
    apply IbanFacts.validate_iban_format; [exact Hd|cbn [length] in Hlen; lia]. }
  split; [|split].
  - destruct (fullmatch Spec.iban_format iban) eqn:E.
    + rewrite (Hfmt eq_refl). destruct (_ =? _); split; discriminate.
    + rewrite IbanFacts.fullmatch_iban_format in E. unfold validate_iban.
      rewrite E. split; reflexivity.
  - exact Hfmt.
  - intros account -> Hlen Hd.
    set (ck := 98 - Spec.digits_value (account ++ lit "142800") mod 97).
    assert (0 <= ck < 100) as Hck.
    { pose proof (Z.mod_pos_bound (Spec.digits_value (account ++ lit "142800")) 97).
      unfold ck. lia. }
    destruct (IbanFacts.two_digits_ok ck Hck) as [Hd2 Hv2].
    unfold Spec.generate_iban. fold ck.
    change (Spec.two_digits ck) with [Z.to_N (48 + ck / 10); Z.to_N (48 + ck mod 10)] in *.
    change (lit "ES" ++ [Z.to_N (48 + ck / 10); Z.to_N (48 + ck mod 10)] ++ account)
      with (69%N :: 83%N :: Z.to_N (48 + ck / 10) :: Z.to_N (48 + ck mod 10) :: account).
    rewrite IbanFacts.validate_iban_format; [|cbn [forallb] in *; rewrite Hd;
      apply andb_true_iff in Hd2; destruct Hd2 as [-> Hd2];
      apply andb_true_iff in Hd2; destruct Hd2 as [-> _]; reflexivity|exact Hlen].
    unfold Spec.expected_check, Spec.check_code, Spec.rearranged.
    cbn [skipn slice firstn Nat.sub].
    change (firstn 0 account) with (@nil N). change (skipn 0 account) with account.
    fold ck. rewrite Hv2, Z.eqb_refl. reflexivity.
Qed.

Lemma validate_iban_correct_witness :
  validate_iban (lit "ES9121000418450200051332")
  = Ok (lit "ES9121000418450200051332").
Proof.
  apply (proj2 (proj2 (validate_iban_correct (lit "ES9121000418450200051332")))
           (lit "21000418450200051332")); reflexivity.
Defined.

(** ** validate_concept *)

Module ConceptFacts.
Import ReFacts IbanFacts Aux.

(** Any number of characters of one class. *)
Lemma in_star_class p a s z :
  In z (ends (Star (Class p)) (a, s)) <->
  exists w, forallb p w = true /\ s = w ++ z.2 /\ z.1 = a && is_nil w.
Proof.
  split.
  - intros Hz.
    apply (star_ind (Class p)
             (fun x z => exists w, forallb p w = true /\ x.2 = w ++ z.2
                                   /\ z.1 = x.1 && is_nil w)) in Hz;
      [exact Hz| |]; clear.
    + intros x. exists []. rewrite andb_true_r. auto.
    + intros [a s] y z Hy _ (w & Hw & Hs & Hb).
      apply in_class in Hy. destruct Hy as (c & t & -> & Hc & ->).
      exists (c :: w). cbn [forallb fst snd is_nil] in *. rewrite Hc, Hw, Hs, Hb.
      rewrite andb_false_r. auto.
  - intros (w & Hw & -> & Hb). destruct z as [b t]. cbn [fst snd] in *. subst b.
    revert a. induction w as [|c w IH]; intros a.
    + rewrite andb_true_r. apply star_zero.
    + cbn [forallb] in Hw. apply andb_true_iff in Hw. destruct Hw as [Hc Hw].
      apply (star_more _ _ (false, w ++ t)).
      * apply in_class. exists c, (w ++ t). auto.
      * cbn. lia.
      * specialize (IH Hw false). cbn [is_nil andb] in *. rewrite andb_false_r. exact IH.
Qed.

(** One or more characters of one class. *)
Lemma in_plus_class p a s z :
  In z (ends (plus (Class p)) (a, s)) <->
  exists w, w <> [] /\ forallb p w = true /\ s = w ++ z.2 /\ z.1 = false.
Proof.
  unfold plus. rewrite in_cat. split.
  - intros (y & Hy & Hz). apply in_class in Hy. destruct Hy as (c & t & -> & Hc & ->).
    apply in_star_class in Hz. destruct Hz as (w & Hw & -> & Hb).
    exists (c :: w). cbn [forallb]. rewrite Hc, Hw. auto.
  - intros (w & Hne & Hw & -> & Hb). destruct w as [|c w]; [congruence|].
    cbn [forallb] in Hw. apply andb_true_iff in Hw. destruct Hw as [Hc Hw].
    exists (false, w ++ z.2). split.
    + apply in_class. exists c, (w ++ z.2). auto.
    + apply in_star_class. exists w. auto.
Qed.

(** A separator and a run. *)
Lemma in_group a s z :
  In z (ends group (a, s)) <->
  exists p, good p /\ s = (p.1 :: p.2) ++ z.2 /\ z.1 = false.
Proof.
  unfold group. rewrite in_cat. split.
  - intros (y & Hy & Hz). apply in_class in Hy. destruct Hy as (c & t & -> & Hc & ->).
    apply in_plus_class in Hz. destruct Hz as (w & Hne & Hw & -> & Hb).
    exists (c, w). unfold good, Spec.alpha_run. cbn [fst snd]. auto.
  - intros ([c w] & (Hc & Hne & Hw) & -> & Hb). cbn [fst snd] in *.
    exists (false, w ++ z.2). split.
    + apply in_class. exists c, (w ++ z.2). auto.
    + apply in_plus_class. exists w. auto.
Qed.

(** Any number of separators and runs. *)
Lemma in_star_group a s z :
  In z (ends (Star group) (a, s)) <->
  exists more, Forall good more /\ s = glue more ++ z.2
               /\ z.1 = a && is_nil more.
Proof.
  split.
  - intros Hz.
    apply (star_ind group
             (fun x z => exists more, Forall good more /\ x.2 = glue more ++ z.2
                                      /\ z.1 = x.1 && is_nil more)) in Hz;
      [exact Hz| |]; clear.
    + intros x. exists []. rewrite andb_true_r. auto.
    + intros [a s] y z Hy _ (more & Hm & Hs & Hb). destruct y as [b t].
      apply in_group in Hy. destruct Hy as (p & Hp & -> & Hy).
      cbn [fst snd] in *. subst b t.
      exists (p :: more). cbn [glue flat_map is_nil]. fold (glue more).
      rewrite Hb, andb_false_r, <- app_assoc. auto.
  - intros (more & Hm & -> & Hb). destruct z as [b t]. cbn [fst snd] in *. subst b.
    revert a. induction more as [|p more IH]; intros a.
    + rewrite andb_true_r. apply star_zero.
    + apply Forall_cons in Hm. destruct Hm as [Hp Hm].
      apply (star_more _ _ (false, glue more ++ t)).
      * apply in_group. exists p. cbn [glue flat_map fst snd].
        fold (glue more). rewrite <- app_assoc. auto.
      * cbn [glue flat_map snd]. fold (glue more).
        rewrite !length_app. cbn [length]. lia.
      * specialize (IH Hm false). cbn [is_nil andb] in *. rewrite andb_false_r. exact IH.
Qed.

(** The body of the pattern accepts the separated runs. *)
Lemma fullmatch_runs s :
  fullmatch (Cat (plus (Class is_ascii_alpha)) (plus group)) s = true
  <-> Spec.separated_runs s.
Proof.
  rewrite fullmatch_iff. unfold Spec.separated_runs, Spec.join_runs. split.
  - intros (a & H). apply in_cat in H. destruct H as ([b t] & Hy & Hz).
    apply in_plus_class in Hy. destruct Hy as (first & Hne & Hw & -> & _).
    unfold plus in Hz. apply in_cat in Hz. destruct Hz as ([b' t'] & Hy' & Hz).
    cbn [fst snd] in *.
    apply in_group in Hy'. destruct Hy' as (p & Hp & -> & _). cbn [snd] in *.
    apply in_star_group in Hz. destruct Hz as (more & Hm & -> & _). cbn [snd].
    exists first, (p :: more). repeat split; auto.
    cbn [flat_map]. fold (glue more). rewrite app_nil_r. reflexivity.
  - intros (first & more & Hne & [Hf1 Hf2] & Hm & ->).
    destruct more as [|p more]; [congruence|].
    apply Forall_cons in Hm. destruct Hm as [Hp Hm].
    exists false. apply in_cat. exists (false, glue (p :: more)). split.
    + apply in_plus_class. exists first. auto.
    + unfold plus. apply in_cat. exists (false, glue more). split.
      * apply in_group. exists p. auto.
      * apply in_star_group. exists more. rewrite app_nil_r. auto.
Qed.

(** The look-ahead: 10 to 30 characters other than a line feed, up to
    the end or to a line feed that ends the subject. *)
Lemma lookahead_iff s :
  ends (Cat Bol (Cat (between 10 30 (Class is_dot)) Eol)) (true, s) <> []
  <-> exists k, (10 <= k <= 30)%nat /\ (k <= length s)%nat
                /\ forallb is_dot (firstn k s) = true
                /\ (skipn k s = [] \/ skipn k s = [10%N]).
Proof.
  rewrite ends_bol_cat. split.
  - intros H. destruct (ends _ _) as [|z l] eqn:E; [congruence|].
    assert (In z (ends (Cat (between 10 30 (Class is_dot)) Eol) (true, s))) as Hz
      by (rewrite E; left; reflexivity).
    apply in_cat in Hz. destruct Hz as (y & Hy & Hz).
    apply in_between_class in Hy; [|lia]. destruct Hy as (k & Hk & Hl & Hp & ->).
    exists k. repeat split; try lia; [exact Hp|].
    cbn [ends] in Hz. unfold at_eol in Hz. cbn [snd] in Hz.
    destruct (skipn k s) as [|c [|c' t]]; auto.
    + destruct (N.eqb_spec c 10) as [Hc|Hc]; [subst c; auto|destruct Hz].
    + destruct Hz.
  - intros (k & Hk & Hl & Hp & Hend) H.
    assert (In (true && (k =? 0)%nat, skipn k s)
              (ends (Cat (between 10 30 (Class is_dot)) Eol) (true, s))) as Hin.
    { apply in_cat. exists (true && (k =? 0)%nat, skipn k s). split.
      - apply in_between_class; [lia|]. exists k. repeat split; auto; lia.
      - cbn [ends]. unfold at_eol. cbn [snd].
        destruct Hend as [->| ->]; left; reflexivity. }
    rewrite H in Hin. destruct Hin.
Qed.

Lemma ends_ahead_cat l r x :
  ends (Cat (Ahead l) r) x = match ends l x with [] => [] | _ => ends r x end.
Proof.
  cbn [ends]. destruct (ends l x); cbn [flat_map]; rewrite ?app_nil_r; reflexivity.
Qed.

Lemma fullmatch_concept_pattern s :
  fullmatch concept_pattern s = true <->
  ends (Cat Bol (Cat (between 10 30 (Class is_dot)) Eol)) (true, s) <> []
  /\ Spec.separated_runs s.
Proof.
  rewrite <- fullmatch_runs. unfold concept_pattern.
  rewrite <- (fullmatch_eol (Cat (plus (Class is_ascii_alpha)) (plus group))).
  unfold fullmatch at 1. rewrite ends_bol_cat, ends_ahead_cat.
  destruct (ends (Cat Bol (Cat (between 10 30 (Class is_dot)) Eol)) (true, s)).
  - cbn. split; [discriminate|]. intros [H _]. congruence.
  - unfold fullmatch, group. split.
    + intros H. split; [discriminate|exact H].
    + intros [_ H]. exact H.
Qed.

(** A string of separated runs ends with a letter. *)
Lemma runs_last s :
  Spec.separated_runs s ->
  exists t c, s = t ++ [c] /\ is_ascii_alpha c = true.
Proof.
  intros (first & more & Hne & _ & Hm & ->). unfold Spec.join_runs.
  destruct (exists_last Hne) as (more' & [sep r] & ->).
  apply Forall_app in Hm. destruct Hm as [_ Hm].
  apply Forall_cons in Hm. destruct Hm as [(_ & Hr & Ha) _]. cbn [snd] in *.
  destruct (exists_last Hr) as (r' & c & ->).
  rewrite forallb_app in Ha. apply andb_true_iff in Ha. destruct Ha as [_ Ha].
  cbn in Ha. rewrite andb_true_r in Ha.
  exists (first ++ flat_map (fun p => p.1 :: p.2) more' ++ sep :: r'), c.
  split; [|exact Ha].
  rewrite flat_map_app. cbn [flat_map fst snd]. rewrite app_nil_r.
  rewrite <- !app_assoc. reflexivity.
Qed.

Lemma forallb_is_dot s : forallb is_dot s = true <-> ~ In 10%N s.
Proof.
  rewrite forallb_forall. unfold is_dot. split.
  - intros H Hin. specialize (H _ Hin). discriminate H.
  - intros H c Hc. destruct (N.eqb_spec c 10) as [->|]; [contradiction|reflexivity].
Qed.

(** What the pattern accepts. *)
Lemma concept_pattern_accepts s :
  fullmatch concept_pattern s = true <->
  (10 <= length s <= 30)%nat /\ Spec.separated_runs s /\ ~ In 10%N s.
Proof.
  rewrite fullmatch_concept_pattern, lookahead_iff. split.
  - intros [(k & Hk & Hl & Hp & Hend) Hruns].
    destruct (runs_last s Hruns) as (t & c & -> & Hc).
    assert (k = length (t ++ [c])) as ->.
    { destruct (Nat.eq_dec k (length (t ++ [c]))) as [|Hne]; [assumption|exfalso].
      rewrite length_app in *. cbn [length] in *.
      assert (k <= length t)%nat as Hkt by lia.
      rewrite skipn_app in Hend. replace (k - length t)%nat with 0%nat in Hend by lia.
      cbn [skipn] in Hend. destruct Hend as [Hend|Hend].
      - apply app_eq_nil in Hend. destruct Hend as [_ Hend]. discriminate Hend.
      - destruct (skipn k t) as [|c' t'] eqn:Es.
        + cbn in Hend. injection Hend as ->. discriminate Hc.
        + cbn in Hend. injection Hend as _ Hend.
          apply app_eq_nil in Hend. destruct Hend as [_ Hend]. discriminate Hend. }
    rewrite firstn_all in Hp. apply forallb_is_dot in Hp. auto.
  - intros (Hlen & Hruns & Hnl). split; [|exact Hruns].
    exists (length s). rewrite firstn_all, skipn_all.
    repeat split; try lia; [apply forallb_is_dot; exact Hnl|auto].
Qed.

End ConceptFacts.

(** C8, as the code has it.  [validate_concept] succeeds exactly on the
    strings of 10 to 30 characters that consist of at least two runs of
    alphabetic characters, each separated from the next by one
    white-space character, and that hold no line feed; on every other
    string it fails with [InvalidConcept]. *)
Theorem validate_concept_accepts (concept : str) :
  (validate_concept concept = Ok tt
   <-> Spec.concept_ok concept /\ ~ In 10%N concept)
  /\ (validate_concept concept = Ok tt
      \/ validate_concept concept = Raise InvalidConcept).
Proof.
  unfold validate_concept, Spec.concept_ok.
  pose proof (ConceptFacts.concept_pattern_accepts concept) as H.
  destruct (fullmatch concept_pattern concept); cbn [negb].
  - split; [|auto]. split; [intros _; tauto|reflexivity].
  - split; [|auto]. split; [discriminate|].
    intros [[Hl Hr] Hn]. destruct H as [_ H]. discriminate H. tauto.
Qed.

(** C8, as it is stated, fails on two words separated by a line feed:
    the string has eleven characters and two separated runs, and is
    rejected. *)
Lemma validate_concept_line_feed :
  let concept := lit "hello" ++ [10%N] ++ lit "world" in
  Spec.concept_ok concept
  /\ validate_concept concept = Raise InvalidConcept.
Proof.
  split; [|reflexivity]. split; [cbn; lia|].
  exists (lit "hello"), [(10%N, lit "world")].
  repeat split; try discriminate; try reflexivity.
  repeat constructor; discriminate.
Qed.

(** ** validate_transfer_date *)

Module DateFacts.
Import ReFacts IbanFacts Aux.

(** The pattern accepts the strings of the shape, nothing else. *)
Lemma fullmatch_date_pattern s : fullmatch date_pattern s = date_shape s.
Proof.
  unfold fullmatch, date_pattern.
  do 11 (try (destruct s as [|? s])); cbn -[is_decimal in_range is_char];
    split_tests; try reflexivity; try congruence.
Qed.

(** *** Decimal digits *)

Lemma decimal_value_run c v :
  decimal_value c = Some v ->
  exists lo, In lo decimal_runs /\ (lo <= c <= lo + 9)%N /\ v = (c - lo)%N.
Proof.
  unfold decimal_value.
  destruct (find _ decimal_runs) as [lo|] eqn:E; [|discriminate].
  intros [= <-]. apply find_some in E. destruct E as [Hin Hr].
  unfold in_range in Hr. apply andb_true_iff in Hr. destruct Hr as [H1%N.leb_le H2%N.leb_le].
  exists lo. auto.
Qed.

Lemma decimal_runs_ascii lo :
  In lo decimal_runs -> lo = 48%N \/ (1632 <= lo)%N.
Proof.
  intros H.
  assert (forallb (fun lo => N.eqb lo 48 || N.leb 1632 lo) decimal_runs = true) as Hall
    by reflexivity.
  rewrite forallb_forall in Hall. specialize (Hall lo H).
  apply orb_true_iff in Hall. destruct Hall as [H1%N.eqb_eq|H2%N.leb_le]; auto.
Qed.

Lemma decimal_runs_not_space lo k :
  In lo decimal_runs -> (k <= 9)%N -> is_space (lo + k) = false.
Proof.
  intros H Hk.
  assert (forallb (fun lo => forallb (fun k => negb (is_space (lo + k)))
                               [0; 1; 2; 3; 4; 5; 6; 7; 8; 9]%N)
            decimal_runs = true) as Hall by (vm_compute; reflexivity).
  rewrite forallb_forall in Hall. specialize (Hall lo H).
  rewrite forallb_forall in Hall. apply negb_true_iff, Hall.
  assert (k = 0 \/ k = 1 \/ k = 2 \/ k = 3 \/ k = 4 \/ k = 5 \/ k = 6 \/ k = 7
          \/ k = 8 \/ k = 9)%N as Hcases by lia.
  cbn [In]. intuition auto.
Qed.

Lemma decimal_value_bound c v : decimal_value c = Some v -> (v <= 9)%N.
Proof. intros (lo & _ & H & ->)%decimal_value_run. lia. Qed.

(** A decimal digit of ASCII is one of [0] to [9]. *)
Lemma decimal_value_ascii c v :
  decimal_value c = Some v -> (c < 128)%N -> c = (48 + v)%N.
Proof.
  intros (lo & Hin & H & ->)%decimal_value_run Hc.
  destruct (decimal_runs_ascii lo Hin) as [->|]; lia.
Qed.

Lemma ascii_digit_decimal c :
  is_ascii_digit c = true -> decimal_value c = Some (c - 48)%N.
Proof.
  intros H. unfold decimal_value, decimal_runs. cbn [find].
  change (in_range 48 (48 + 9) c) with (is_ascii_digit c). rewrite H. reflexivity.
Qed.

(** What [to_ascii] makes of a decimal digit. *)
Lemma to_ascii_decimal c v :
  decimal_value c = Some v ->
  Py.to_ascii [c] = [(48 + v)%N] /\ is_ascii_digit (48 + v) = true
  /\ Py.digit (48 + v) = Z.of_N v.
Proof.
  intros H. pose proof (decimal_value_bound c v H) as Hv.
  split; [|split].
  - cbn [Py.to_ascii map]. destruct (N.ltb_spec c 128) as [Hc|Hc].
    + rewrite (decimal_value_ascii c v H Hc). reflexivity.
    + destruct (decimal_value_run c v H) as (lo & Hin & Hr & Hk).
      replace c with (lo + v)%N at 1 by lia.
      rewrite (decimal_runs_not_space lo v Hin Hv), H. reflexivity.
  - unfold is_ascii_digit, in_range. apply andb_true_iff.
    split; apply N.leb_le; lia.
  - unfold Py.digit. lia.
Qed.

Lemma fold_decimals_none cs :
  fold_left (fun acc c => a ← acc; v ← decimal_value c;
                          Some (10 * a + Z.of_N v)) cs None = None.
Proof. induction cs; [reflexivity|exact IHcs]. Qed.

Lemma to_ascii_decimals cs : forall acc z,
  fold_left (fun acc c => a ← acc; v ← decimal_value c;
                          Some (10 * a + Z.of_N v)) cs (Some acc) = Some z ->
  forallb is_ascii_digit (Py.to_ascii cs) = true
  /\ fold_left (fun a c => 10 * a + Py.digit c) (Py.to_ascii cs) acc = z.
Proof.
  induction cs as [|c cs IH]; intros acc z H.
  - cbn in *. split; congruence.
  - cbn [fold_left] in H. cbn [mbind option_bind] in H.
    destruct (decimal_value c) as [v|] eqn:E.
    2:{ cbn in H. rewrite fold_decimals_none in H. discriminate. }
    cbn in H. apply IH in H. destruct H as [H1 H2].
    destruct (to_ascii_decimal c v E) as (Ha & Hd & Hv).
    change (Py.to_ascii (c :: cs)) with (Py.to_ascii [c] ++ Py.to_ascii cs).
    rewrite Ha. cbn [app forallb fold_left]. rewrite Hd, H1, Hv. auto.
Qed.

(** [int] reads a run of decimal digits as the number it denotes. *)
Lemma int_decimals cs z :
  cs <> [] -> Spec.decimals_value cs = Some z -> Py.int cs = Ok z.
Proof.
  intros Hne H. apply to_ascii_decimals in H. destruct H as [Hd Hz].
  unfold Py.int. rewrite (strip_digits _ Hd).
  destruct (Py.to_ascii cs) as [|c t] eqn:E.
  { destruct cs; [congruence|discriminate]. }
  pose proof Hd as Hd'. cbn [forallb] in Hd'. apply andb_true_iff in Hd'.
  destruct Hd' as [Hc _].
  rewrite (sign_digit c t Hc), Hc, (int_digits_value (c :: t) 0 Hd), Hz. reflexivity.
Qed.

End DateFacts.

Module StrptimeFacts.
Import ReFacts IbanFacts Aux DateFacts.

Lemma take_classes_some ps : forall s txt rest,
  take_classes ps s = Some (txt, rest) ->
  s = txt ++ rest /\ length txt = length ps
  /\ forallb (fun pc => pc.1 pc.2) (combine ps txt) = true.
Proof.
  induction ps as [|p ps IH]; intros s txt rest H.
  - cbn in H. injection H as <- <-. auto.
  - destruct s as [|c t]; [discriminate|]. cbn [take_classes] in H.
    destruct (p c) eqn:Ep; [|discriminate].
    destruct (take_classes ps t) as [[txt' rest']|] eqn:E; [|discriminate].
    cbn in H. injection H as <- <-.
    apply IH in E. destruct E as (-> & Hl & Hc).
    cbn [length combine forallb fst snd]. rewrite Ep, Hc, Hl. auto.
Qed.

Lemma take_classes_ok ps : forall txt rest,
  length txt = length ps ->
  forallb (fun pc => pc.1 pc.2) (combine ps txt) = true ->
  take_classes ps (txt ++ rest) = Some (txt, rest).
Proof.
  induction ps as [|p ps IH]; intros txt rest Hl Hc.
  - destruct txt; [reflexivity|discriminate].
  - destruct txt as [|c txt]; [discriminate|].
    cbn [combine forallb fst snd] in Hc. apply andb_true_iff in Hc.
    destruct Hc as [Hp Hc]. cbn [app take_classes]. rewrite Hp.
    rewrite IH by (cbn in Hl; auto; lia). reflexivity.
Qed.

Lemma in_field alts s txt rest :
  (txt, rest) ∈ field alts s <->
  exists ps, ps ∈ alts /\ take_classes ps s = Some (txt, rest).
Proof. unfold field. apply list_elem_of_omap. Qed.

(** A field followed by a slash, on a subject whose first three
    characters are a digit, a character that is no slash, and a slash:
    the field is the first two characters. *)
Lemma field_then_slash alts c1 c2 t txt r1 sl r2 :
  Forall (fun ps => length ps = 1%nat \/ length ps = 2%nat) alts ->
  c2 <> 47%N ->
  (txt, r1) ∈ field alts (c1 :: c2 :: 47%N :: t) ->
  (sl, r2) ∈ field [[is_char 47]] r1 ->
  txt = [c1; c2] /\ r2 = t.
Proof.
  intros Hlen Hc2 (ps & Hps & Htake)%in_field (ps' & Hps' & Htake')%in_field.
  apply list_elem_of_singleton in Hps'. subst ps'.
  apply take_classes_some in Htake. destruct Htake as (Hs & Hl & _).
  apply take_classes_some in Htake'. destruct Htake' as (-> & Hl' & Hc').
  rewrite Forall_forall in Hlen.
  destruct sl as [|c [|? ?]]; try discriminate.
  cbn [combine forallb fst snd] in Hc'. unfold is_char in Hc'.
  rewrite andb_true_r in Hc'. apply N.eqb_eq in Hc'. subst c.
  destruct (Hlen ps Hps) as [H1|H2].
  - destruct txt as [|a [|? ?]]; cbn in Hl; try lia.
    cbn in Hs. congruence.
  - destruct txt as [|a [|b [|? ?]]]; cbn in Hl; try lia.
    cbn in Hs. injection Hs as <- <- <-. auto.
Qed.

Lemma decimal_not_slash c : is_decimal c = true -> c <> 47%N.
Proof. intros H ->. discriminate H. Qed.

(** The tests of [date_shape], one by one. *)
Lemma date_shape_tests d1 d2 s1 m1 m2 s2 y1 y2 y3 y4 :
  date_shape [d1; d2; s1; m1; m2; s2; y1; y2; y3; y4] = true ->
  ((in_range 48 50 d1 = true /\ is_decimal d2 = true)
   \/ (d1 = 51%N /\ in_range 48 49 d2 = true))
  /\ s1 = 47%N
  /\ ((m1 = 48%N /\ is_decimal m2 = true)
      \/ (m1 = 49%N /\ in_range 48 50 m2 = true))
  /\ s2 = 47%N
  /\ is_decimal y1 = true /\ is_decimal y2 = true
  /\ is_decimal y3 = true /\ is_decimal y4 = true.
Proof.
  unfold date_shape, is_char. rewrite !andb_true_iff, !orb_true_iff, !andb_true_iff.
  rewrite !N.eqb_eq. intuition auto.
Qed.

Lemma in_range_decimal lo hi c :
  (48 <= lo)%N -> (hi <= 57)%N -> in_range lo hi c = true -> is_decimal c = true.
Proof.
  unfold in_range. intros Hlo Hhi [H1%N.leb_le H2%N.leb_le]%andb_true_iff.
  unfold is_decimal. rewrite ascii_digit_decimal; [reflexivity|].
  unfold is_ascii_digit, in_range. apply andb_true_iff. split; apply N.leb_le; lia.
Qed.

(** Every match of [strptime] on a string of the shape reads the
    fields where they stand. *)
Lemma strptime_matches_shape d1 d2 s1 m1 m2 s2 y1 y2 y3 y4 x :
  date_shape [d1; d2; s1; m1; m2; s2; y1; y2; y3; y4] = true ->
  x ∈ strptime_matches [d1; d2; s1; m1; m2; s2; y1; y2; y3; y4] ->
  x = ([d1; d2], [m1; m2], [y1; y2; y3; y4], []).
Proof.
  intros (Hday & -> & Hmon & -> & Hy1 & Hy2 & Hy3 & Hy4)%date_shape_tests.
  unfold strptime_matches. intros H.
  apply list_elem_of_bind in H. destruct H as ([d r1] & H & Hd).
  apply list_elem_of_bind in H. destruct H as ([sl1 r2] & H & Hsl1).
  apply list_elem_of_bind in H. destruct H as ([m r3] & H & Hm).
  apply list_elem_of_bind in H. destruct H as ([sl2 r4] & H & Hsl2).
  apply list_elem_of_bind in H. destruct H as ([y r5] & H & Hy).
  apply list_elem_of_singleton in H. subst x.
  assert (d2 <> 47%N) as Hd2.
  { destruct Hday as [[_ H]|[_ H]]; [|apply (in_range_decimal 48 49) in H; try lia];
      apply decimal_not_slash, H. }
  assert (m2 <> 47%N) as Hm2.
  { destruct Hmon as [[_ H]|[_ H]]; [|apply (in_range_decimal 48 50) in H; try lia];
      apply decimal_not_slash, H. }
  assert (Forall (fun ps : list (N -> bool) =>
                    length ps = 1%nat \/ length ps = 2%nat) directive_d) as Fd
    by (unfold directive_d; repeat constructor; cbn; auto).
  assert (Forall (fun ps : list (N -> bool) =>
                    length ps = 1%nat \/ length ps = 2%nat) directive_m) as Fm
    by (unfold directive_m; repeat constructor; cbn; auto).
  destruct (field_then_slash _ _ _ _ _ _ _ _ Fd Hd2 Hd Hsl1) as [-> ->].
  destruct (field_then_slash _ _ _ _ _ _ _ _ Fm Hm2 Hm Hsl2) as [-> ->].
  apply in_field in Hy. destruct Hy as (ps & Hps & Htake).
  apply list_elem_of_singleton in Hps. subst ps.
  apply take_classes_some in Htake. destruct Htake as (Hs & Hl & _).
  destruct y as [|a1 [|a2 [|a3 [|a4 [|? ?]]]]]; cbn in Hl; try lia.
  cbn in Hs. injection Hs as <- <- <- <- <-. reflexivity.
Qed.

(** The fields of a string of the shape are numbers. *)
Lemma date_shape_fields s :
  date_shape s = true -> exists d m y, Spec.date_fields s = Some (d, m, y).
Proof.
  intros H.
  do 11 (try (destruct s as [|? s])); try discriminate H.
  apply date_shape_tests in H.
  destruct H as (Hday & -> & Hmon & -> & Hy1 & Hy2 & Hy3 & Hy4).
  assert (is_decimal n = true /\ is_decimal n0 = true) as [Hd1 Hd2].
  { destruct Hday as [[H1 H2]|[-> H2]].
    - split; [apply (in_range_decimal 48 50 n); auto; lia|exact H2].
    - split; [reflexivity|apply (in_range_decimal 48 49 n0); auto; lia]. }
  assert (is_decimal n2 = true /\ is_decimal n3 = true) as [Hm1 Hm2].
  { destruct Hmon as [[-> H2]|[-> H2]].
    - split; [reflexivity|exact H2].
    - split; [reflexivity|apply (in_range_decimal 48 50 n3); auto; lia]. }
  unfold is_decimal in *. unfold Spec.date_fields, Spec.decimals_value.
  cbn [N.eqb Pos.eqb andb fold_left mbind option_bind].
  destruct (decimal_value n), (decimal_value n0), (decimal_value n2),
    (decimal_value n3), (decimal_value n5), (decimal_value n6),
    (decimal_value n7), (decimal_value n8); try discriminate.
  cbn. eauto.
Qed.

(** On a string of the shape [strptime] either finds no match or returns
    the date of the fields. *)
Lemma strptime_date_shape s d m y :
  date_shape s = true ->
  Spec.date_fields s = Some (d, m, y) ->
  strptime_date s =
  if is_nil (strptime_matches s) then Raise ValueError else make_date y m d.
Proof.
  intros Hshape Hf. unfold strptime_date.
  destruct (strptime_matches s) as [|x l] eqn:E; [reflexivity|].
  do 11 (try (destruct s as [|? s])); try discriminate Hshape.
  assert (x = ([n; n0], [n2; n3], [n5; n6; n7; n8], [])) as ->.
  { apply (strptime_matches_shape _ _ _ _ _ _ _ _ _ _ _ Hshape).
    rewrite E. left. }
  cbn [is_nil]. unfold Spec.date_fields in Hf.
  destruct (N.eqb n1 47 && N.eqb n4 47); [|discriminate].
  destruct (Spec.decimals_value [n; n0]) as [d'|] eqn:Ed; [|discriminate].
  destruct (Spec.decimals_value [n2; n3]) as [m'|] eqn:Em; [|discriminate].
  destruct (Spec.decimals_value [n5; n6; n7; n8]) as [y'|] eqn:Ey; [|discriminate].
  cbn in Hf. injection Hf as -> -> ->.
  rewrite (int_decimals [n5; n6; n7; n8] y), (int_decimals [n2; n3] m),
    (int_decimals [n; n0] d) by easy.
  reflexivity.
Qed.

End StrptimeFacts.

Module AsciiDateFacts.
Import ReFacts IbanFacts Aux DateFacts StrptimeFacts.

Lemma matched_field alts ps txt rest :
  ps ∈ alts -> matched ps txt = true -> (txt, rest) ∈ field alts (txt ++ rest).
Proof.
  intros Hps [Hl%Nat.eqb_eq Hc]%andb_true_iff. apply in_field. exists ps.
  split; [exact Hps|]. apply take_classes_ok; assumption.
Qed.

(** The day of a calendar date, written with two ASCII digits, has the
    shape the pattern asks for, and [%d] reads it. *)
Lemma ascii_day v1 v2 rest :
  (v1 <= 9)%N -> (v2 <= 9)%N -> 1 <= 10 * Z.of_N v1 + Z.of_N v2 <= 31 ->
  let c1 := (48 + v1)%N in
  let c2 := (48 + v2)%N in
  ((in_range 48 50 c1 && is_decimal c2) || (is_char 51 c1 && in_range 48 49 c2)) = true
  /\ ([c1; c2], rest) ∈ field directive_d (c1 :: c2 :: rest).
Proof.
  intros H1 H2 Hd.
  assert (v1 = 0 \/ v1 = 1 \/ v1 = 2 \/ v1 = 3)%N as C1 by lia.
  assert (v2 = 0 \/ v2 = 1 \/ v2 = 2 \/ v2 = 3 \/ v2 = 4 \/ v2 = 5 \/ v2 = 6
          \/ v2 = 7 \/ v2 = 8 \/ v2 = 9)%N as C2 by lia.
  cbv zeta.
  destruct C1 as [->|[->|[->| ->]]];
    repeat (destruct C2 as [->|C2]); try subst v2; try (cbn in Hd; lia);
    (split; [vm_compute; reflexivity|]);
    first
      [ apply (matched_field directive_d [is_char 51; in_range 48 49] [_; _] rest);
        [apply list_elem_of_here|vm_compute; reflexivity]
      | apply (matched_field directive_d [in_range 49 50; is_decimal] [_; _] rest);
        [apply list_elem_of_further, list_elem_of_here|vm_compute; reflexivity]
      | apply (matched_field directive_d [is_char 48; in_range 49 57] [_; _] rest);
        [do 2 apply list_elem_of_further; apply list_elem_of_here
        |vm_compute; reflexivity] ].
Qed.

Lemma ascii_month v1 v2 rest :
  (v1 <= 9)%N -> (v2 <= 9)%N -> 1 <= 10 * Z.of_N v1 + Z.of_N v2 <= 12 ->
  let c1 := (48 + v1)%N in
  let c2 := (48 + v2)%N in
  ((is_char 48 c1 && is_decimal c2) || (is_char 49 c1 && in_range 48 50 c2)) = true
  /\ ([c1; c2], rest) ∈ field directive_m (c1 :: c2 :: rest).
Proof.
  intros H1 H2 Hd.
  assert (v1 = 0 \/ v1 = 1)%N as C1 by lia.
  assert (v2 = 0 \/ v2 = 1 \/ v2 = 2 \/ v2 = 3 \/ v2 = 4 \/ v2 = 5 \/ v2 = 6
          \/ v2 = 7 \/ v2 = 8 \/ v2 = 9)%N as C2 by lia.
  cbv zeta.
  destruct C1 as [->| ->];
    repeat (destruct C2 as [->|C2]); try subst v2; try (cbn in Hd; lia);
    (split; [vm_compute; reflexivity|]);
    first
      [ apply (matched_field directive_m [is_char 49; in_range 48 50] [_; _] rest);
        [apply list_elem_of_here|vm_compute; reflexivity]
      | apply (matched_field directive_m [is_char 48; in_range 49 57] [_; _] rest);
        [apply list_elem_of_further, list_elem_of_here|vm_compute; reflexivity] ].
Qed.

(** Two decimal digits and their value. *)
Lemma decimals_value_2 c1 c2 z :
  Spec.decimals_value [c1; c2] = Some z ->
  exists v1 v2, decimal_value c1 = Some v1 /\ decimal_value c2 = Some v2
                /\ z = 10 * Z.of_N v1 + Z.of_N v2.
Proof.
  unfold Spec.decimals_value. cbn [fold_left mbind option_bind].
  destruct (decimal_value c1) as [v1|]; [|cbn; discriminate].
  destruct (decimal_value c2) as [v2|]; [|cbn; discriminate].
  cbn. intros [= <-]. exists v1, v2. repeat split; lia.
Qed.

Lemma decimals_value_4 c1 c2 c3 c4 z :
  Spec.decimals_value [c1; c2; c3; c4] = Some z ->
  is_decimal c1 = true /\ is_decimal c2 = true
  /\ is_decimal c3 = true /\ is_decimal c4 = true.
Proof.
  unfold Spec.decimals_value, is_decimal. cbn [fold_left mbind option_bind].
  destruct (decimal_value c1); [|cbn; discriminate].
  destruct (decimal_value c2); [|cbn; discriminate].
  destruct (decimal_value c3); [|cbn; discriminate].
  destruct (decimal_value c4); [|cbn; discriminate]. auto.
Qed.

Lemma make_date_ok y m d x :
  make_date y m d = Ok x ->
  x = Date y m d /\ 1 <= y <= 9999 /\ 1 <= m <= 12 /\ 1 <= d <= 31.
Proof.
  unfold make_date.
  destruct (_ && _) eqn:E; [|discriminate]. intros [= <-].
  rewrite !andb_true_iff, !Z.leb_le in E.
  assert (days_in_month y m <= 31).
  { unfold days_in_month. repeat destruct (_ =? _); cbn; try destruct (is_leap y); lia. }
  repeat split; lia.
Qed.

Lemma make_date_error y m d e : make_date y m d = Raise e -> e = ValueError.
Proof. unfold make_date. destruct (_ && _); congruence. Qed.

(** A calendar date written in ASCII has the shape, and [strptime]
    finds it. *)
Lemma ascii_date_matches s d m y x :
  Spec.is_ascii s = true ->
  Spec.date_fields s = Some (d, m, y) ->
  make_date y m d = Ok x ->
  date_shape s = true /\ strptime_matches s <> [].
Proof.
  intros Hascii Hf Hx.
  do 11 (try (destruct s as [|? s])); try discriminate Hf.
  unfold Spec.date_fields in Hf.
  destruct (N.eqb_spec n1 47) as [->|]; [|discriminate].
  destruct (N.eqb_spec n4 47) as [->|]; [|discriminate]. cbn [andb] in Hf.
  destruct (Spec.decimals_value [n; n0]) as [d'|] eqn:Ed; [|discriminate].
  destruct (Spec.decimals_value [n2; n3]) as [m'|] eqn:Em; [|discriminate].
  destruct (Spec.decimals_value [n5; n6; n7; n8]) as [y'|] eqn:Ey; [|discriminate].
  cbn in Hf. injection Hf as -> -> ->.
  apply make_date_ok in Hx. destruct Hx as (_ & _ & Hm & Hd).
  apply decimals_value_2 in Ed. destruct Ed as (a1 & a2 & Ea1 & Ea2 & ->).
  apply decimals_value_2 in Em. destruct Em as (b1 & b2 & Eb1 & Eb2 & ->).
  apply decimals_value_4 in Ey. destruct Ey as (Hy1 & Hy2 & Hy3 & Hy4).
  unfold Spec.is_ascii in Hascii. cbn [forallb] in Hascii.
  rewrite !andb_true_iff, !N.ltb_lt in Hascii.
  destruct Hascii as (A & A0 & _ & A2 & A3 & _).
  pose proof (decimal_value_bound _ _ Ea1). pose proof (decimal_value_bound _ _ Ea2).
  pose proof (decimal_value_bound _ _ Eb1). pose proof (decimal_value_bound _ _ Eb2).
  rewrite (decimal_value_ascii n a1 Ea1 A), (decimal_value_ascii n0 a2 Ea2 A0),
    (decimal_value_ascii n2 b1 Eb1 A2), (decimal_value_ascii n3 b2 Eb2 A3).
  set (rest_m := [47%N; n5; n6; n7; n8]).
  set (rest_d := 47%N :: (48 + b1)%N :: (48 + b2)%N :: rest_m).
  destruct (ascii_day a1 a2 rest_d) as [Sd Fd]; try lia.
  destruct (ascii_month b1 b2 rest_m) as [Sm Fm]; try lia.
  split.
  - unfold rest_d, rest_m, date_shape.
    rewrite Sd, Sm, Hy1, Hy2, Hy3, Hy4. reflexivity.
  - assert (([(48 + a1)%N; (48 + a2)%N], [(48 + b1)%N; (48 + b2)%N],
             [n5; n6; n7; n8], [])
            ∈ strptime_matches
                ((48 + a1)%N :: (48 + a2)%N :: rest_d)) as Hin.
    { unfold strptime_matches.
      apply list_elem_of_bind. eexists. split; [|exact Fd]. cbn beta iota.
      apply list_elem_of_bind. exists ([47%N], (48 + b1)%N :: (48 + b2)%N :: rest_m).
      split; [|apply (matched_field _ [is_char 47] [47%N]);
               [apply list_elem_of_here|reflexivity]].
      cbn beta iota.
      apply list_elem_of_bind. eexists. split; [|exact Fm]. cbn beta iota.
      apply list_elem_of_bind. exists ([47%N], [n5; n6; n7; n8]).
      split; [|apply (matched_field _ [is_char 47] [47%N]);
               [apply list_elem_of_here|reflexivity]].
      cbn beta iota.
      apply list_elem_of_bind. exists ([n5; n6; n7; n8], []).
      split; [apply list_elem_of_here|].
      apply (matched_field directive_Y [is_decimal; is_decimal; is_decimal; is_decimal]
               [n5; n6; n7; n8] []); [apply list_elem_of_here|].
      unfold matched. cbn [length combine forallb fst snd Nat.eqb andb].
      rewrite Hy1, Hy2, Hy3, Hy4. reflexivity. }
    intros E. unfold rest_d, rest_m in Hin, E. rewrite E in Hin.
    apply elem_of_nil in Hin. exact Hin.
Qed.

(** Either the format is refused, or the string denotes a calendar date
    and the outcome is that of the date. *)
Lemma validate_transfer_date_cases today s :
  validate_transfer_date today s = Raise InvalidDateFormat
  \/ exists d, Spec.date_format s /\ Spec.read_date s = Some d
               /\ validate_transfer_date today s = Spec.date_outcome today s d.
Proof.
  unfold validate_transfer_date. rewrite fullmatch_date_pattern.
  destruct (date_shape s) eqn:Hshape; [|left; reflexivity]. cbn [negb].
  destruct (date_shape_fields s Hshape) as (d & m & y & Hf).
  rewrite (strptime_date_shape s d m y Hshape Hf).
  destruct (is_nil (strptime_matches s)); [left; reflexivity|].
  destruct (make_date y m d) as [x|e] eqn:Hx.
  - right. exists x. pose proof (make_date_ok _ _ _ _ Hx) as (_ & _ & Hm & Hd).
    split; [exists d, m, y; repeat split; [exact Hf|lia..]|].
    split; [unfold Spec.read_date; rewrite Hf, Hx; reflexivity|].
    reflexivity.
  - left. rewrite (make_date_error _ _ _ _ Hx). reflexivity.
Qed.

(** A calendar date written in ASCII gets the outcome of the date. *)
Lemma validate_transfer_date_ascii today s d :
  Spec.is_ascii s = true -> Spec.read_date s = Some d ->
  validate_transfer_date today s = Spec.date_outcome today s d.
Proof.
  intros Hascii Hr. unfold Spec.read_date in Hr.
  destruct (Spec.date_fields s) as [[[dd mm] yy]|] eqn:Hf; [|discriminate].
  destruct (make_date yy mm dd) as [x|] eqn:Hx; [|discriminate].
  injection Hr as ->.
  destruct (ascii_date_matches s dd mm yy d Hascii Hf Hx) as [Hshape Hne].
  unfold validate_transfer_date. rewrite fullmatch_date_pattern, Hshape. cbn [negb].
  rewrite (strptime_date_shape s dd mm yy Hshape Hf).
  destruct (strptime_matches s); [congruence|]. cbn [is_nil]. rewrite Hx. reflexivity.
Qed.

End AsciiDateFacts.

(** C7, as the code has it.  [validate_transfer_date] either fails with
    [InvalidDateFormat], or the string matches [DD/MM/YYYY] (decimal
    digits, day in [[00-31]], month in [[00-12]]) and denotes a calendar
    date.  A string of ASCII characters that matches and denotes a
    calendar date fails with [DateInPast] when that date is before the
    current UTC date; otherwise it fails with [InvalidDateFormat] when
    the year is outside [[2025, 2050]]; otherwise it succeeds.  So the
    current UTC date succeeds when its year is within [[2025, 2050]]. *)
Theorem validate_transfer_date_outcome (today : date) (date_str : str) :
  (validate_transfer_date today date_str = Raise InvalidDateFormat
   \/ exists d, Spec.date_format date_str /\ Spec.read_date date_str = Some d
                /\ validate_transfer_date today date_str
                   = Spec.date_outcome today date_str d)
  /\ (forall d, Spec.is_ascii date_str = true ->
                Spec.read_date date_str = Some d ->
                validate_transfer_date today date_str =
                if date_ltb d today then Raise DateInPast
                else if (year d <? 2025) || (2050 <? year d)
                     then Raise InvalidDateFormat
                     else Ok date_str)
  /\ (Spec.is_ascii date_str = true ->
      Spec.read_date date_str = Some today ->
      2025 <= year today <= 2050 ->
      validate_transfer_date today date_str = Ok date_str).
Proof.
  split; [apply AsciiDateFacts.validate_transfer_date_cases|]. split.
  - intros d Ha Hr. apply (AsciiDateFacts.validate_transfer_date_ascii today _ d Ha Hr).
  - intros Ha Hr Hy.
    rewrite (AsciiDateFacts.validate_transfer_date_ascii today _ today Ha Hr).
    unfold Spec.date_outcome, date_ltb.
    rewrite !Z.ltb_irrefl, !Z.eqb_refl. cbn [orb andb].
    destruct (Z.ltb_spec (year today) 2025); [lia|].
    destruct (Z.ltb_spec 2050 (year today)); [lia|]. reflexivity.
Qed.

Lemma validate_transfer_date_outcome_witness :
  validate_transfer_date (Date 2026 11 3) (lit "03/11/2026")
  = Ok (lit "03/11/2026").
Proof.
  apply (proj2 (proj2 (validate_transfer_date_outcome
                         (Date 2026 11 3) (lit "03/11/2026"))));
    [reflexivity|reflexivity|cbn; lia].
Defined.

(** C7, as it is stated, fails on a date before 2025: on 3 November
    2026 the first of January 2024 is refused as a date in the past, not
    as a date of the wrong format, although its year is outside
    [[2025, 2050]].  And were the clock in 2051, the current date would
    be refused. *)
Lemma validate_transfer_date_year_2024 :
  (Spec.read_date (lit "01/01/2024") = Some (Date 2024 1 1)
   /\ ~ 2025 <= year (Date 2024 1 1) <= 2050
   /\ validate_transfer_date (Date 2026 11 3) (lit "01/01/2024")
      = Raise DateInPast
   /\ Raise (A := str) DateInPast <> Raise InvalidDateFormat)
  /\ (Spec.read_date (lit "01/01/2051") = Some (Date 2051 1 1)
      /\ validate_transfer_date (Date 2051 1 1) (lit "01/01/2051")
         = Raise InvalidDateFormat).
Proof.
  repeat split; try reflexivity; try discriminate. cbn. lia.
Qed.

(** ** The amount of a transfer *)

Module AmountFacts.




Lemma validate_amount_error amount e :
  to_float amount = Raise e ->
  validate_amount amount =
  Raise (if bool_decide (e = ValueError) then InvalidAmount else e).
Proof.
  intros H. unfold validate_amount. rewrite H. cbn [except mbind result_bind].
  destruct (bool_decide (e = ValueError)); reflexivity.
Qed.

(** The exceptions of [float]. *)
Lemma to_float_errors amount e :
  to_float amount = Raise e ->
  e = ValueError \/ e = TypeError \/ e = OverflowError.
Proof.
  destruct amount as [|b|z|f|s|l|d]; cbn [to_float]; try (intros [= <-]; auto).
  - unfold Py.of_int. destruct (Py.round_ratio _ _ _); intros [= <-]; auto.
  - unfold Py.of_int. destruct (Py.round_ratio _ _ _); intros [= <-]; auto.
  - destruct (Py.float_of_str s); intros [= <-]; auto.
Qed.

End AmountFacts.




(** ** Operations on the stores *)

Module IoFacts.
Import Aux.

Lemma quiet_careful {A} (m : io A) : quiet m -> careful m.
Proof. intros H st e _. apply H. Qed.

Lemma quiet_lift {A} (r : result A) : quiet (lift r).
Proof. intros st. reflexivity. Qed.

Lemma quiet_raise {A} (e : exn) : quiet (raise (A := A) e).
Proof. intros st. reflexivity. Qed.

Lemma quiet_ret {A} (a : A) : quiet (mret a : io A).
Proof. intros st. reflexivity. Qed.

Lemma quiet_load i : quiet (load i).
Proof. intros st. reflexivity. Qed.

Lemma careful_dump i v : careful (dump i v).
Proof.
  intros st e. unfold dump. destruct (store i st); cbn; congruence.
Qed.

Lemma quiet_bind {A B} (m : io A) (f : A -> io B) :
  quiet m -> (forall a, quiet (f a)) -> quiet (m ≫= f).
Proof.
  intros Hm Hf st. unfold mbind, io_bind. specialize (Hm st).
  destruct (m st) as [[a|e] st']; cbn in *; subst st'; [apply Hf|reflexivity].
Qed.

Lemma careful_bind {A B} (m : io A) (f : A -> io B) :
  quiet m -> (forall a, careful (f a)) -> careful (m ≫= f).
Proof.
  intros Hm Hf st e. unfold mbind, io_bind. specialize (Hm st).
  destruct (m st) as [[a|e'] st']; cbn in *; subst st'; [apply Hf|reflexivity].
Qed.

Lemma careful_bind_ret {A B} (m : io A) (b : B) :
  careful m -> careful (m ≫= fun _ => mret b).
Proof.
  intros Hm st e. unfold mbind, io_bind. specialize (Hm st).
  destruct (m st) as [[a|e'] st']; cbn in *; [discriminate|].
  intros _. apply (Hm e'). reflexivity.
Qed.

Lemma quiet_try {A} (m : io A) handlers :
  quiet m -> Forall (fun h => quiet h.2) handlers -> quiet (try m handlers).
Proof.
  intros Hm Hh st. unfold try. specialize (Hm st).
  destruct (m st) as [[a|e] st']; cbn in *; subst st'; [reflexivity|].
  destruct (find _ handlers) as [h|] eqn:E; [|reflexivity].
  apply find_some in E. destruct E as [Hin _].
  rewrite Forall_forall in Hh. apply Hh, list_elem_of_In, Hin.
Qed.

Lemma careful_try {A} (m : io A) handlers :
  careful m -> Forall (fun h => quiet h.2) handlers -> careful (try m handlers).
Proof.
  intros Hm Hh st e. unfold try. specialize (Hm st).
  destruct (m st) as [[a|e'] st']; cbn in *; [discriminate|].
  specialize (Hm e' eq_refl). subst st'.
  destruct (find _ handlers) as [h|] eqn:E; [|reflexivity].
  apply find_some in E. destruct E as [Hin _].
  rewrite Forall_forall in Hh. intros _. apply Hh, list_elem_of_In, Hin.
Qed.

End IoFacts.

(** ** transfer_request *)

Section TransferFacts.
Import Aux IoFacts.

Variable transfer_code : TransferRequest.t -> str.

Lemma careful_transfer_request now from_iban to_iban concept transfer_type
    date amount :
  careful (transfer_request transfer_code now from_iban to_iban concept
             transfer_type date amount).
Proof.
  unfold transfer_request.
  repeat first
    [ apply careful_bind_ret
    | apply careful_bind; [|intros ?]
    | apply careful_try
    | apply careful_dump
    | apply quiet_careful
    | apply quiet_try
    | apply quiet_lift
    | apply quiet_raise
    | apply quiet_ret
    | apply quiet_load
    | match goal with |- quiet (if ?b then _ else _) => destruct b end
    | match goal with |- Forall _ _ => repeat constructor end ].
Qed.

End TransferFacts.

Section TransferFacts2.
Import Aux IoFacts.

Variable transfer_code : TransferRequest.t -> str.

Lemma validate_iban_returns s a : validate_iban s = Ok a -> a = s.
Proof.
  unfold validate_iban. destruct (negb _); [discriminate|].
  destruct (Py.int (slice 2 4 s)); destruct (Py.int _);
    cbn [mbind result_bind]; try discriminate.
  destruct (negb _); congruence.
Qed.

Lemma validate_transfer_date_returns today s a :
  validate_transfer_date today s = Ok a -> a = s.
Proof.
  unfold validate_transfer_date. destruct (negb _); [discriminate|].
  destruct (except _ _ _); cbn [mbind result_bind]; [|discriminate].
  destruct (date_ltb _ _); [discriminate|]. destruct (_ || _); congruence.
Qed.

(** With valid arguments the call is the ledger part. *)
Lemma transfer_request_valid now from_iban to_iban concept transfer_type
    date amount :
  Spec.valid_request (utc_today now) from_iban to_iban concept transfer_type
    date amount ->
  transfer_request transfer_code now from_iban to_iban concept transfer_type
    date amount
  = store_transfer transfer_code
      (TransferRequest.New from_iban to_iban concept transfer_type date amount).
Proof.
  intros (H1 & H2 & H3 & H4 & H5 & f & H6). unfold transfer_request.
  rewrite H1, H2, H3, H4, H5, H6. reflexivity.
Qed.

(** A call that returns had valid arguments. *)
Lemma transfer_request_ok now from_iban to_iban concept transfer_type
    date amount st c :
  (transfer_request transfer_code now from_iban to_iban concept transfer_type
     date amount st).1 = Ok c ->
  Spec.valid_request (utc_today now) from_iban to_iban concept transfer_type
    date amount.
Proof.
  unfold transfer_request, Spec.valid_request.
  unfold mbind at 1, io_bind at 1, lift at 1.
  destruct (validate_iban from_iban) as [a|] eqn:E1; [|discriminate].
  apply validate_iban_returns in E1 as ->.
  unfold mbind at 1, io_bind at 1, lift at 1.
  destruct (validate_iban to_iban) as [a|] eqn:E2; [|discriminate].
  apply validate_iban_returns in E2 as ->.
  unfold mbind at 1, io_bind at 1, lift at 1.
  destruct (validate_concept concept) as [[]|] eqn:E3; [|discriminate].
  unfold mbind at 1, io_bind at 1.
  destruct (fullmatch transfer_type_pattern transfer_type) eqn:E4;
    [|discriminate]. cbn [negb mret io_ret].
  unfold mbind at 1, io_bind at 1, lift at 1.
  destruct (validate_transfer_date (utc_today now) date) as [a|] eqn:E5;
    [|discriminate].
  apply validate_transfer_date_returns in E5 as ->.
  unfold mbind at 1, io_bind at 1, lift at 1.
  destruct (validate_amount amount) as [f|] eqn:E6; [|discriminate].
  intros _. eauto 10.
Qed.

(** The condition of the code on a record that has the six fields. *)
Lemma same_transfer_agrees record new_transfer :
  Spec.has_fields record = true ->
  same_transfer record new_transfer = Ok (Spec.agrees record new_transfer).
Proof.
  destruct record as [| | | | | |d]; try discriminate.
  unfold Spec.has_fields. cbn [forallb]. rewrite !andb_true_iff, !bool_decide_eq_true.
  intros ([v1 H1] & [v2 H2] & [v3 H3] & [v4 H4] & [v5 H5] & [v6 H6] & _).
  unfold same_transfer, Spec.agrees, Spec.dedup_fields, Spec.field_agrees, subscript.
  cbn [forallb fst snd]. rewrite H1, H2, H3, H4, H5, H6.
  cbn [mbind result_bind and_then].
  repeat (destruct (py_eq _ _); cbn [andb]; try reflexivity).
Qed.

(** The scan of the code over records that have the six fields. *)
Lemma find_duplicate_agrees records new_transfer :
  forallb Spec.has_fields records = true ->
  find_duplicate records new_transfer =
  if existsb (fun r => Spec.agrees r new_transfer) records
  then Raise DuplicateTransfer else Ok tt.
Proof.
  induction records as [|r l IH]; [reflexivity|].
  cbn [forallb find_duplicate existsb]. intros [Hr Hl]%andb_true_iff.
  rewrite (same_transfer_agrees r new_transfer Hr). cbn [mbind result_bind].
  destruct (Spec.agrees r new_transfer); [reflexivity|]. apply IH, Hl.
Qed.

Lemma find_handler_here {A} e (h : io A) hs :
  find (fun h : exn * io A => bool_decide (h.1 = e)) ((e, h) :: hs) = Some (e, h).
Proof. cbn [find fst]. rewrite bool_decide_eq_true_2; reflexivity. Qed.

(** The ledger part on a store whose records have the six fields. *)
Lemma store_transfer_ledger new_transfer st records :
  Spec.ledger (transfers st) = Some records ->
  forallb Spec.has_fields records = true ->
  store_transfer transfer_code new_transfer st =
  if existsb (fun r => Spec.agrees r new_transfer) records
  then (Raise DuplicateTransfer, st)
  else (Ok (transfer_code new_transfer),
        set_store TRANSFERS_STORE_FILE
          (Json (PList (records ++ [to_json transfer_code new_transfer]))) st).
Proof.
  intros Hl Hf. unfold store_transfer.
  pose proof (find_duplicate_agrees records new_transfer Hf) as Hscan.
  unfold mbind, io_bind, try, load, dump, lift. cbn [store].
  destruct (transfers st) as [| |?|[| | | | |l|]] eqn:E; try discriminate Hl;
    cbn in Hl; injection Hl as <-.
  - cbn [json_load existsb]. rewrite find_handler_here.
    cbn [snd mret io_ret iterate find_duplicate append mbind result_bind app].
    rewrite E. reflexivity.
  - cbn [json_load iterate]. rewrite Hscan.
    destruct (existsb _ _); [reflexivity|].
    cbn [append mbind result_bind]. rewrite E. reflexivity.
Qed.

End TransferFacts2.

Section TransferFacts3.
Import Aux IoFacts.

Variable transfer_code : TransferRequest.t -> str.

(** The stored form of a transfer has the six fields, with the values of
    the transfer. *)
Lemma to_json_fields new_transfer :
  Spec.has_fields (to_json transfer_code new_transfer) = true
  /\ Spec.agrees (to_json transfer_code new_transfer) new_transfer
     = py_eq (TransferRequest.transfer_amount new_transfer)
             (TransferRequest.transfer_amount new_transfer).
Proof.
  destruct new_transfer as [f t c ty d a].
  split; [vm_compute; reflexivity|].
  unfold Spec.agrees, Spec.dedup_fields.
  cbn [forallb fst snd TransferRequest.from_iban TransferRequest.to_iban
         TransferRequest.transfer_concept TransferRequest.transfer_type
         TransferRequest.transfer_date TransferRequest.transfer_amount].
  set (record := to_json transfer_code _).
  assert (forall v, Spec.field_agrees record "from_iban" v = py_eq (PStr f) v) as ->
    by (intros v; vm_compute; reflexivity).
  assert (forall v, Spec.field_agrees record "to_iban" v = py_eq (PStr t) v) as ->
    by (intros v; vm_compute; reflexivity).
  assert (forall v, Spec.field_agrees record "transfer_date" v = py_eq (PStr d) v) as ->
    by (intros v; vm_compute; reflexivity).
  assert (forall v, Spec.field_agrees record "transfer_amount" v = py_eq a v) as ->
    by (intros v; vm_compute; reflexivity).
  assert (forall v, Spec.field_agrees record "transfer_concept" v = py_eq (PStr c) v) as ->
    by (intros v; vm_compute; reflexivity).
  assert (forall v, Spec.field_agrees record "transfer_type" v = py_eq (PStr ty) v) as ->
    by (intros v; vm_compute; reflexivity).
  cbn [py_eq]. unfold str_eqb. rewrite !bool_decide_eq_true_2 by reflexivity.
  cbn [andb]. rewrite andb_true_r. reflexivity.
Qed.

(** A call that returns has scanned the whole store without finding a
    duplicate, and has appended its record. *)
Lemma store_transfer_ok new_transfer st c st' :
  store_transfer transfer_code new_transfer st = (Ok c, st') ->
  exists records,
    find_duplicate records new_transfer = Ok tt
    /\ transfers st'
       = Json (PList (records ++ [to_json transfer_code new_transfer])).
Proof.
  unfold store_transfer, mbind, io_bind, try, load, dump, lift. cbn [store].
  destruct (transfers st) as [| |?|v] eqn:E; cbn [json_load].
  - rewrite find_handler_here.
    cbn [snd mret io_ret iterate find_duplicate append mbind result_bind app].
    rewrite E. cbn. discriminate.
  - rewrite find_handler_here.
    cbn [snd mret io_ret iterate find_duplicate append mbind result_bind app].
    rewrite E. cbn. intros [= _ <-]. exists []. auto.
  - cbn. discriminate.
  - destruct (iterate v) as [l|] eqn:Ei; [|discriminate].
    destruct (find_duplicate l new_transfer) as [[]|] eqn:Ef; [|discriminate].
    destruct v as [| | | | |l'|]; try discriminate.
    cbn in Ei. injection Ei as ->. cbn [append mbind result_bind]. rewrite E.
    cbn. intros [= _ <-]. exists l. auto.
Qed.

End TransferFacts3.

(** C9.  A call of [transfer_request] that raises
    [AccountManagementException] leaves the stores as they were; when
    the stores have changed, every validation had passed, every stored
    record had been scanned without finding a duplicate, and the record
    of the call was appended. *)
Theorem transfer_request_failure_keeps_store
    (transfer_code : TransferRequest.t -> str) (now : clock)
    (from_iban to_iban concept transfer_type date : str) (amount : pyval)
    (st : stores) :
  let call := transfer_request transfer_code now from_iban to_iban concept
                transfer_type date amount st in
  (forall message,
     call.1 = Raise (AccountManagementException message) -> call.2 = st)
  /\ (call.2 <> st ->
      Spec.valid_request (utc_today now) from_iban to_iban concept
        transfer_type date amount
      /\ exists records,
           find_duplicate records
             (TransferRequest.New from_iban to_iban concept transfer_type
                date amount) = Ok tt
           /\ transfers call.2
              = Json (PList (records ++
                  [to_json transfer_code
                     (TransferRequest.New from_iban to_iban concept
                        transfer_type date amount)]))).
Proof.
  intros call.
  pose proof (careful_transfer_request transfer_code now from_iban to_iban
                concept transfer_type date amount st) as Hcareful.
  fold call in Hcareful. split.
  - intros message H. apply (Hcareful _ H).
  - intros Hchanged. destruct call.1 as [c|e] eqn:E.
    2:{ exfalso. apply Hchanged, (Hcareful e). reflexivity. }
    pose proof (transfer_request_ok transfer_code _ _ _ _ _ _ _ _ _ E) as Hvalid.
    split; [exact Hvalid|].
    unfold call in *. rewrite (transfer_request_valid transfer_code _ _ _ _ _ _ _ Hvalid) in *.
    apply (store_transfer_ok transfer_code _ st c).
    destruct (Aux.store_transfer _ _ st) as [r st']. cbn in E. subst r. reflexivity.
Qed.

Lemma transfer_request_failure_keeps_store_witness :
  let st := Stores NoFile NoFile NoFile NoFile in
  (transfer_request (fun _ => []) (Clock (Date 2026 11 3) (S754_zero false))
     (lit "ES00") (lit "ES00") [] [] [] PNone st).2 = st.
Proof.
  intros st.
  apply (proj1 (transfer_request_failure_keeps_store (fun _ => [])
                  (Clock (Date 2026 11 3) (S754_zero false))
                  (lit "ES00") (lit "ES00") [] [] [] PNone st)
           "Invalid IBAN format"%string).
  reflexivity.
Defined.

(** X19.  With valid arguments, on a store whose records have the six
    fields: when a stored record compares equal to the submission on all
    six fields the call fails with [DuplicateTransfer] and the stores are
    as they were; when every stored record differs from it in some field
    the call succeeds and appends its record, after which the same
    submission again is a duplicate, provided its amount equals itself
    (as every amount but a not-a-number does). *)
Theorem transfer_request_duplicates
    (transfer_code : TransferRequest.t -> str) (now : clock)
    (from_iban to_iban concept transfer_type date : str) (amount : pyval)
    (st : stores) (records : list pyval) :
  Spec.valid_request (utc_today now) from_iban to_iban concept transfer_type
    date amount ->
  Spec.ledger (transfers st) = Some records ->
  forallb Spec.has_fields records = true ->
  let new_transfer :=
    TransferRequest.New from_iban to_iban concept transfer_type date amount in
  let call := transfer_request transfer_code now from_iban to_iban concept
                transfer_type date amount in
  let st' := set_store TRANSFERS_STORE_FILE
               (Json (PList (records ++ [to_json transfer_code new_transfer])))
               st in
  (existsb (fun r => Spec.agrees r new_transfer) records = true ->
   call st = (Raise DuplicateTransfer, st))
  /\ (existsb (fun r => Spec.agrees r new_transfer) records = false ->
      call st = (Ok (transfer_code new_transfer), st')
      /\ (py_eq amount amount = true ->
          call st' = (Raise DuplicateTransfer, st'))).
Proof.
  intros Hvalid Hledger Hfields new_transfer call st'. unfold call.
  rewrite (transfer_request_valid transfer_code _ _ _ _ _ _ _ Hvalid).
  fold new_transfer.
  rewrite (store_transfer_ledger transfer_code new_transfer st records Hledger Hfields).
  split; [intros ->; reflexivity|]. intros Hnone. rewrite Hnone.
  split; [reflexivity|]. intros Hamount.
  destruct (to_json_fields transfer_code new_transfer) as [Hf Ha].
  rewrite (store_transfer_ledger transfer_code new_transfer st'
             (records ++ [to_json transfer_code new_transfer])).
  - rewrite existsb_app. cbn [existsb]. rewrite Ha. cbn [new_transfer
      TransferRequest.transfer_amount]. rewrite Hamount, orb_true_r. reflexivity.
  - reflexivity.
  - rewrite forallb_app, Hfields. cbn [forallb]. rewrite Hf. reflexivity.
Qed.

Lemma transfer_request_duplicates_witness :
  transfer_request (fun _ => lit "code")
    (Clock (Date 2026 11 3) (S754_zero false))
    (lit "ES9121000418450200051332") (lit "ES9121000418450200051332")
    (lit "hello world") (lit "ORDINARY") (lit "03/11/2026")
    (PStr (lit "10.00"))
    (Stores
       (Json (PList
          [to_json (fun _ => lit "code")
             (TransferRequest.New
                (lit "ES9121000418450200051332")
                (lit "ES9121000418450200051332")
                (lit "hello world") (lit "ORDINARY") (lit "03/11/2026")
                (PStr (lit "10.00")))]))
       NoFile NoFile NoFile)
  = (Raise DuplicateTransfer,
     Stores
       (Json (PList
          [to_json (fun _ => lit "code")
             (TransferRequest.New
                (lit "ES9121000418450200051332")
                (lit "ES9121000418450200051332")
                (lit "hello world") (lit "ORDINARY") (lit "03/11/2026")
                (PStr (lit "10.00")))]))
       NoFile NoFile NoFile).
Proof.
  destruct (transfer_request_duplicates (fun _ => lit "code")
              (Clock (Date 2026 11 3) (S754_zero false))
              (lit "ES9121000418450200051332") (lit "ES9121000418450200051332")
              (lit "hello world") (lit "ORDINARY") (lit "03/11/2026")
              (PStr (lit "10.00"))
              (Stores
                 (Json (PList
                    [to_json (fun _ => lit "code")
                       (TransferRequest.New
                          (lit "ES9121000418450200051332")
                          (lit "ES9121000418450200051332")
                          (lit "hello world") (lit "ORDINARY")
                          (lit "03/11/2026") (PStr (lit "10.00")))]))
                 NoFile NoFile NoFile)
              [to_json (fun _ => lit "code")
                 (TransferRequest.New
                    (lit "ES9121000418450200051332")
                    (lit "ES9121000418450200051332")
                    (lit "hello world") (lit "ORDINARY")
                    (lit "03/11/2026") (PStr (lit "10.00")))])
    as [H _].
  - repeat split; try (vm_compute; reflexivity).
    eexists. vm_compute. reflexivity.
  - reflexivity.
  - vm_compute. reflexivity.
  - apply H. vm_compute. reflexivity.
Defined.

(** C4.  Two submissions that are the same in all six fields, with the
    amount [float("nan")]: the amount passes the validation, the first
    call stores its record, and the second call is not refused as a
    duplicate: it succeeds as well, and the store holds the record
    twice. *)
Lemma transfer_request_nan_twice :
  let call :=
    transfer_request (fun _ => lit "code")
      (Clock (Date 2026 11 3) (S754_zero false))
      (lit "ES9121000418450200051332") (lit "ES9121000418450200051332")
      (lit "hello world") (lit "ORDINARY") (lit "03/11/2026")
      (PFloat S754_nan) in
  let record :=
    to_json (fun _ => lit "code")
      (TransferRequest.New
         (lit "ES9121000418450200051332") (lit "ES9121000418450200051332")
         (lit "hello world") (lit "ORDINARY") (lit "03/11/2026")
         (PFloat S754_nan)) in
  let st0 := Stores NoFile NoFile NoFile NoFile in
  let st1 := Stores (Json (PList [record])) NoFile NoFile NoFile in
  let st2 := Stores (Json (PList [record; record])) NoFile NoFile NoFile in
  call st0 = (Ok (lit "code"), st1)
  /\ call st1 = (Ok (lit "code"), st2).
Proof. split; vm_compute; reflexivity. Qed.

(** ** account_deposit.py *)

(** The signature of a deposit at a known time. *)
Example deposit_signature_example :
  AccountDeposit.deposit_signature
    (AccountDeposit.new
       (Clock (Date 2023 11 14) (Py.of_decimal false 1700000000123456 (-6)))
       (lit "ES9121000418450200051332") (Py.of_decimal false 123456 (-2)))
  = Ok (lit "45a7c133c0d6e516e25bda145ad249bc85002bcb343871f57b981b1c12259959").
Proof. vm_compute. reflexivity. Qed.

(** C5.  The signature of a deposit is the hexadecimal SHA-256 digest of
    the canonical string built from its current fields, the amount and
    the timestamp as [str] shows them; so deposits with the same five
    fields have the same signature, and a field that has been set anew
    is the one that is signed. *)
Theorem deposit_signature_canonical (deposit : AccountDeposit.t) :
  AccountDeposit.deposit_signature deposit
  = Spec.sha256_hex
      (Spec.canonical (AccountDeposit.alg deposit)
         (AccountDeposit.type deposit) (AccountDeposit.to_iban deposit)
         (Py.repr (AccountDeposit.deposit_amount deposit))
         (Py.repr (AccountDeposit.deposit_timestamp deposit)))
  /\ (forall other,
        AccountDeposit.alg other = AccountDeposit.alg deposit ->
        AccountDeposit.type other = AccountDeposit.type deposit ->
        AccountDeposit.to_iban other = AccountDeposit.to_iban deposit ->
        AccountDeposit.deposit_amount other
        = AccountDeposit.deposit_amount deposit ->
        AccountDeposit.deposit_timestamp other
        = AccountDeposit.deposit_timestamp deposit ->
        AccountDeposit.deposit_signature other
        = AccountDeposit.deposit_signature deposit)
  /\ (forall amount iban,
        AccountDeposit.deposit_signature
          (AccountDeposit.set_to_iban iban
             (AccountDeposit.set_deposit_amount amount deposit))
        = Spec.sha256_hex
            (Spec.canonical (AccountDeposit.alg deposit)
               (AccountDeposit.type deposit) iban (Py.repr amount)
               (Py.repr (AccountDeposit.deposit_timestamp deposit)))).
Proof.
  split; [reflexivity|]. split; [|reflexivity].
  intros other H1 H2 H3 H4 H5.
  unfold AccountDeposit.deposit_signature, AccountDeposit._get_signature_string.
  rewrite H1, H2, H3, H4, H5. reflexivity.
Qed.

Lemma deposit_signature_canonical_witness :
  let now := Clock (Date 2023 11 14) (Py.of_decimal false 1700000000123456 (-6)) in
  let amount := Py.of_decimal false 123456 (-2) in
  AccountDeposit.deposit_signature
    (AccountDeposit.set_to_iban (lit "ES9121000418450200051332")
       (AccountDeposit.new now (lit "ES7921000813610123456789") amount))
  = AccountDeposit.deposit_signature
      (AccountDeposit.new now (lit "ES9121000418450200051332") amount).
Proof.
  intros now amount.
  apply (proj1 (proj2 (deposit_signature_canonical
                         (AccountDeposit.new now (lit "ES9121000418450200051332")
                            amount)))); reflexivity.
Defined.

(** ** deposit_into_account *)

Module DepositFacts.
Import Aux IoFacts.

Lemma bind_ok {A B} (m : io A) (f : A -> io B) st b st' :
  (m ≫= f) st = (Ok b, st') ->
  exists a st1, m st = (Ok a, st1) /\ f a st1 = (Ok b, st').
Proof.
  unfold mbind, io_bind. destruct (m st) as [[a|e] st1]; [eauto|discriminate].
Qed.

Lemma lift_ok {A} (r : result A) st a st1 :
  lift r st = (Ok a, st1) -> r = Ok a /\ st1 = st.
Proof. unfold lift. intros [= -> ->]. auto. Qed.

Lemma guard_ok (b : bool) e st u st1 :
  (if b then raise e else mret tt) st = (Ok u, st1) -> b = false /\ st1 = st.
Proof. destruct b; [discriminate|]. intros [= _ ->]. auto. Qed.

Lemma try_quiet_ok {A} (m : io A) handlers st a st1 :
  quiet m -> Forall (fun h => quiet h.2) handlers ->
  try m handlers st = (Ok a, st1) -> st1 = st.
Proof.
  intros Hm Hh H. pose proof (quiet_try m handlers Hm Hh st) as Hq.
  rewrite H in Hq. exact Hq.
Qed.

Lemma try_dump_ok i v e1 e2 st u st1 :
  try (dump i v) [(FileNotFoundError, raise e1); (JSONDecodeError, raise e2)] st
  = (Ok u, st1) ->
  st1 = set_store i (Json v) st.
Proof.
  unfold try, dump. destruct (store i st); cbn; intros [= _ <-]; reflexivity.
Qed.

Lemma append_ok v x l :
  append v x = Ok l -> exists old r, v = PList old /\ x = Ok r /\ l = PList (old ++ [r]).
Proof.
  destruct v as [| | | | |old|]; try discriminate. cbn [append].
  destruct x as [r|]; [|discriminate]. cbn. intros [= <-]. eauto.
Qed.

Lemma to_json_ok deposit record :
  AccountDeposit.to_json deposit = Ok record ->
  exists d signature,
    record = PDict d
    /\ AccountDeposit.deposit_signature deposit = Ok signature
    /\ d !! lit "deposit_signature" = Some (PStr signature).
Proof.
  unfold AccountDeposit.to_json.
  destruct (AccountDeposit.deposit_signature deposit) as [signature|]; [|discriminate].
  cbn [mbind result_bind]. intros [= <-].
  eexists. exists signature. split; [reflexivity|]. split; [reflexivity|].
  vm_compute. reflexivity.
Qed.

(** The exceptions of [validate_iban]. *)
Lemma validate_iban_errors s e :
  validate_iban s = Raise e ->
  e = InvalidFormat \/ e = InvalidCheckDigit \/ e = ValueError.
Proof.
  unfold validate_iban. destruct (negb _); [intros [= <-]; auto|].
  assert (forall t z, Py.int t = Raise z -> z = ValueError) as Hint.
  { intros t z. unfold Py.int. destruct (Py.sign _) as [minus u].
    destruct u as [|c u]; [congruence|].
    destruct (is_ascii_digit c); [|congruence].
    destruct (Py.int_digits _ _ _); congruence. }
  destruct (Py.int (slice 2 4 s)) as [code|e1] eqn:E1;
    destruct (Py.int (flat_map letter_value _)) as [v|e2] eqn:E2;
    cbn [mbind result_bind]; try (intros [= <-]; eauto using Hint).
  destruct (negb _); [intros [= <-]; auto|discriminate].
Qed.

Lemma deposit_signature_errors deposit e :
  AccountDeposit.deposit_signature deposit = Raise e -> e = UnicodeEncodeError.
Proof.
  unfold AccountDeposit.deposit_signature, encode.
  destruct (mapM _ _); cbn; congruence.
Qed.

Lemma to_json_errors deposit e :
  AccountDeposit.to_json deposit = Raise e -> e = UnicodeEncodeError.
Proof.
  unfold AccountDeposit.to_json.
  destruct (AccountDeposit.deposit_signature deposit) eqn:E; cbn; [discriminate|].
  intros [= <-]. apply (deposit_signature_errors _ _ E).
Qed.

(** With both keys the call never fails for a key. *)
Lemma deposit_with_both_keys now d st vi va e :
  d !! lit "IBAN" = Some vi -> d !! lit "AMOUNT" = Some va ->
  (deposit_into_account now (Json (PDict d)) st).1 = Raise e ->
  e <> InvalidInputKey.
Proof.
  intros Hi Ha. unfold deposit_into_account.
  unfold mbind at 1, io_bind at 1. cbn [try lift json_load].
  unfold mbind at 1, io_bind at 1. cbn [try lift subscript].
  rewrite Hi, Ha. cbn [mbind result_bind].
  unfold mbind at 1, io_bind at 1, lift at 1.
  destruct vi as [| | | |si| |]; cbn [as_str mbind result_bind fst];
    try (intros [= <-]; discriminate).
  destruct (validate_iban si) as [iban|e1] eqn:Ev; cbn [fst].
  2:{ intros [= <-].
      destruct (validate_iban_errors _ _ Ev) as [->|[->| ->]]; discriminate. }
  unfold mbind at 1, io_bind at 1, lift at 1.
  destruct va as [| | | |sa| |]; cbn [as_str fst];
    try (intros [= <-]; discriminate).
  unfold mbind at 1, io_bind at 1.
  destruct (negb _); cbn [raise lift fst]; [intros [= <-]; discriminate|].
  cbn [mret io_ret].
  unfold mbind at 1, io_bind at 1, lift at 1.
  destruct (to_float _) as [f|e2] eqn:Ef; cbn [fst].
  2:{ intros [= <-].
      destruct (AmountFacts.to_float_errors _ _ Ef) as [->|[->| ->]]; discriminate. }
  unfold mbind at 1, io_bind at 1.
  destruct (py_eq _ _); cbn [raise lift fst]; [intros [= <-]; discriminate|].
  cbn [mret io_ret].
  set (deposit_obj := AccountDeposit.new now iban f).
  unfold mbind at 1, io_bind at 1. unfold try at 1, load. cbn [store].
  destruct (deposits st) as [| |?|v] eqn:Ed; cbn [json_load].
  - rewrite find_handler_here. cbn [snd mret io_ret].
    unfold mbind at 1, io_bind at 1, lift at 1. cbn [append].
    destruct (AccountDeposit.to_json deposit_obj) as [record|e3] eqn:Ej;
      cbn [mbind result_bind fst].
    2:{ intros [= <-]. rewrite (to_json_errors _ _ Ej). discriminate. }
    unfold mbind at 1, io_bind at 1. unfold try, dump. cbn [store]. rewrite Ed.
    rewrite find_handler_here. cbn [snd raise lift fst]. intros [= <-]. discriminate.
  - rewrite find_handler_here. cbn [snd mret io_ret].
    unfold mbind at 1, io_bind at 1, lift at 1. cbn [append].
    destruct (AccountDeposit.to_json deposit_obj) as [record|e3] eqn:Ej;
      cbn [mbind result_bind fst].
    2:{ intros [= <-]. rewrite (to_json_errors _ _ Ej). discriminate. }
    unfold mbind at 1, io_bind at 1. unfold try, dump. cbn [store]. rewrite Ed.
    unfold lift.
    destruct (AccountDeposit.deposit_signature deposit_obj) eqn:Es; cbn [fst];
      [discriminate|].
    intros [= <-]. rewrite (deposit_signature_errors _ _ Es). discriminate.
  - cbn [find fst snd]. rewrite bool_decide_eq_false_2 by discriminate.
    rewrite bool_decide_eq_true_2 by reflexivity.
    cbn [snd raise lift fst]. intros [= <-]. discriminate.
  - unfold mbind at 1, io_bind at 1, lift at 1.
    destruct v as [| | | | |l|]; cbn [append fst];
      [intros [= <-]; discriminate..| |intros [= <-]; discriminate].
    destruct (AccountDeposit.to_json deposit_obj) as [record|e3] eqn:Ej;
      cbn [mbind result_bind fst].
    2:{ intros [= <-]. rewrite (to_json_errors _ _ Ej). discriminate. }
    unfold mbind at 1, io_bind at 1. unfold try, dump. cbn [store]. rewrite Ed.
    unfold lift.
    destruct (AccountDeposit.deposit_signature deposit_obj) eqn:Es; cbn [fst];
      [discriminate|].
    intros [= <-]. rewrite (deposit_signature_errors _ _ Es). discriminate.
Qed.

End DepositFacts.

(** C2, as the code has it.  On an input that decodes as an object,
    [deposit_into_account] fails with the invalid-key error exactly when
    the key [IBAN] or the key [AMOUNT] is missing; other keys are not
    looked at. *)
Theorem deposit_invalid_key (now : clock) (input : gmap str pyval)
    (st : stores) :
  (deposit_into_account now (Json (PDict input)) st).1 = Raise InvalidInputKey
  <-> input !! lit "IBAN" = None \/ input !! lit "AMOUNT" = None.
Proof.
  split.
  - intros H.
    destruct (input !! lit "IBAN") as [vi|] eqn:Hi; [|auto].
    destruct (input !! lit "AMOUNT") as [va|] eqn:Ha; [|auto].
    exfalso. apply (DepositFacts.deposit_with_both_keys now input st vi va _ Hi Ha H).
    reflexivity.
  - intros H. unfold deposit_into_account.
    unfold mbind at 1, io_bind at 1. cbn [try lift json_load].
    unfold mbind at 1, io_bind at 1. cbn [try lift subscript].
    destruct (input !! lit "IBAN") as [vi|] eqn:Hi.
    + destruct H as [H|H]; [discriminate H|]. rewrite H. reflexivity.
    + reflexivity.
Qed.

(** C2, as it is stated, fails on an input with a third key: the keys
    are not exactly [IBAN] and [AMOUNT], and the deposit is made. *)
Lemma deposit_extra_key :
  let input : gmap str pyval :=
    list_to_map [ (lit "IBAN", PStr (lit "ES9121000418450200051332"));
                  (lit "AMOUNT", PStr (lit "EUR 1234.56"));
                  (lit "EXTRA", PInt 1) ] in
  ~ Spec.exact_keys input
  /\ (deposit_into_account
        (Clock (Date 2023 11 14) (Py.of_decimal false 1700000000123456 (-6)))
        (Json (PDict input)) (Stores NoFile NoFile NoFile NoFile)).1
     = Ok (lit "45a7c133c0d6e516e25bda145ad249bc85002bcb343871f57b981b1c12259959").
Proof.
  intros input. split; [|vm_compute; reflexivity].
  unfold Spec.exact_keys. intros H.
  assert (lit "EXTRA" ∈ dom input) as Hin
    by (apply elem_of_dom; exists (PInt 1); vm_compute; reflexivity).
  rewrite H in Hin. apply elem_of_union in Hin.
  destruct Hin as [Hin|Hin]; apply elem_of_singleton in Hin; discriminate Hin.
Qed.

(** C10.  The signature a successful call of [deposit_into_account]
    returns is the [deposit_signature] field of the record the call
    appended to the deposits store: the record is the stored form of
    the deposit whose signature is returned. *)
Theorem deposit_returns_stored_signature (now : clock) (input_file : file)
    (st : stores) (signature : str) :
  (deposit_into_account now input_file st).1 = Ok signature ->
  exists records record deposit,
    deposits (deposit_into_account now input_file st).2
    = Json (PList (records ++ [PDict record]))
    /\ record !! lit "deposit_signature" = Some (PStr signature)
    /\ AccountDeposit.to_json deposit = Ok (PDict record)
    /\ AccountDeposit.deposit_signature deposit = Ok signature.
Proof.
  destruct (deposit_into_account now input_file st) as [r st'] eqn:E.
  cbn [fst snd]. intros ->. unfold deposit_into_account in E.
  apply DepositFacts.bind_ok in E. destruct E as (input_data & st1 & E1 & E).
  apply DepositFacts.try_quiet_ok in E1;
    [|apply IoFacts.quiet_lift|repeat constructor]. subst st1.
  apply DepositFacts.bind_ok in E. destruct E as ([vi va] & st1 & E1 & E).
  apply DepositFacts.try_quiet_ok in E1;
    [|apply IoFacts.quiet_lift|repeat constructor]. subst st1.
  apply DepositFacts.bind_ok in E. destruct E as (iban & st1 & E1 & E).
  apply DepositFacts.lift_ok in E1. destruct E1 as [_ ->].
  apply DepositFacts.bind_ok in E. destruct E as (amount & st1 & E1 & E).
  apply DepositFacts.lift_ok in E1. destruct E1 as [_ ->].
  apply DepositFacts.bind_ok in E. destruct E as (u1 & st1 & E1 & E).
  apply DepositFacts.guard_ok in E1. destruct E1 as [_ ->].
  apply DepositFacts.bind_ok in E. destruct E as (value & st1 & E1 & E).
  apply DepositFacts.lift_ok in E1. destruct E1 as [_ ->].
  apply DepositFacts.bind_ok in E. destruct E as (u2 & st1 & E1 & E).
  apply DepositFacts.guard_ok in E1. destruct E1 as [_ ->].
  set (deposit := AccountDeposit.new now iban value) in E.
  apply DepositFacts.bind_ok in E. destruct E as (deposit_list & st1 & E1 & E).
  apply DepositFacts.try_quiet_ok in E1;
    [|apply IoFacts.quiet_load|repeat constructor].
  subst st1.
  apply DepositFacts.bind_ok in E. destruct E as (new_list & st1 & E1 & E).
  apply DepositFacts.lift_ok in E1. destruct E1 as [Happend ->].
  apply DepositFacts.bind_ok in E. destruct E as (u3 & st1 & E1 & E).
  apply DepositFacts.try_dump_ok in E1. subst st1.
  apply DepositFacts.lift_ok in E. destruct E as [Hsig ->].
  apply DepositFacts.append_ok in Happend.
  destruct Happend as (records & record & _ & Hjson & ->).
  destruct (DepositFacts.to_json_ok deposit record Hjson)
    as (d & signature' & -> & Hsig' & Hlookup).
  rewrite Hsig in Hsig'. injection Hsig' as <-.
  exists records, d, deposit. cbn [set_store deposits]. auto.
Qed.

Lemma deposit_returns_stored_signature_witness :
  let call :=
    deposit_into_account
      (Clock (Date 2023 11 14) (Py.of_decimal false 1700000000123456 (-6)))
      (Json (PDict (list_to_map
                      [ (lit "IBAN", PStr (lit "ES9121000418450200051332"));
                        (lit "AMOUNT", PStr (lit "EUR 1234.56")) ])))
      (Stores NoFile NoFile NoFile NoFile) in
  exists records record deposit,
    deposits call.2 = Json (PList (records ++ [PDict record]))
    /\ record !! lit "deposit_signature"
       = Some (PStr (lit "45a7c133c0d6e516e25bda145ad249bc85002bcb343871f57b981b1c12259959"))
    /\ AccountDeposit.to_json deposit = Ok (PDict record)
    /\ AccountDeposit.deposit_signature deposit
       = Ok (lit "45a7c133c0d6e516e25bda145ad249bc85002bcb343871f57b981b1c12259959").
Proof.
  intros call. apply deposit_returns_stored_signature.
  vm_compute. reflexivity.
Defined.

(** ** calculate_balance *)

Module BalanceFacts.
Import Aux IoFacts.

(** What the loop does with one readable transaction. *)
Lemma readable_transaction iban t :
  Spec.readable iban t = true ->
  exists v, subscript t "IBAN" = Ok v
            /\ py_eq v (PStr iban) = Spec.of_iban iban t
            /\ (Spec.of_iban iban t = true ->
                exists a f, subscript t "amount" = Ok a /\ to_float a = Ok f
                            /\ Spec.amount_of t = Some f).
Proof.
  destruct t as [| | | | | |d]; try discriminate.
  unfold Spec.readable, Spec.of_iban, Spec.field_agrees, Spec.amount_of, subscript.
  intros [[v Hv]%bool_decide_eq_true Ha]%andb_true_iff. rewrite Hv in *.
  exists v. split; [reflexivity|]. split; [reflexivity|].
  intros Hm. rewrite Hm in Ha. cbn [negb orb] in Ha.
  apply bool_decide_eq_true in Ha. destruct Ha as [f Hf].
  destruct (d !! lit "amount") as [a|]; [|discriminate].
  destruct (to_float a) as [f'|] eqn:Ef; [|discriminate]. injection Hf as ->.
  exists a, f. auto.
Qed.

(** The loop once a transaction of the IBAN has been seen. *)
Lemma sum_transactions_float iban txs : forall acc,
  forallb (Spec.readable iban) txs = true ->
  sum_transactions txs iban (true, PFloat acc)
  = Ok (true, PFloat (fold_left Py.fadd
                        (omap Spec.amount_of
                           (filter (fun t => Spec.of_iban iban t = true) txs))
                        acc)).
Proof.
  induction txs as [|t txs IH]; intros acc; [reflexivity|].
  cbn [forallb]. intros [Ht Hl]%andb_true_iff. cbn [sum_transactions].
  destruct (readable_transaction iban t Ht) as (v & Hs & He & Hamount).
  rewrite Hs. cbn [mbind result_bind]. rewrite He, filter_cons.
  destruct (Spec.of_iban iban t) eqn:Hm.
  - destruct (Hamount eq_refl) as (a & f & Ha & Hfl & Hf).
    rewrite Ha. cbn [mbind result_bind]. rewrite Hfl.
    cbn [mbind result_bind add_float snd].
    destruct (decide (true = true)) as [_|Hne]; [|congruence].
    cbn [omap list_omap]. rewrite Hf. cbn [fold_left]. apply IH, Hl.
  - cbn [mbind result_bind].
    destruct (decide (false = true)) as [Heq|_]; [discriminate Heq|].
    apply IH, Hl.
Qed.

(** The whole loop. *)
Lemma sum_transactions_start iban txs :
  forallb (Spec.readable iban) txs = true ->
  sum_transactions txs iban (false, PInt 0)
  = if existsb (Spec.of_iban iban) txs
    then Ok (true, PFloat (Spec.balance iban txs))
    else Ok (false, PInt 0).
Proof.
  unfold Spec.balance.
  induction txs as [|t txs IH]; [reflexivity|].
  cbn [forallb]. intros [Ht Hl]%andb_true_iff. cbn [sum_transactions existsb].
  destruct (readable_transaction iban t Ht) as (v & Hs & He & Hamount).
  rewrite Hs. cbn [mbind result_bind]. rewrite He, filter_cons.
  destruct (Spec.of_iban iban t) eqn:Hm.
  - destruct (Hamount eq_refl) as (a & f & Ha & Hfl & Hf).
    rewrite Ha. cbn [mbind result_bind]. rewrite Hfl.
    cbn [mbind result_bind add_float snd orb].
    destruct (decide (true = true)) as [_|Hne]; [|congruence].
    cbn [omap list_omap]. rewrite Hf. cbn [fold_left].
    change (Py.of_int 0) with (Ok (S754_zero false) : result Py.float).
    cbn [mbind result_bind]. apply sum_transactions_float, Hl.
  - cbn [mbind result_bind orb].
    destruct (decide (false = true)) as [Heq|_]; [discriminate Heq|].
    apply IH, Hl.
Qed.

(** The call up to the balances store. *)
Lemma calculate_balance_sum now iban st txs :
  validate_iban iban = Ok iban ->
  transactions st = Json (PList txs) ->
  forallb (Spec.readable iban) txs = true ->
  calculate_balance now iban st =
  if existsb (Spec.of_iban iban) txs
  then (balance_list ← try (load BALANCES_STORE_FILE)
                         [ (FileNotFoundError, mret (PList []));
                           (JSONDecodeError, raise MalformedStore) ];
        balance_list ← lift (append balance_list
                               (Ok (Spec.snapshot now iban
                                      (Spec.balance iban txs))));
        _ ← try (dump BALANCES_STORE_FILE balance_list)
              [ (FileNotFoundError, raise StoreUnreadable) ];
        mret true) st
  else (Raise IbanNotFound, st).
Proof.
  intros Hv Ht Hr. unfold calculate_balance, read_transactions_file.
  unfold mbind at 1, io_bind at 1, lift at 1. rewrite Hv.
  unfold mbind at 1, io_bind at 1. unfold try at 1, load at 1. cbn [store].
  rewrite Ht. cbn [json_load].
  unfold mbind at 1, io_bind at 1, lift at 1. cbn [iterate].
  unfold mbind at 1, io_bind at 1, lift at 1.
  rewrite (sum_transactions_start iban txs Hr).
  destruct (existsb (Spec.of_iban iban) txs); reflexivity.
Qed.

End BalanceFacts.

(** The balance of the example of the specification. *)
Example balance_example :
  let x := lit "ES1234567890123456789012" in
  Spec.balance x
    [ PDict (list_to_map [(lit "IBAN", PStr x); (lit "amount", PInt 50)]);
      PDict (list_to_map [(lit "IBAN", PStr x); (lit "amount", PInt (-20))]) ]
  = const 30.
Proof. vm_compute. reflexivity. Qed.

(** C6.  For a valid IBAN: without the transactions store the call fails
    and writes nothing; over a store of readable transactions it fails
    with [IbanNotFound] exactly when no transaction is of the IBAN, and
    otherwise appends a snapshot whose [BALANCE] is the sum of the
    amounts of the transactions of the IBAN, whatever that sum is. *)
Theorem calculate_balance_sums (now : clock) (iban : str) (st : stores) :
  validate_iban iban = Ok iban ->
  (transactions st = NoFile \/ transactions st = NoDirectory ->
   calculate_balance now iban st = (Raise StoreUnreadable, st))
  /\ (forall txs,
        transactions st = Json (PList txs) ->
        forallb (Spec.readable iban) txs = true ->
        (existsb (Spec.of_iban iban) txs = false ->
         calculate_balance now iban st = (Raise IbanNotFound, st))
        /\ (existsb (Spec.of_iban iban) txs = true ->
            (calculate_balance now iban st).1 <> Raise IbanNotFound
            /\ forall snapshots,
                 Spec.ledger (balances st) = Some snapshots ->
                 calculate_balance now iban st
                 = (Ok true,
                    set_store BALANCES_STORE_FILE
                      (Json (PList (snapshots ++
                                      [Spec.snapshot now iban
                                         (Spec.balance iban txs)]))) st))).
Proof.
  intros Hv. split.
  - intros Hmissing. unfold calculate_balance, read_transactions_file.
    unfold mbind at 1, io_bind at 1, lift at 1. rewrite Hv.
    unfold mbind at 1, io_bind at 1. unfold try at 1, load at 1. cbn [store].
    destruct Hmissing as [-> | ->]; reflexivity.
  - intros txs Ht Hr.
    rewrite (BalanceFacts.calculate_balance_sum now iban st txs Hv Ht Hr).
    split; [intros ->; reflexivity|]. intros ->.
    unfold mbind, io_bind, try, load, dump, lift. cbn [store].
    destruct (balances st) as [| |?|v] eqn:Eb; cbn [json_load].
    + split; [|discriminate]. rewrite find_handler_here.
      cbn [snd mret io_ret append mbind result_bind app]. rewrite Eb.
      rewrite find_handler_here. cbn. discriminate.
    + rewrite find_handler_here.
      cbn [snd mret io_ret append mbind result_bind app]. rewrite Eb.
      split; [cbn; discriminate|]. intros snapshots [= <-]. reflexivity.
    + split; [|discriminate]. cbn [find fst].
      rewrite bool_decide_eq_false_2 by discriminate.
      rewrite bool_decide_eq_true_2 by reflexivity. cbn. discriminate.
    + destruct v as [| | | | |l|]; cbn [append mbind result_bind];
        try (split; [cbn; discriminate|discriminate]).
      rewrite Eb. split; [cbn; discriminate|]. intros snapshots [= <-]. reflexivity.
Qed.

Lemma calculate_balance_sums_witness :
  let x := lit "ES9121000418450200051332" in
  let now := Clock (Date 2026 11 3) (Py.of_decimal false 1700000000123456 (-6)) in
  let entry (amount : Z) :=
    PDict (list_to_map [(lit "IBAN", PStr x); (lit "amount", PInt amount)]) in
  let st txs := Stores NoFile NoFile (Json (PList txs)) NoFile in
  calculate_balance now x (st [entry 50; entry (-20)])
  = (Ok true,
     set_store BALANCES_STORE_FILE
       (Json (PList [Spec.snapshot now x (const 30)]))
       (st [entry 50; entry (-20)]))
  /\ calculate_balance now x (st [entry 50; entry (-50)])
     = (Ok true,
        set_store BALANCES_STORE_FILE
          (Json (PList [Spec.snapshot now x (S754_zero false)]))
          (st [entry 50; entry (-50)])).
Proof.
  intros x now entry st. split.
  - destruct (calculate_balance_sums now x (st [entry 50; entry (-20)]))
      as [_ H]; [vm_compute; reflexivity|].
    destruct (H [entry 50; entry (-20)] eq_refl) as [_ H'];
      [vm_compute; reflexivity|].
    destruct H' as [_ H'']; [vm_compute; reflexivity|].
    exact (H'' [] eq_refl).
  - destruct (calculate_balance_sums now x (st [entry 50; entry (-50)]))
      as [_ H]; [vm_compute; reflexivity|].
    destruct (H [entry 50; entry (-50)] eq_refl) as [_ H'];
      [vm_compute; reflexivity|].
    destruct H' as [_ H'']; [vm_compute; reflexivity|].
    exact (H'' [] eq_refl).
Defined.

(** C6, as it is stated, fails on a transactions store that is not a
    list of readable transactions.  A transaction of the IBAN whose
    amount [float] cannot read: a transaction matches, the call raises
    [ValueError] and appends no snapshot.  A transaction without an
    IBAN: no transaction matches, and the call raises [KeyError], not
    [IbanNotFound]. *)
Lemma calculate_balance_malformed_transactions :
  let x := lit "ES9121000418450200051332" in
  let now := Clock (Date 2026 11 3) (Py.of_decimal false 1700000000123456 (-6)) in
  let unreadable :=
    PDict (list_to_map [(lit "IBAN", PStr x); (lit "amount", PStr (lit "ten"))]) in
  let nameless := PDict (list_to_map [(lit "amount", PInt 50)]) in
  let st txs := Stores NoFile NoFile (Json (PList txs)) NoFile in
  validate_iban x = Ok x
  /\ (existsb (Spec.of_iban x) [unreadable] = true
      /\ calculate_balance now x (st [unreadable])
         = (Raise ValueError, st [unreadable]))
  /\ (existsb (Spec.of_iban x) [nameless] = false
      /\ calculate_balance now x (st [nameless])
         = (Raise KeyError, st [nameless])
      /\ Raise (A := bool) KeyError <> Raise IbanNotFound).
Proof.
  repeat split; try (vm_compute; reflexivity). discriminate.
Qed.

(** * Further properties *)

(** ** validate_iban: what the check digits detect *)

Module CheckDigitFacts.
Import IbanFacts.

Lemma digits_value_app l1 l2 :
  Spec.digits_value (l1 ++ l2)
  = Spec.digits_value l1 * 10 ^ Z.of_nat (length l2) + Spec.digits_value l2.
Proof.
  unfold Spec.digits_value. rewrite fold_left_app.
  generalize (fold_left (fun acc c => 10 * acc + Py.digit c) l1 0) as v.
  induction l2 as [|c l2 IH]; intros v.
  - cbn. lia.
  - cbn [fold_left length]. rewrite IH, (IH (10 * 0 + Py.digit c)).
    rewrite Nat2Z.inj_succ, Z.pow_succ_r by lia. lia.
Qed.

Lemma digit_range c : is_ascii_digit c = true -> 0 <= Py.digit c <= 9.
Proof.
  unfold is_ascii_digit, in_range, Py.digit.
  intros [H1%N.leb_le H2%N.leb_le]%andb_true_iff. lia.
Qed.

Lemma digit_inj c c' : Py.digit c = Py.digit c' -> c = c'.
Proof. unfold Py.digit. lia. Qed.

(** 97 divides a multiple of a power of ten only when it divides the
    number multiplied. *)
Lemma divide_97_power d n : 0 <= n -> (97 | d * 10 ^ n) -> (97 | d).
Proof.
  intros Hn Hdiv.
  rewrite <- (Z2Nat.id n Hn) in Hdiv. induction (Z.to_nat n) as [|m IH].
  - rewrite Z.mul_1_r in Hdiv. exact Hdiv.
  - apply IH. rewrite Nat2Z.inj_succ, Z.pow_succ_r in Hdiv by lia.
    apply (Z.gauss 97 10); [|reflexivity].
    replace (10 * (d * 10 ^ Z.of_nat m)) with (d * (10 * 10 ^ Z.of_nat m)) by lia.
    exact Hdiv.
Qed.

Lemma not_divide_97 d n : 0 <= n -> -97 < d < 97 -> d <> 0 ->
  (d * 10 ^ n) mod 97 <> 0.
Proof.
  intros Hn Hd Hz Hmod.
  apply Z.mod_divide in Hmod; [|lia].
  destruct (divide_97_power d n Hn Hmod) as [q Hq]. lia.
Qed.

(** 97 divides a multiple of the difference of two digits only when it
    divides the number multiplied. *)
Lemma divide_97_digits d x : -9 <= d <= 9 -> d <> 0 -> (97 | d * x) -> (97 | x).
Proof.
  intros Hd Hz Hdiv. apply (Z.gauss 97 d); [exact Hdiv|].
  assert (d = -9 \/ d = -8 \/ d = -7 \/ d = -6 \/ d = -5 \/ d = -4 \/ d = -3
          \/ d = -2 \/ d = -1 \/ d = 1 \/ d = 2 \/ d = 3 \/ d = 4 \/ d = 5
          \/ d = 6 \/ d = 7 \/ d = 8 \/ d = 9) as H by lia.
  repeat (destruct H as [->|H]; [reflexivity|]). subst d. reflexivity.
Qed.

(** No power of ten up to the nineteenth is one more than a multiple
    of 97. *)
Lemma power_not_one m : 1 <= m <= 19 -> ~ (97 | 10 ^ m - 1).
Proof.
  intros Hm Hdiv. apply Z.mod_divide in Hdiv; [|lia].
  assert (m = 1 \/ m = 2 \/ m = 3 \/ m = 4 \/ m = 5 \/ m = 6 \/ m = 7 \/ m = 8
          \/ m = 9 \/ m = 10 \/ m = 11 \/ m = 12 \/ m = 13 \/ m = 14 \/ m = 15
          \/ m = 16 \/ m = 17 \/ m = 18 \/ m = 19) as H by lia.
  repeat (destruct H as [->|H]; [vm_compute in Hdiv; discriminate Hdiv|]).
  subst m. vm_compute in Hdiv. discriminate Hdiv.
Qed.

(** Numbers with the same remainder differ by a multiple. *)
Lemma same_remainder a b : a mod 97 = b mod 97 -> (a - b) mod 97 = 0.
Proof. intros H. rewrite Zminus_mod, H, Z.sub_diag. reflexivity. Qed.

(** A valid IBAN is [ES], two digits and twenty digits that agree with
    the check. *)
Lemma valid_shape iban :
  validate_iban iban = Ok iban ->
  exists c1 c2 account,
    iban = 69%N :: 83%N :: c1 :: c2 :: account
    /\ forallb is_ascii_digit (c1 :: c2 :: account) = true
    /\ length account = 20%nat
    /\ Spec.expected_check iban = Spec.check_code iban.
Proof.
  intros Hv.
  destruct (fullmatch iban_pattern iban) eqn:Hm.
  2:{ unfold validate_iban in Hv. rewrite Hm in Hv. discriminate Hv. }
  apply fullmatch_iban_pattern in Hm. destruct Hm as (ds & -> & Hlen & Hd).
  destruct ds as [|c1 [|c2 account]]; try discriminate Hlen.
  exists c1, c2, account. injection Hlen as Hlen.
  split; [reflexivity|]. split; [exact Hd|]. split; [exact Hlen|].
  rewrite (validate_iban_format c1 c2 account Hd Hlen) in Hv.
  destruct (_ =? _) eqn:E in Hv; [|discriminate Hv]. apply Z.eqb_eq in E. exact E.
Qed.

(** What a string of the format gets. *)
Lemma format_outcome s :
  validate_iban s = Raise InvalidFormat
  \/ exists c1 c2 account,
       s = 69%N :: 83%N :: c1 :: c2 :: account
       /\ forallb is_ascii_digit (c1 :: c2 :: account) = true
       /\ length account = 20%nat
       /\ validate_iban s =
          if Spec.expected_check s =? Spec.check_code s
          then Ok s else Raise InvalidCheckDigit.
Proof.
  destruct (fullmatch iban_pattern s) eqn:Hm.
  2:{ left. unfold validate_iban. rewrite Hm. reflexivity. }
  right. apply fullmatch_iban_pattern in Hm. destruct Hm as (ds & -> & Hlen & Hd).
  destruct ds as [|c1 [|c2 account]]; try discriminate Hlen.
  exists c1, c2, account. injection Hlen as Hlen.
  split; [reflexivity|]. split; [exact Hd|]. split; [exact Hlen|].
  apply (validate_iban_format c1 c2 account Hd Hlen).
Qed.

Lemma expected_check_account c1 c2 account :
  Spec.expected_check (69%N :: 83%N :: c1 :: c2 :: account)
  = 98 - (Spec.digits_value account * 10 ^ 6 + 142800) mod 97.
Proof.
  unfold Spec.expected_check, Spec.rearranged. cbn [skipn].
  rewrite digits_value_app. reflexivity.
Qed.

Lemma check_code_digits c1 c2 account :
  Spec.check_code (69%N :: 83%N :: c1 :: c2 :: account)
  = 10 * Py.digit c1 + Py.digit c2.
Proof.
  unfold Spec.check_code, slice, Spec.digits_value. cbn [Nat.sub skipn firstn fold_left].
  change (firstn 0 account) with (@nil N). cbn [fold_left]. lia.
Qed.

(** Two account numbers that differ in one digit have different
    remainders. *)
Lemma account_digit_changes l1 a c l2 :
  is_ascii_digit a = true -> is_ascii_digit c = true -> a <> c ->
  (Spec.digits_value (l1 ++ c :: l2) * 10 ^ 6 + 142800) mod 97
  <> (Spec.digits_value (l1 ++ a :: l2) * 10 ^ 6 + 142800) mod 97.
Proof.
  intros Ha Hc Hne Heq. apply same_remainder in Heq.
  rewrite !digits_value_app in Heq.
  change (c :: l2) with ([c] ++ l2) in Heq. change (a :: l2) with ([a] ++ l2) in Heq.
  rewrite !digits_value_app in Heq.
  pose proof (digit_range a Ha). pose proof (digit_range c Hc).
  assert (Py.digit c <> Py.digit a) by (intros E; apply digit_inj in E; congruence).
  unfold Spec.digits_value at 2 5 in Heq. cbn [fold_left length] in Heq.
  apply (not_divide_97 (Py.digit c - Py.digit a) (Z.of_nat (length l2) + 6));
    [lia|lia|lia|].
  rewrite <- Heq. f_equal. rewrite Z.pow_add_r by lia. cbn [app length].
  generalize (10 ^ Z.of_nat (length l2)) (10 ^ Z.of_nat (S (length l2)))
    (Spec.digits_value l1) (Spec.digits_value l2) (Py.digit a) (Py.digit c).
  intros. ring.
Qed.

End CheckDigitFacts.

(** X1.  A valid IBAN in which one character is replaced by another is
    not valid: the call fails with [InvalidFormat] or with
    [InvalidCheckDigit]. *)
Theorem validate_iban_detects_substitution (iban : str) (i : nat) (c : char) :
  validate_iban iban = Ok iban ->
  (i < length iban)%nat ->
  iban !! i <> Some c ->
  validate_iban (<[i := c]> iban) = Raise InvalidFormat
  \/ validate_iban (<[i := c]> iban) = Raise InvalidCheckDigit.
Proof.
  intros Hv Hi Hne.
  destruct (CheckDigitFacts.valid_shape iban Hv)
    as (c1 & c2 & account & -> & Hd & Hlen & Hcheck).
  destruct (CheckDigitFacts.format_outcome
              (<[i := c]> (69%N :: 83%N :: c1 :: c2 :: account)))
    as [H|(d1 & d2 & account' & Hs & Hd' & Hlen' & ->)]; [left; exact H|].
  right. rewrite Hs.
  rewrite CheckDigitFacts.expected_check_account, CheckDigitFacts.check_code_digits.
  rewrite CheckDigitFacts.expected_check_account, CheckDigitFacts.check_code_digits
    in Hcheck.
  destruct (Z.eqb_spec
              (98 - (Spec.digits_value account' * 10 ^ 6 + 142800) mod 97)
              (10 * Py.digit d1 + Py.digit d2)) as [E|_]; [exfalso|reflexivity].
  cbn [forallb] in Hd, Hd'.
  apply andb_true_iff in Hd as [Hc1 Hd]. apply andb_true_iff in Hd as [Hc2 Hacc].
  apply andb_true_iff in Hd' as [Hd1 Hd']. apply andb_true_iff in Hd' as [Hd2 Hacc'].
  destruct i as [|[|[|[|k]]]];
    [cbn in Hs..
    |change (<[S (S (S (S k))) := c]> (69%N :: 83%N :: c1 :: c2 :: account))
       with (69%N :: 83%N :: c1 :: c2 :: <[k := c]> account) in Hs].
  - injection Hs as -> _. apply Hne. reflexivity.
  - injection Hs as -> _. apply Hne. reflexivity.
  - injection Hs as -> -> ->.
    assert (Py.digit d1 <> Py.digit c1)
      by (intros E'; apply CheckDigitFacts.digit_inj in E'; subst; apply Hne; reflexivity).
    lia.
  - injection Hs as -> -> ->.
    assert (Py.digit d2 <> Py.digit c2)
      by (intros E'; apply CheckDigitFacts.digit_inj in E'; subst; apply Hne; reflexivity).
    lia.
  - injection Hs as -> -> <-.
    cbn [length] in Hi. assert (k < length account)%nat as Hk by lia.
    destruct (lookup_lt_is_Some_2 account k Hk) as [a Ha].
    rewrite insert_take_drop in E by exact Hk.
    rewrite <- (take_drop_middle account k a Ha) in Hcheck.
    assert (is_ascii_digit a = true) as Hda.
    { rewrite forallb_forall in Hacc. apply Hacc.
      apply list_elem_of_In. eapply list_elem_of_lookup_2. exact Ha. }
    assert (is_ascii_digit c = true) as Hdc.
    { rewrite forallb_forall in Hacc'. apply Hacc'.
      apply list_elem_of_In. eapply list_elem_of_lookup_2.
      apply list_lookup_insert_eq. exact Hk. }
    assert (a <> c) as Hac by (intros ->; apply Hne; exact Ha).
    pose proof (CheckDigitFacts.account_digit_changes
                  (take k account) a c (drop (S k) account) Hda Hdc Hac).
    lia.
Qed.

Lemma validate_iban_detects_substitution_witness :
  validate_iban (lit "ES9121000418450200051333") = Raise InvalidFormat
  \/ validate_iban (lit "ES9121000418450200051333") = Raise InvalidCheckDigit.
Proof.
  apply (validate_iban_detects_substitution
           (lit "ES9121000418450200051332") 23 51%N);
    [reflexivity|vm_compute; lia|discriminate].
Defined.

Module TranspositionFacts.
Import IbanFacts CheckDigitFacts.

(** The value of an account number in which two digits are exchanged. *)
Lemma exchange_value l1 a l2 b l3 :
  Spec.digits_value (l1 ++ b :: l2 ++ a :: l3)
  - Spec.digits_value (l1 ++ a :: l2 ++ b :: l3)
  = (Py.digit b - Py.digit a)
    * ((10 ^ (Z.of_nat (length l2) + 1) - 1) * 10 ^ Z.of_nat (length l3)).
Proof.
  change (b :: l2 ++ a :: l3) with ([b] ++ l2 ++ [a] ++ l3).
  change (a :: l2 ++ b :: l3) with ([a] ++ l2 ++ [b] ++ l3).
  rewrite !digits_value_app. rewrite !length_app. cbn [length].
  unfold Spec.digits_value at 2 4 7 9. cbn [fold_left].
  rewrite !Nat2Z.inj_add, !Z.pow_add_r by lia.
  change (10 ^ Z.of_nat 1) with 10. change (10 ^ 1) with 10.
  generalize (10 ^ Z.of_nat (length l2)) (10 ^ Z.of_nat (length l3))
    (Spec.digits_value l1) (Spec.digits_value l2) (Spec.digits_value l3)
    (Py.digit a) (Py.digit b).
  intros. ring.
Qed.

Lemma forallb_exchange (p : char -> bool) l1 a l2 b l3 :
  forallb p (l1 ++ b :: l2 ++ a :: l3) = forallb p (l1 ++ a :: l2 ++ b :: l3).
Proof.
  rewrite !forallb_app. cbn [forallb]. rewrite !forallb_app. cbn [forallb].
  destruct (forallb p l1), (p a), (p b), (forallb p l2), (forallb p l3); reflexivity.
Qed.

End TranspositionFacts.

(** X2.  A valid IBAN in which two different digits of the account
    number are exchanged fails with [InvalidCheckDigit]. *)
Theorem validate_iban_detects_transposition
    (head l1 l2 l3 : str) (a b : char) :
  length head = 4%nat ->
  validate_iban (head ++ l1 ++ a :: l2 ++ b :: l3)
  = Ok (head ++ l1 ++ a :: l2 ++ b :: l3) ->
  a <> b ->
  validate_iban (head ++ l1 ++ b :: l2 ++ a :: l3) = Raise InvalidCheckDigit.
Proof.
  intros Hhead Hv Hne.
  destruct (CheckDigitFacts.valid_shape _ Hv)
    as (c1 & c2 & account & Hs & Hd & Hlen & Hcheck).
  destruct head as [|h1 [|h2 [|h3 [|h4 [|]]]]]; try discriminate Hhead.
  cbn [app] in Hs. injection Hs as -> -> -> -> <-.
  cbn [app] in *. cbn [forallb] in Hd.
  apply andb_true_iff in Hd as [Hc1 Hd]. apply andb_true_iff in Hd as [Hc2 Hacc].
  assert (forallb is_ascii_digit (l1 ++ a :: l2 ++ b :: l3) = true) as Hacc0
    by exact Hacc.
  rewrite <- TranspositionFacts.forallb_exchange in Hacc.
  rewrite (IbanFacts.validate_iban_format c1 c2 (l1 ++ b :: l2 ++ a :: l3)).
  2:{ cbn [forallb]. rewrite Hc1, Hc2, Hacc. reflexivity. }
  2:{ rewrite <- Hlen, !length_app. cbn [length]. rewrite !length_app. cbn [length]. lia. }
  rewrite CheckDigitFacts.expected_check_account, CheckDigitFacts.check_code_digits.
  rewrite CheckDigitFacts.expected_check_account, CheckDigitFacts.check_code_digits
    in Hcheck.
  destruct (Z.eqb_spec
              (98 - (Spec.digits_value (l1 ++ b :: l2 ++ a :: l3) * 10 ^ 6 + 142800)
                    mod 97)
              (10 * Py.digit c1 + Py.digit c2)) as [E|_]; [exfalso|reflexivity].
  assert ((Spec.digits_value (l1 ++ b :: l2 ++ a :: l3) * 10 ^ 6 + 142800) mod 97
          = (Spec.digits_value (l1 ++ a :: l2 ++ b :: l3) * 10 ^ 6 + 142800) mod 97)
    as Heq by lia.
  apply CheckDigitFacts.same_remainder in Heq.
  apply Z.mod_divide in Heq; [|lia].
  replace (Spec.digits_value (l1 ++ b :: l2 ++ a :: l3) * 10 ^ 6 + 142800
           - (Spec.digits_value (l1 ++ a :: l2 ++ b :: l3) * 10 ^ 6 + 142800))
    with ((Spec.digits_value (l1 ++ b :: l2 ++ a :: l3)
           - Spec.digits_value (l1 ++ a :: l2 ++ b :: l3)) * 10 ^ 6) in Heq by lia.
  apply CheckDigitFacts.divide_97_power in Heq; [|lia].
  rewrite TranspositionFacts.exchange_value in Heq.
  assert (is_ascii_digit a = true /\ is_ascii_digit b = true) as [Ha Hb].
  { rewrite forallb_app in Hacc0. apply andb_true_iff in Hacc0 as [_ H].
    cbn [forallb] in H. apply andb_true_iff in H as [Ha H].
    rewrite forallb_app in H. apply andb_true_iff in H as [_ H].
    cbn [forallb] in H. apply andb_true_iff in H as [Hb _]. auto. }
  pose proof (CheckDigitFacts.digit_range a Ha).
  pose proof (CheckDigitFacts.digit_range b Hb).
  apply CheckDigitFacts.divide_97_digits in Heq; [|lia|].
  2:{ intros E'. apply Hne. symmetry. apply CheckDigitFacts.digit_inj. lia. }
  apply CheckDigitFacts.divide_97_power in Heq; [|lia].
  apply CheckDigitFacts.power_not_one in Heq; [exact Heq|].
  rewrite !length_app in Hlen. cbn [length] in Hlen.
  rewrite !length_app in Hlen. cbn [length] in Hlen. lia.
Qed.

Lemma validate_iban_detects_transposition_witness :
  validate_iban (lit "ES9112000418450200051332") = Raise InvalidCheckDigit.
Proof.
  apply (validate_iban_detects_transposition
           (lit "ES91") [] [] (lit "000418450200051332") 50%N 49%N);
    [reflexivity|reflexivity|discriminate].
Defined.

(** X3.  Of the IBANs with a given account number of twenty digits,
    whatever two characters stand for the check code, the one that is
    valid is the one whose check digits the formula gives. *)
Theorem validate_iban_check_code_unique (c1 c2 : char) (account : str) :
  length account = 20%nat ->
  forallb is_ascii_digit account = true ->
  validate_iban (69%N :: 83%N :: c1 :: c2 :: account)
  = Ok (69%N :: 83%N :: c1 :: c2 :: account)
  <-> 69%N :: 83%N :: c1 :: c2 :: account = Spec.generate_iban account.
Proof.
  intros Hlen Hacc.
  set (n := 98 - Spec.digits_value (account ++ lit "142800") mod 97).
  assert (0 <= n < 100) as Hn
    by (unfold n; pose proof (Z.mod_pos_bound
          (Spec.digits_value (account ++ lit "142800")) 97); lia).
  destruct (IbanFacts.two_digits_ok n Hn) as [Hd2 Hv2].
  assert (Spec.generate_iban account
          = 69%N :: 83%N :: Z.to_N (48 + n / 10) :: Z.to_N (48 + n mod 10) :: account)
    as Hgen by reflexivity.
  rewrite Hgen. split.
  - intros Hv.
    destruct (CheckDigitFacts.valid_shape _ Hv)
      as (d1 & d2 & account' & Hs & Hd & _ & Hcheck).
    injection Hs as <- <- <-.
    rewrite CheckDigitFacts.check_code_digits in Hcheck.
    unfold Spec.expected_check, Spec.rearranged in Hcheck. cbn [skipn] in Hcheck.
    change (skipn 0 account) with account in Hcheck. fold n in Hcheck.
    cbn [forallb] in Hd. apply andb_true_iff in Hd as [Hc1 Hd].
    apply andb_true_iff in Hd as [Hc2 _].
    pose proof (CheckDigitFacts.digit_range c1 Hc1).
    pose proof (CheckDigitFacts.digit_range c2 Hc2).
    assert (n / 10 = Py.digit c1 /\ n mod 10 = Py.digit c2) as [E1 E2].
    { rewrite Hcheck. split.
      - rewrite Z.mul_comm, Z.div_add_l, Z.div_small by lia. lia.
      - rewrite Z.add_comm, Z.mul_comm, Z.mod_add, Z.mod_small by lia. reflexivity. }
    rewrite E1, E2. unfold Py.digit.
    replace (48 + (Z.of_N c1 - 48)) with (Z.of_N c1) by lia.
    replace (48 + (Z.of_N c2 - 48)) with (Z.of_N c2) by lia.
    rewrite !N2Z.id. reflexivity.
  - intros [= -> ->].
    rewrite (IbanFacts.validate_iban_format _ _ account);
      [|cbn [forallb] in Hd2 |- *; apply andb_true_iff in Hd2 as [-> Hd2];
        apply andb_true_iff in Hd2 as [-> _]; exact Hacc|exact Hlen].
    unfold Spec.expected_check, Spec.check_code, Spec.rearranged.
    cbn [skipn slice firstn Nat.sub].
    change (firstn 0 account) with (@nil N). change (skipn 0 account) with account.
    fold n. change [Z.to_N (48 + n / 10); Z.to_N (48 + n mod 10)]
      with (Spec.two_digits n). rewrite Hv2, Z.eqb_refl. reflexivity.
Qed.

Lemma validate_iban_check_code_unique_witness :
  lit "ES9121000418450200051332"
  = Spec.generate_iban (lit "21000418450200051332").
Proof.
  apply (validate_iban_check_code_unique 57%N 49%N (lit "21000418450200051332"));
    reflexivity.
Defined.

(** ** What the operations raise and write *)

Module OutcomeFacts.
Import Aux Outcome.

Lemma within_weaken {A} es es' (m : io A) :
  incl es es' -> raises_within es m -> raises_within es' m.
Proof. intros Hi Hm st e H. apply Hi, (Hm st e H). Qed.

Lemma within_lift {A} es (r : result A) :
  fails_within es r -> raises_within es (lift r).
Proof. intros Hr st e H. apply Hr. exact H. Qed.

Lemma within_ret {A} es (a : A) : raises_within es (mret a : io A).
Proof. intros st e H. discriminate H. Qed.

Lemma within_raise {A} es e : In e es -> raises_within es (raise (A := A) e).
Proof. intros He st e' [= <-]. exact He. Qed.

Lemma within_guard es (b : bool) e :
  In e es -> raises_within es (if b then raise e else mret tt).
Proof. destruct b; [apply within_raise|intros _; apply within_ret]. Qed.

Lemma within_bind {A B} es (m : io A) (f : A -> io B) :
  raises_within es m -> (forall a, raises_within es (f a)) ->
  raises_within es (m ≫= f).
Proof.
  intros Hm Hf st e. unfold mbind, io_bind. specialize (Hm st).
  destruct (m st) as [[a|e'] st1]; cbn [fst] in *.
  - apply Hf.
  - intros [= <-]. apply Hm. reflexivity.
Qed.

Lemma within_try {A} es' es (m : io A) handlers :
  raises_within es' m ->
  Forall (fun e =>
            match find (fun h : exn * io A => bool_decide (h.1 = e)) handlers with
            | Some h => raises_within es h.2
            | None => In e es
            end) es' ->
  raises_within es (try m handlers).
Proof.
  intros Hm Hh st e. unfold try. specialize (Hm st).
  destruct (m st) as [[a|e'] st1]; cbn [fst] in *; [discriminate|].
  rewrite Forall_forall in Hh. specialize (Hh e').
  specialize (Hh (proj2 (list_elem_of_In _ _) (Hm e' eq_refl))).
  destruct (find _ handlers) as [h|].
  - apply Hh.
  - intros [= <-]. exact Hh.
Qed.

Lemma within_load i : raises_within [FileNotFoundError; JSONDecodeError] (load i).
Proof.
  intros st e. unfold load. cbn [fst].
  destruct (store i st); cbn; intros [= <-]; auto.
Qed.

Lemma within_dump i v : raises_within [FileNotFoundError] (dump i v).
Proof.
  intros st e. unfold dump. destruct (store i st); cbn; intros [= <-]; auto.
Qed.

(** The same for the stores an operation writes. *)
Lemma only_quiet {A} i (m : io A) : quiet m -> writes_only i m.
Proof. intros Hq st j _. rewrite (Hq st). reflexivity. Qed.

Lemma only_dump i v : writes_only i (dump i v).
Proof.
  intros st j Hj. unfold dump.
  destruct (store i st); cbn [snd]; try reflexivity;
    destruct i, j; try reflexivity; contradiction Hj; reflexivity.
Qed.

Lemma only_bind {A B} i (m : io A) (f : A -> io B) :
  writes_only i m -> (forall a, writes_only i (f a)) -> writes_only i (m ≫= f).
Proof.
  intros Hm Hf st j Hj. unfold mbind, io_bind. specialize (Hm st j Hj).
  destruct (m st) as [[a|e] st1]; cbn [snd] in *.
  - rewrite (Hf a st1 j Hj). exact Hm.
  - exact Hm.
Qed.

Lemma only_try {A} i (m : io A) handlers :
  writes_only i m -> Forall (fun h => writes_only i h.2) handlers ->
  writes_only i (try m handlers).
Proof.
  intros Hm Hh st j Hj. unfold try. specialize (Hm st j Hj).
  destruct (m st) as [[a|e] st1]; cbn [snd] in *; [exact Hm|].
  destruct (find _ handlers) as [h|] eqn:Hfind; [|exact Hm].
  apply find_some in Hfind as [Hin _].
  rewrite Forall_forall in Hh. rewrite <- list_elem_of_In in Hin.
  rewrite (Hh h Hin st1 j Hj). exact Hm.
Qed.

(** What the validations raise. *)
Lemma validate_iban_fails s :
  fails_within [InvalidFormat; InvalidCheckDigit] (validate_iban s).
Proof.
  intros e He.
  destruct (CheckDigitFacts.format_outcome s) as [H|(c1 & c2 & account & _ & _ & _ & H)];
    rewrite H in He.
  - injection He as <-. cbn. auto.
  - destruct (_ =? _); [discriminate He|]. injection He as <-. cbn. auto.
Qed.

Lemma validate_concept_fails s : fails_within [InvalidConcept] (validate_concept s).
Proof.
  intros e. unfold validate_concept.
  destruct (negb _); [|discriminate]. intros [= <-]. cbn. auto.
Qed.

Lemma validate_transfer_date_fails today s :
  fails_within [InvalidDateFormat; DateInPast] (validate_transfer_date today s).
Proof.
  intros e He.
  destruct (AsciiDateFacts.validate_transfer_date_cases today s)
    as [H|(d & _ & _ & H)]; rewrite H in He.
  - injection He as <-. cbn. auto.
  - unfold Spec.date_outcome in He.
    destruct (date_ltb d today); [injection He as <-; cbn; auto|].
    destruct (_ || _); [injection He as <-; cbn; auto|discriminate He].
Qed.

Lemma validate_amount_fails amount :
  fails_within [InvalidAmount; TypeError; OverflowError] (validate_amount amount).
Proof.
  intros e He. destruct (to_float amount) as [f|e'] eqn:Hf.
  - unfold validate_amount in He. rewrite Hf in He.
    cbn [except mbind result_bind] in He.
    destruct (contains _ _) in He;
      [destruct (_ <? _)%nat in He; cbn [mbind result_bind] in He|
       cbn [mbind result_bind] in He];
      try (injection He as <-; cbn; auto);
      (destruct (_ || _) in He; [injection He as <-; cbn; auto|discriminate He]).
  - rewrite (AmountFacts.validate_amount_error amount e' Hf) in He.
    destruct (AmountFacts.to_float_errors amount e' Hf) as [E|[E|E]]; subst e';
      cbn in He; injection He as <-; cbn; auto.
Qed.

Lemma iterate_fails v : fails_within [TypeError] (iterate v).
Proof. intros e. destruct v; cbn; try discriminate; intros [= <-]; auto. Qed.

Lemma subscript_fails v key : fails_within [KeyError; TypeError] (subscript v key).
Proof.
  intros e. destruct v; cbn; try (intros [= <-]; auto).
  destruct (_ !! _); [discriminate|]. intros [= <-]. auto.
Qed.

Lemma same_transfer_fails record new_transfer :
  fails_within [KeyError; TypeError] (same_transfer record new_transfer).
Proof.
  intros e. unfold same_transfer, and_then.
  repeat (match goal with
          | |- context [subscript record ?k] =>
              let H := fresh in
              pose proof (subscript_fails record k) as H;
              destruct (subscript record k); cbn [mbind result_bind];
              [clear H|intros [= <-]; apply H; reflexivity]
          | |- context [if py_eq ?a ?b then _ else _] =>
              destruct (py_eq a b); [|discriminate]
          end).
  discriminate.
Qed.

Lemma find_duplicate_fails records new_transfer :
  fails_within [DuplicateTransfer; KeyError; TypeError]
    (find_duplicate records new_transfer).
Proof.
  induction records as [|r records IH]; intros e; cbn [find_duplicate];
    [discriminate|].
  pose proof (same_transfer_fails r new_transfer) as Hs.
  destruct (same_transfer r new_transfer) as [[]|e']; cbn [mbind result_bind].
  - intros [= <-]. cbn. auto.
  - apply IH.
  - intros [= <-]. specialize (Hs e' eq_refl). cbn in *. tauto.
Qed.

Lemma append_fails v x : fails_within [AttributeError] (append v (Ok x)).
Proof. intros e. destruct v; cbn; try discriminate; intros [= <-]; auto. Qed.

End OutcomeFacts.

(** ** transfer_request: what it raises and writes *)

Module TransferOutcome.
Import Aux Outcome OutcomeFacts IoFacts.

(** A pattern of literal characters matches in full the string of those
    characters, nothing else. *)
Lemma fullmatch_literal (l : str) : forall b s,
  existsb at_end
    (ends (fold_right (fun c r => Cat (Class (is_char c)) r) Eps l) (b, s))
  = str_eqb s l.
Proof.
  unfold str_eqb.
  induction l as [|c l IH]; intros b s; cbn [fold_right].
  - cbn. destruct s; reflexivity.
  - rewrite IbanFacts.ends_class_cat. destruct s as [|c' t].
    + reflexivity.
    + unfold is_char. destruct (N.eqb_spec c c') as [->|Hne].
      * rewrite IH. destruct (decide (t = l)) as [->|Hn].
        -- rewrite !bool_decide_eq_true_2; reflexivity.
        -- rewrite !bool_decide_eq_false_2; [reflexivity|congruence|exact Hn].
      * rewrite bool_decide_eq_false_2; [reflexivity|congruence].
Qed.

Lemma fullmatch_transfer_type s :
  fullmatch transfer_type_pattern s = true
  <-> In s [lit "ORDINARY"; lit "INMEDIATE"; lit "URGENT"].
Proof.
  unfold fullmatch, transfer_type_pattern. cbn [ends].
  rewrite !existsb_app. unfold word. rewrite !fullmatch_literal.
  unfold str_eqb. rewrite !orb_true_iff, !bool_decide_eq_true. cbn [In].
  intuition congruence.
Qed.

Section Tail.
Variable transfer_code : TransferRequest.t -> str.

(** What the part after the validations raises. *)
Lemma store_transfer_raises new_transfer :
  raises_within
    [MalformedStore; DuplicateTransfer; StoreUnreadable; TypeError; KeyError;
     AttributeError]
    (store_transfer transfer_code new_transfer).
Proof.
  unfold store_transfer.
  apply within_bind.
  { apply (within_try [FileNotFoundError; JSONDecodeError]); [apply within_load|].
    apply List.Forall_cons; [|apply List.Forall_cons; [|apply List.Forall_nil]].
    - rewrite find_handler_here. apply within_ret.
    - cbn. apply within_raise. cbn. auto. }
  intros transfer_list. apply within_bind.
  { apply within_lift. intros e He. apply iterate_fails in He. cbn in *. tauto. }
  intros existing. apply within_bind.
  { apply within_lift. intros e He. apply find_duplicate_fails in He.
    cbn in *. tauto. }
  intros _. apply within_bind.
  { apply within_lift. intros e He. apply append_fails in He. cbn in *. tauto. }
  intros transfer_list'. apply within_bind; [|intros; apply within_ret].
  apply (within_try [FileNotFoundError]); [apply within_dump|].
  apply List.Forall_cons; [|apply List.Forall_nil].
  rewrite find_handler_here. apply within_raise. cbn. auto.
Qed.

(** What it writes. *)
Lemma store_transfer_writes new_transfer :
  writes_only TRANSFERS_STORE_FILE (store_transfer transfer_code new_transfer).
Proof.
  unfold store_transfer.
  apply only_bind.
  { apply only_quiet, quiet_try; [apply quiet_load|repeat constructor]. }
  intros ?. apply only_bind; [apply only_quiet, quiet_lift|].
  intros ?. apply only_bind; [apply only_quiet, quiet_lift|].
  intros ?. apply only_bind; [apply only_quiet, quiet_lift|].
  intros ?. apply only_bind; [|intros; apply only_quiet, quiet_ret].
  apply only_try; [apply only_dump|].
  repeat (apply List.Forall_cons; [apply only_quiet, quiet_raise|]).
  apply List.Forall_nil.
Qed.

(** What it appends to. *)
Lemma store_transfer_appends new_transfer st c :
  (store_transfer transfer_code new_transfer st).1 = Ok c ->
  exists old,
    Spec.ledger (transfers st) = Some old
    /\ transfers (store_transfer transfer_code new_transfer st).2
       = Json (PList (old ++ [to_json transfer_code new_transfer])).
Proof.
  unfold store_transfer, mbind, io_bind, try, load, dump, lift. cbn [store].
  destruct (transfers st) as [| |?|v] eqn:Et; cbn [json_load].
  - rewrite find_handler_here.
    cbn [snd mret io_ret iterate find_duplicate append mbind result_bind app].
    rewrite Et. rewrite find_handler_here. cbn. discriminate.
  - rewrite find_handler_here.
    cbn [snd mret io_ret iterate find_duplicate append mbind result_bind app].
    rewrite Et. cbn. intros _. exists []. auto.
  - cbn. discriminate.
  - destruct (iterate v) as [l|]; [|cbn; discriminate].
    destruct (find_duplicate l new_transfer) as [[]|]; [|cbn; discriminate].
    destruct v as [| | | | |old|]; cbn [append mbind result_bind];
      try (cbn; discriminate).
    rewrite Et. cbn. intros _. exists old. auto.
Qed.

(** The scan of a list goes through its parts in turn. *)
Lemma find_duplicate_app l1 l2 new_transfer :
  find_duplicate (l1 ++ l2) new_transfer
  = find_duplicate l1 new_transfer ≫= fun _ => find_duplicate l2 new_transfer.
Proof.
  induction l1 as [|r l1 IH]; cbn [app find_duplicate mbind result_bind];
    [reflexivity|].
  destruct (same_transfer r new_transfer) as [[]|]; cbn [mbind result_bind];
    [reflexivity|exact IH|reflexivity].
Qed.

End Tail.

End TransferOutcome.

(** X4.  [transfer_request] fails with [InvalidTransferType] exactly
    when both IBANs and the concept are valid and the transfer type is
    none of [ORDINARY], [INMEDIATE] and [URGENT]. *)
Theorem transfer_request_type
    (transfer_code : TransferRequest.t -> str) (now : clock)
    (from_iban to_iban concept transfer_type date : str) (amount : pyval)
    (st : stores) :
  (transfer_request transfer_code now from_iban to_iban concept transfer_type
     date amount st).1 = Raise InvalidTransferType
  <-> validate_iban from_iban = Ok from_iban
      /\ validate_iban to_iban = Ok to_iban
      /\ validate_concept concept = Ok tt
      /\ ~ In transfer_type [lit "ORDINARY"; lit "INMEDIATE"; lit "URGENT"].
Proof.
  rewrite <- TransferOutcome.fullmatch_transfer_type.
  unfold transfer_request.
  pose proof (OutcomeFacts.validate_iban_fails from_iban) as H1.
  pose proof (OutcomeFacts.validate_iban_fails to_iban) as H2.
  pose proof (OutcomeFacts.validate_concept_fails concept) as H3.
  pose proof (OutcomeFacts.validate_transfer_date_fails (utc_today now) date) as H5.
  pose proof (OutcomeFacts.validate_amount_fails amount) as H6.
  unfold mbind at 1, io_bind at 1, lift at 1.
  destruct (validate_iban from_iban) as [a|e] eqn:E1.
  2:{ cbn [fst]. split; [|intros [H _]; discriminate H].
      intros [= ->]. specialize (H1 _ eq_refl). cbn in H1.
      destruct H1 as [H|[H|[]]]; discriminate H. }
  apply validate_iban_returns in E1 as ->.
  unfold mbind at 1, io_bind at 1, lift at 1.
  destruct (validate_iban to_iban) as [a|e] eqn:E2.
  2:{ cbn [fst]. split; [|intros (_ & H & _); discriminate H].
      intros [= ->]. specialize (H2 _ eq_refl). cbn in H2.
      destruct H2 as [H|[H|[]]]; discriminate H. }
  apply validate_iban_returns in E2 as ->.
  unfold mbind at 1, io_bind at 1, lift at 1.
  destruct (validate_concept concept) as [[]|e] eqn:E3.
  2:{ cbn [fst]. split; [|intros (_ & _ & H & _); discriminate H].
      intros [= ->]. specialize (H3 _ eq_refl). cbn in H3.
      destruct H3 as [H|[]]; discriminate H. }
  unfold mbind at 1, io_bind at 1.
  destruct (fullmatch transfer_type_pattern transfer_type) eqn:E4; cbn [negb].
  2:{ cbn. split; [|reflexivity]. intros _. repeat split. discriminate. }
  cbn [mret io_ret].
  split; [|intros (_ & _ & _ & H); contradiction H; reflexivity].
  intros H. exfalso. revert H.
  unfold mbind at 1, io_bind at 1, lift at 1.
  destruct (validate_transfer_date (utc_today now) date) as [a|e].
  2:{ intros [= ->]. specialize (H5 _ eq_refl). cbn in H5.
      destruct H5 as [H|[H|[]]]; discriminate H. }
  unfold mbind at 1, io_bind at 1, lift at 1.
  destruct (validate_amount amount) as [a'|e].
  2:{ intros [= ->]. specialize (H6 _ eq_refl). cbn in H6.
      destruct H6 as [H|[H|[H|[]]]]; discriminate H. }
  intros H.
  apply (TransferOutcome.store_transfer_raises transfer_code
           (TransferRequest.New from_iban to_iban concept transfer_type date amount)
           st) in H.
  cbn in H. repeat (destruct H as [H|H]; [discriminate H|]). exact H.
Qed.

(** What [transfer_request] raises over the stores as they are modelled,
    where reading a store either succeeds or raises [FileNotFoundError]
    or [JSONDecodeError]. *)
Lemma transfer_request_within
    (transfer_code : TransferRequest.t -> str) (now : clock)
    (from_iban to_iban concept transfer_type date : str) (amount : pyval)
    (st : stores) (e : exn) :
  (transfer_request transfer_code now from_iban to_iban concept transfer_type
     date amount st).1 = Raise e ->
  In e [ InvalidFormat; InvalidCheckDigit; InvalidConcept; InvalidTransferType;
         InvalidDateFormat; DateInPast; InvalidAmount; MalformedStore;
         DuplicateTransfer; StoreUnreadable;
         TypeError; OverflowError; KeyError; AttributeError ].
Proof.
  revert st e.
  change (Outcome.raises_within
            [ InvalidFormat; InvalidCheckDigit; InvalidConcept;
              InvalidTransferType; InvalidDateFormat; DateInPast; InvalidAmount;
              MalformedStore; DuplicateTransfer; StoreUnreadable;
              TypeError; OverflowError; KeyError; AttributeError ]
            (transfer_request transfer_code now from_iban to_iban concept
               transfer_type date amount)).
  unfold transfer_request.
  apply OutcomeFacts.within_bind.
  { apply OutcomeFacts.within_lift. intros e He.
    apply OutcomeFacts.validate_iban_fails in He. cbn in *. tauto. }
  intros _. apply OutcomeFacts.within_bind.
  { apply OutcomeFacts.within_lift. intros e He.
    apply OutcomeFacts.validate_iban_fails in He. cbn in *. tauto. }
  intros _. apply OutcomeFacts.within_bind.
  { apply OutcomeFacts.within_lift. intros e He.
    apply OutcomeFacts.validate_concept_fails in He. cbn in *. tauto. }
  intros _. apply OutcomeFacts.within_bind.
  { apply OutcomeFacts.within_guard. cbn. tauto. }
  intros _. apply OutcomeFacts.within_bind.
  { apply OutcomeFacts.within_lift. intros e He.
    apply OutcomeFacts.validate_transfer_date_fails in He. cbn in *. tauto. }
  intros _. apply OutcomeFacts.within_bind.
  { apply OutcomeFacts.within_lift. intros e He.
    apply OutcomeFacts.validate_amount_fails in He. cbn in *. tauto. }
  intros _.
  eapply OutcomeFacts.within_weaken;
    [|apply (TransferOutcome.store_transfer_raises transfer_code)].
  intros x Hx. cbn in *. tauto.
Qed.

(** X5.  An [AccountManagementException] that [transfer_request]
    raises is one of ten: invalid IBAN format, invalid check digit,
    invalid concept, invalid transfer type, invalid date format, date in
    the past, invalid amount, malformed store, duplicate transfer,
    unreadable store.  The failures of [open] and [json.load]
    that [file] leaves out are of other classes and no [except] of the
    manager catches them, so they add no message; what is raised
    besides an [AccountManagementException] is not stated here. *)
Theorem transfer_request_messages
    (transfer_code : TransferRequest.t -> str) (now : clock)
    (from_iban to_iban concept transfer_type date : str) (amount : pyval)
    (st : stores) (message : string) :
  (transfer_request transfer_code now from_iban to_iban concept transfer_type
     date amount st).1 = Raise (AccountManagementException message) ->
  In (AccountManagementException message)
    [ InvalidFormat; InvalidCheckDigit; InvalidConcept; InvalidTransferType;
      InvalidDateFormat; DateInPast; InvalidAmount; MalformedStore;
      DuplicateTransfer; StoreUnreadable ].
Proof.
  intros H. apply transfer_request_within in H. cbn [In] in *.
  repeat (destruct H as [H|H]; [try discriminate H; tauto|]). contradiction H.
Qed.

Lemma transfer_request_messages_witness :
  In (AccountManagementException "Invalid IBAN format")
    [ InvalidFormat; InvalidCheckDigit; InvalidConcept; InvalidTransferType;
      InvalidDateFormat; DateInPast; InvalidAmount; MalformedStore;
      DuplicateTransfer; StoreUnreadable ].
Proof.
  apply (transfer_request_messages (fun _ => [])
           (Clock (Date 2026 11 3) (S754_zero false))
           (lit "ES00") (lit "ES00") [] [] [] PNone
           (Stores NoFile NoFile NoFile NoFile)).
  reflexivity.
Defined.

(** X6.  [transfer_request] never writes to the deposits, transactions
    and balances stores; when it succeeds, the transfers store held a
    list of records, or was yet to be written, and now holds those
    records followed by the record of the call. *)
Theorem transfer_request_appends
    (transfer_code : TransferRequest.t -> str) (now : clock)
    (from_iban to_iban concept transfer_type date : str) (amount : pyval)
    (st : stores) :
  let call := transfer_request transfer_code now from_iban to_iban concept
                transfer_type date amount st in
  deposits call.2 = deposits st
  /\ transactions call.2 = transactions st
  /\ balances call.2 = balances st
  /\ forall code,
       call.1 = Ok code ->
       exists old,
         Spec.ledger (transfers st) = Some old
         /\ transfers call.2
            = Json (PList (old ++
                [to_json transfer_code
                   (TransferRequest.New from_iban to_iban concept transfer_type
                      date amount)])).
Proof.
  intros call.
  assert (Outcome.writes_only TRANSFERS_STORE_FILE
            (transfer_request transfer_code now from_iban to_iban concept
               transfer_type date amount)) as Hw.
  { unfold transfer_request.
    repeat (apply OutcomeFacts.only_bind;
            [first [apply OutcomeFacts.only_quiet, IoFacts.quiet_lift
                   |destruct (negb _);
                    [apply OutcomeFacts.only_quiet, IoFacts.quiet_raise
                    |apply OutcomeFacts.only_quiet, IoFacts.quiet_ret]]
            |intros _]).
    apply (TransferOutcome.store_transfer_writes transfer_code). }
  split; [apply (Hw st DEPOSITS_STORE_FILE); discriminate|].
  split; [apply (Hw st TRANSACTIONS_STORE_FILE); discriminate|].
  split; [apply (Hw st BALANCES_STORE_FILE); discriminate|].
  intros code Hok. subst call.
  pose proof (transfer_request_ok transfer_code _ _ _ _ _ _ _ _ _ Hok) as Hvalid.
  rewrite (transfer_request_valid transfer_code _ _ _ _ _ _ _ Hvalid) in Hok |- *.
  apply (TransferOutcome.store_transfer_appends transfer_code _ _ _ Hok).
Qed.

(** X7.  With valid arguments, a stored record without the field
    [from_iban] makes the call fail with [KeyError] when the scan
    reaches it, and nothing is written. *)
Theorem transfer_request_record_without_field
    (transfer_code : TransferRequest.t -> str) (now : clock)
    (from_iban to_iban concept transfer_type date : str) (amount : pyval)
    (st : stores) (before after : list pyval) (record : gmap str pyval) :
  Spec.valid_request (utc_today now) from_iban to_iban concept transfer_type
    date amount ->
  transfers st = Json (PList (before ++ PDict record :: after)) ->
  forallb Spec.has_fields before = true ->
  existsb (fun r => Spec.agrees r
             (TransferRequest.New from_iban to_iban concept transfer_type
                date amount)) before = false ->
  record !! lit "from_iban" = None ->
  transfer_request transfer_code now from_iban to_iban concept transfer_type
    date amount st = (Raise KeyError, st).
Proof.
  intros Hvalid Ht Hfields Hnone Hmissing.
  rewrite (transfer_request_valid transfer_code _ _ _ _ _ _ _ Hvalid).
  unfold Aux.store_transfer, mbind at 1, io_bind at 1, try, load. cbn [store].
  rewrite Ht. cbn [json_load].
  unfold mbind at 1, io_bind at 1, lift at 1. cbn [iterate].
  unfold mbind at 1, io_bind at 1, lift at 1.
  rewrite TransferOutcome.find_duplicate_app.
  rewrite (find_duplicate_agrees _ _ Hfields), Hnone.
  cbn [mbind result_bind find_duplicate].
  unfold same_transfer, and_then, subscript. rewrite Hmissing.
  reflexivity.
Qed.

Lemma transfer_request_record_without_field_witness :
  transfer_request (fun _ => lit "code")
    (Clock (Date 2026 11 3) (S754_zero false))
    (lit "ES9121000418450200051332") (lit "ES9121000418450200051332")
    (lit "hello world") (lit "ORDINARY") (lit "03/11/2026")
    (PStr (lit "10.00"))
    (Stores (Json (PList [PDict ∅])) NoFile NoFile NoFile)
  = (Raise KeyError, Stores (Json (PList [PDict ∅])) NoFile NoFile NoFile).
Proof.
  apply (transfer_request_record_without_field (fun _ => lit "code")
           (Clock (Date 2026 11 3) (S754_zero false))
           (lit "ES9121000418450200051332") (lit "ES9121000418450200051332")
           (lit "hello world") (lit "ORDINARY") (lit "03/11/2026")
           (PStr (lit "10.00"))
           (Stores (Json (PList [PDict ∅])) NoFile NoFile NoFile) [] [] ∅).
  - repeat split; try (vm_compute; reflexivity).
    eexists. vm_compute. reflexivity.
  - reflexivity.
  - reflexivity.
  - reflexivity.
  - reflexivity.
Defined.

(** ** The signature of a deposit *)

Module SignatureFacts.
Import Outcome.

(** [repr] writes ASCII characters. *)
Lemma uint_chars_ascii d : Spec.is_ascii (Py.uint_chars d) = true.
Proof. induction d; cbn; auto. Qed.

Lemma str_of_int_ascii z : Spec.is_ascii (Py.str_of_int z) = true.
Proof. destruct z; cbn; auto using uint_chars_ascii. Qed.

Lemma is_ascii_app s t :
  Spec.is_ascii (s ++ t) = Spec.is_ascii s && Spec.is_ascii t.
Proof. apply forallb_app. Qed.

Lemma is_ascii_parts n s :
  Spec.is_ascii s = true ->
  Spec.is_ascii (firstn n s) = true /\ Spec.is_ascii (skipn n s) = true.
Proof.
  intros H. rewrite <- (firstn_skipn n s), is_ascii_app in H.
  apply andb_true_iff in H. exact H.
Qed.

Lemma is_ascii_firstn n s :
  Spec.is_ascii s = true -> Spec.is_ascii (firstn n s) = true.
Proof. intros H. apply (is_ascii_parts n s H). Qed.

Lemma is_ascii_skipn n s :
  Spec.is_ascii s = true -> Spec.is_ascii (skipn n s) = true.
Proof. intros H. apply (is_ascii_parts n s H). Qed.

Lemma zeros_ascii n : Spec.is_ascii (Py.zeros n) = true.
Proof. unfold Py.zeros. induction (Z.to_nat n); cbn; auto. Qed.

Lemma shortest_digits_ascii m e :
  Spec.is_ascii (Py.shortest_digits m e).1 = true.
Proof.
  unfold Py.shortest_digits. destruct (Py.shortest_from m e 1 17) as [c s].
  cbn [fst]. apply str_of_int_ascii.
Qed.

Lemma repr_ascii f : Spec.is_ascii (Py.repr f) = true.
Proof.
  destruct f as [minus|minus| |minus m e]; cbn [Py.repr];
    [destruct minus; reflexivity|destruct minus; reflexivity|reflexivity|].
  pose proof (shortest_digits_ascii m e) as Hds.
  destruct (Py.shortest_digits m e) as [ds decpt]. cbn [fst] in Hds.
  rewrite is_ascii_app. apply andb_true_iff. split; [destruct minus; reflexivity|].
  destruct (_ || _).
  - rewrite !is_ascii_app, is_ascii_firstn by exact Hds. cbn [andb].
    apply andb_true_iff. split.
    + destruct (_ <? _); [|reflexivity].
      change (Spec.is_ascii (46%N :: skipn 1 ds))
        with (true && Spec.is_ascii (skipn 1 ds)).
      rewrite is_ascii_skipn by exact Hds. reflexivity.
    + unfold Py.exponent_chars.
      change (Spec.is_ascii (101%N :: ?l)) with (true && Spec.is_ascii l).
      cbn [andb]. destruct (_ <? 0); cbn [Spec.is_ascii forallb];
        rewrite forallb_app; fold (Spec.is_ascii (Py.str_of_int (Z.abs (decpt - 1))));
        rewrite str_of_int_ascii; destruct (_ <? 10); reflexivity.
  - destruct (_ <=? 0).
    + rewrite !is_ascii_app, zeros_ascii, Hds. reflexivity.
    + destruct (_ <=? _).
      * rewrite !is_ascii_app, zeros_ascii, Hds. reflexivity.
      * rewrite is_ascii_app, is_ascii_firstn by exact Hds.
        change (Spec.is_ascii (46%N :: ?l)) with (true && Spec.is_ascii l).
        rewrite is_ascii_skipn by exact Hds. reflexivity.
Qed.

(** ASCII text is encoded one byte for each character. *)
Lemma encode_ascii s :
  Spec.is_ascii s = true -> encode s = Ok (Z.of_N <$> s).
Proof.
  unfold encode. intros H.
  assert (mapM encode_char s = Some ((fun c => [Z.of_N c]) <$> s)) as ->.
  { induction s as [|c s IH]; [reflexivity|].
    cbn [Spec.is_ascii forallb] in H. apply andb_true_iff in H as [Hc Hs].
    cbn [mapM fmap list_fmap]. rewrite (IH Hs).
    unfold encode_char. apply N.ltb_lt in Hc.
    destruct (Z.ltb_spec (Z.of_N c) 128); [reflexivity|lia]. }
  f_equal. induction s as [|c s IH]; [reflexivity|].
  cbn [fmap list_fmap concat app] in *.
  apply andb_true_iff in H as [_ Hs]. rewrite (IH Hs). reflexivity.
Qed.

(** The digest is eight words. *)
Lemma round_length h kw : length (Sha256.round h kw) = length h.
Proof.
  unfold Sha256.round.
  destruct h as [|a [|b [|c [|d [|e [|f [|g [|hh [|]]]]]]]]]; reflexivity.
Qed.

Lemma fold_round_length kws : forall h,
  length (fold_left Sha256.round kws h) = length h.
Proof.
  induction kws as [|kw kws IH]; intros h; [reflexivity|].
  cbn [fold_left]. rewrite IH. apply round_length.
Qed.

Lemma compress_length h block : length (Sha256.compress h block) = length h.
Proof.
  unfold Sha256.compress. rewrite length_zip_with, fold_round_length. lia.
Qed.

Lemma fold_compress_length blocks : forall h,
  length (fold_left Sha256.compress blocks h) = length h.
Proof.
  induction blocks as [|b blocks IH]; intros h; [reflexivity|].
  cbn [fold_left]. rewrite IH. apply compress_length.
Qed.

Lemma be_bytes_length count : forall x, length (Sha256.be_bytes count x) = count.
Proof.
  induction count as [|count IH]; intros x; [reflexivity|].
  cbn [Sha256.be_bytes]. rewrite length_app, IH. cbn. lia.
Qed.

Lemma be_bytes_range count : forall x,
  Forall (fun b => 0 <= b < 256) (Sha256.be_bytes count x).
Proof.
  induction count as [|count IH]; intros x; [constructor|].
  cbn [Sha256.be_bytes]. apply Forall_app. split; [apply IH|].
  constructor; [|constructor]. apply Z.mod_pos_bound. lia.
Qed.

Lemma bind_length {A B} (f : A -> list B) n l :
  (forall x, length (f x) = n) -> length (l ≫= f) = (n * length l)%nat.
Proof.
  intros Hf. induction l as [|x l IH]; [cbn; lia|].
  rewrite bind_cons, length_app, IH, Hf. cbn [length]. lia.
Qed.

Lemma digest_length msg : length (Sha256.digest msg) = 32%nat.
Proof.
  unfold Sha256.digest.
  rewrite (bind_length _ 4) by apply be_bytes_length.
  rewrite fold_compress_length. reflexivity.
Qed.

Lemma digest_range msg : Forall (fun b => 0 <= b < 256) (Sha256.digest msg).
Proof.
  unfold Sha256.digest.
  generalize (fold_left Sha256.compress
                (Sha256.chunks 64 (length (Sha256.pad msg) / 64) (Sha256.pad msg))
                Sha256.H0).
  intros ws. induction ws as [|w ws IH]; [constructor|].
  rewrite bind_cons. apply Forall_app. split; [apply be_bytes_range|exact IH].
Qed.

Lemma hex_digit_ok x : 0 <= x < 16 -> is_hex_digit (Sha256.hex_digit x) = true.
Proof.
  intros Hx. unfold is_hex_digit, Sha256.hex_digit, is_ascii_digit, in_range.
  destruct (Z.ltb_spec x 10).
  - apply orb_true_iff. left. apply andb_true_iff. split; apply N.leb_le; lia.
  - apply orb_true_iff. right. apply andb_true_iff. split; apply N.leb_le; lia.
Qed.

Lemma hexdigest_shape msg :
  length (Sha256.hexdigest msg) = 64%nat
  /\ forallb is_hex_digit (Sha256.hexdigest msg) = true.
Proof.
  unfold Sha256.hexdigest. split.
  - rewrite (bind_length _ 2) by reflexivity. rewrite digest_length. reflexivity.
  - pose proof (digest_range msg) as H.
    induction H as [|b bs Hb _ IH]; [reflexivity|].
    rewrite bind_cons. cbn [app forallb]. rewrite IH.
    rewrite !hex_digit_ok; [reflexivity| |].
    + apply Z.mod_pos_bound. lia.
    + split; [apply Z.div_pos; lia|apply Z.div_lt_upper_bound; lia].
Qed.

(** A deposit to an ASCII IBAN has a signature. *)
Lemma deposit_signature_ascii now iban amount :
  Spec.is_ascii iban = true ->
  AccountDeposit.deposit_signature (AccountDeposit.new now iban amount)
  = Ok (Sha256.hexdigest
          (Z.of_N <$> AccountDeposit._get_signature_string
                        (AccountDeposit.new now iban amount))).
Proof.
  intros Hi. unfold AccountDeposit.deposit_signature.
  rewrite encode_ascii; [reflexivity|].
  unfold AccountDeposit._get_signature_string, AccountDeposit.new.
  cbn [AccountDeposit.alg AccountDeposit.type AccountDeposit.to_iban
       AccountDeposit.deposit_amount AccountDeposit.deposit_timestamp].
  rewrite !is_ascii_app, !repr_ascii, Hi. reflexivity.
Qed.

End SignatureFacts.

(** X8.  A signature of a deposit is a string of 64 characters among
    [0-9] and [a-f]; and a deposit made to an IBAN of ASCII characters
    has a signature, whatever its amount and the time. *)
Theorem deposit_signature_shape :
  (forall deposit signature,
     AccountDeposit.deposit_signature deposit = Ok signature ->
     length signature = 64%nat
     /\ forallb Outcome.is_hex_digit signature = true)
  /\ (forall now iban amount,
        Spec.is_ascii iban = true ->
        exists signature,
          AccountDeposit.deposit_signature (AccountDeposit.new now iban amount)
          = Ok signature).
Proof.
  split.
  - intros deposit signature. unfold AccountDeposit.deposit_signature.
    destruct (encode _) as [data|]; [|discriminate].
    intros [= <-]. apply SignatureFacts.hexdigest_shape.
  - intros now iban amount Hi. eexists.
    apply (SignatureFacts.deposit_signature_ascii now iban amount Hi).
Qed.

Lemma deposit_signature_shape_witness :
  length (lit "45a7c133c0d6e516e25bda145ad249bc85002bcb343871f57b981b1c12259959")
  = 64%nat
  /\ forallb Outcome.is_hex_digit
       (lit "45a7c133c0d6e516e25bda145ad249bc85002bcb343871f57b981b1c12259959")
     = true.
Proof.
  apply (proj1 deposit_signature_shape
           (AccountDeposit.new
              (Clock (Date 2023 11 14) (Py.of_decimal false 1700000000123456 (-6)))
              (lit "ES9121000418450200051332") (Py.of_decimal false 123456 (-2)))).
  vm_compute. reflexivity.
Defined.

(** ** deposit_into_account: the amount it asks for *)

Module DepositAmountFacts.
Import ReFacts IbanFacts.

(** [deposit_amount_pattern] matches in full [EUR ], four digits, a
    point and two digits. *)
Lemma fullmatch_deposit_amount s :
  fullmatch deposit_amount_pattern s = true <->
  exists whole cents,
    s = lit "EUR " ++ whole ++ 46%N :: cents
    /\ length whole = 4%nat /\ length cents = 2%nat
    /\ forallb is_ascii_digit whole = true
    /\ forallb is_ascii_digit cents = true.
Proof.
  unfold fullmatch, deposit_amount_pattern.
  change (word "EUR ")
    with (Cat (Class (is_char 69))
            (Cat (Class (is_char 85))
               (Cat (Class (is_char 82)) (Cat (Class (is_char 32)) Eps)))).
  rewrite ends_bol_cat.
  assert (forall whole cents,
            s = lit "EUR " ++ whole ++ 46%N :: cents ->
            exists t, s = 69%N :: 85%N :: 82%N :: 32%N :: t
                      /\ t = whole ++ 46%N :: cents) as Hshape
    by (intros whole cents ->; eexists; split; reflexivity).
  do 4 (rewrite cat_assoc, ends_class_cat;
        destruct s as [|? s];
        [split; [discriminate|];
         intros (whole & cents & H & _);
         destruct (Hshape _ _ H) as (t & Ht & _); discriminate Ht|];
        unfold is_char at 1;
        match goal with
        | |- context [N.eqb ?a ?c] =>
            destruct (N.eqb_spec a c) as [<-|Hne];
            [|split; [discriminate|];
              intros (whole & cents & H & _);
              destruct (Hshape _ _ H) as (t & Ht & _);
              injection Ht; intros; congruence]
        end).
  clear Hshape. rewrite ends_eps_cat. cbn [ends]. rewrite ends_rep_class.
  destruct (Nat.leb_spec 4 (length s)) as [Hl|Hl]; cbn [andb].
  2:{ split; [discriminate|].
      intros (whole & cents & [= ->] & Hw & _). rewrite length_app in Hl. lia. }
  destruct (forallb is_ascii_digit (firstn 4 s)) eqn:Ew.
  2:{ split; [discriminate|].
      intros (whole & cents & [= ->] & Hw & _ & Hd & _).
      rewrite firstn_app, firstn_all2, Hw, Nat.sub_diag in Ew by lia.
      cbn [firstn] in Ew. rewrite app_nil_r in Ew. congruence. }
  cbn [flat_map]. rewrite app_nil_r.
  change (ends (Cat (Class (is_char 46)) (rep 2 (Class is_ascii_digit)))
            (true && (4 =? 0)%nat, skipn 4 s))
    with (flat_map (ends (rep 2 (Class is_ascii_digit)))
            (ends (Class (is_char 46)) (false, skipn 4 s))).
  cbn [ends snd].
  destruct (skipn 4 s) as [|p rest] eqn:Es.
  { split; [discriminate|].
    intros (whole & cents & [= ->] & Hw & _).
    rewrite skipn_app, skipn_all2, Hw, Nat.sub_diag in Es by lia. discriminate Es. }
  unfold is_char. destruct (N.eqb_spec 46 p) as [<-|Hp].
  2:{ split; [discriminate|].
      intros (whole & cents & [= ->] & Hw & _).
      rewrite skipn_app, skipn_all2, Hw, Nat.sub_diag in Es by lia.
      injection Es as <- _. congruence. }
  cbn [flat_map]. rewrite app_nil_r, ends_rep_class.
  assert (s = firstn 4 s ++ 46%N :: rest) as Hs
    by (rewrite <- Es; symmetry; apply firstn_skipn).
  destruct (Nat.leb_spec 2 (length rest)) as [Hr|Hr]; cbn [andb].
  2:{ split; [discriminate|].
      intros (whole & cents & [= ->] & Hw & Hc & _).
      rewrite skipn_app, skipn_all2, Hw, Nat.sub_diag in Es by lia.
      injection Es as <-. lia. }
  destruct (forallb is_ascii_digit (firstn 2 rest)) eqn:Ec.
  2:{ split; [discriminate|].
      intros (whole & cents & [= ->] & Hw & Hc & _ & Hd).
      rewrite skipn_app, skipn_all2, Hw, Nat.sub_diag in Es by lia.
      injection Es as <-. rewrite firstn_all2 in Ec by lia. congruence. }
  cbn [existsb at_end snd]. rewrite orb_false_r. split.
  - intros H. destruct (skipn 2 rest) eqn:Ed; [|discriminate].
    assert (length (skipn 2 rest) = 0%nat) as Hz by (rewrite Ed; reflexivity).
    rewrite length_skipn in Hz.
    exists (firstn 4 s), rest. rewrite firstn_all2 in Ec by lia.
    split; [cbn [lit list_ascii_of_string map app]; rewrite <- Hs; reflexivity|].
    rewrite length_firstn. repeat split; [lia|lia|exact Ew|exact Ec].
  - intros (whole & cents & [= ->] & Hw & Hc & _).
    rewrite skipn_app, skipn_all2, Hw, Nat.sub_diag in Es by lia.
    injection Es as <-. rewrite skipn_all2 by lia. reflexivity.
Qed.

Lemma digit_ascii c : is_ascii_digit c = true -> (c <? 128)%N = true.
Proof.
  unfold is_ascii_digit, in_range.
  intros [H1%N.leb_le H2%N.leb_le]%andb_true_iff. apply N.ltb_lt. lia.
Qed.

Lemma digit_not c x :
  is_ascii_digit c = true -> (x < 48 \/ 57 < x)%N -> N.eqb c x = false.
Proof.
  unfold is_ascii_digit, in_range.
  intros [H1%N.leb_le H2%N.leb_le]%andb_true_iff Hx. apply N.eqb_neq. lia.
Qed.

(** [float] reads the numeric part of such an amount. *)
Lemma float_of_amount d1 d2 d3 d4 d5 d6 :
  forallb is_ascii_digit [d1; d2; d3; d4; d5; d6] = true ->
  Py.float_of_str [d1; d2; d3; d4; 46%N; d5; d6]
  = Some (Py.of_decimal false
            (Spec.digits_value [d1; d2; d3; d4; d5; d6]) (-2)).
Proof.
  cbn [forallb]. rewrite !andb_true_iff.
  intros (H1 & H2 & H3 & H4 & H5 & H6 & _).
  unfold Py.float_of_str.
  assert (Py.to_ascii [d1; d2; d3; d4; 46%N; d5; d6]
          = [d1; d2; d3; d4; 46%N; d5; d6]) as ->.
  { unfold Py.to_ascii. cbn [map].
    rewrite (digit_ascii d1 H1), (digit_ascii d2 H2), (digit_ascii d3 H3),
      (digit_ascii d4 H4), (digit_ascii d5 H5), (digit_ascii d6 H6).
    reflexivity. }
  assert (contains 95 [d1; d2; d3; d4; 46%N; d5; d6] = false) as ->.
  { unfold contains. cbn [existsb]. rewrite !(N.eqb_sym 95).
    rewrite (digit_not d1 95 H1), (digit_not d2 95 H2), (digit_not d3 95 H3),
      (digit_not d4 95 H4), (digit_not d5 95 H5), (digit_not d6 95 H6) by lia.
    reflexivity. }
  cbn [mbind option_bind].
  assert (Py.strip [d1; d2; d3; d4; 46%N; d5; d6]
          = [d1; d2; d3; d4; 46%N; d5; d6]) as ->.
  { unfold Py.strip. cbn [Py.lstrip]. rewrite (digit_not_blank d1 H1).
    cbn [rev app Py.lstrip]. rewrite (digit_not_blank d6 H6). reflexivity. }
  rewrite (sign_digit d1 _ H1).
  assert (forall w, length (lit w) <> 7%nat ->
                    Py.ci_eq [d1; d2; d3; d4; 46%N; d5; d6] w = false) as Hci.
  { intros w Hw. unfold Py.ci_eq, str_eqb. apply bool_decide_eq_false_2.
    intros E. apply (f_equal (@length N)) in E. rewrite length_map in E.
    cbn [length] in E. congruence. }
  rewrite !Hci by (cbn; discriminate). cbn [orb].
  cbn [Py.digits_run]. rewrite H1, H2, H3, H4.
  change (is_ascii_digit 46) with false. cbn iota.
  cbn [Py.digits_run]. rewrite H5, H6. cbn iota.
  change (0 + 1 + 1 + 1 + 1 + (0 + 1 + 1) =? 0) with false. cbn iota.
  cbn [Py.exponent]. reflexivity.
Qed.

End DepositAmountFacts.

(** ** deposit_into_account: what it raises and writes *)

Module DepositSteps.
Import Aux Outcome OutcomeFacts IoFacts Steps.

Lemma bind_assoc {A B C} (m : io A) (f : A -> io B) (g : B -> io C) st :
  ((m ≫= f) ≫= g) st = (m ≫= fun a => f a ≫= g) st.
Proof. unfold mbind, io_bind. destruct (m st) as [[a|e] st1]; reflexivity. Qed.

Lemma bind_ext {A B} (m : io A) (f g : A -> io B) st :
  (forall a st', f a st' = g a st') -> (m ≫= f) st = (m ≫= g) st.
Proof.
  intros H. unfold mbind, io_bind. destruct (m st) as [[a|e] st1];
    [apply H|reflexivity].
Qed.

(** The two parts of [deposit_into_account]. *)
Lemma deposit_steps now input_file st :
  deposit_into_account now input_file st
  = (deposit_input input_file
       ≫= fun p => store_deposit (AccountDeposit.new now p.1 p.2)) st.
Proof.
  unfold deposit_into_account, deposit_input.
  rewrite bind_assoc. apply bind_ext. intros input_data st1.
  rewrite bind_assoc. apply bind_ext. intros [vi va] st2.
  rewrite bind_assoc. apply bind_ext. intros deposit_iban st3.
  rewrite bind_assoc. apply bind_ext. intros deposit_amount st4.
  rewrite bind_assoc. apply bind_ext. intros _ st5.
  rewrite bind_assoc. apply bind_ext. intros deposit_amount_value st6.
  rewrite bind_assoc. apply bind_ext. intros _ st7.
  reflexivity.
Qed.

Lemma apart_lift {A} (r : result A) : apart (lift r).
Proof. exists r. reflexivity. Qed.

Lemma apart_ret {A} (a : A) : apart (mret a : io A).
Proof. exists (Ok a). reflexivity. Qed.

Lemma apart_raise {A} e : apart (raise (A := A) e).
Proof. exists (Raise e). reflexivity. Qed.

Lemma apart_guard (b : bool) e : apart (if b then raise e else mret tt).
Proof. destruct b; [apply apart_raise|apply apart_ret]. Qed.

Lemma apart_bind {A B} (m : io A) (f : A -> io B) :
  apart m -> (forall a, apart (f a)) -> apart (m ≫= f).
Proof.
  intros [r Hr] Hf. destruct r as [a|e].
  - destruct (Hf a) as [r' Hr']. exists r'. intros st.
    unfold mbind, io_bind. rewrite Hr. apply Hr'.
  - exists (Raise e). intros st. unfold mbind, io_bind. rewrite Hr. reflexivity.
Qed.

Lemma apart_try {A} (m : io A) handlers :
  apart m -> Forall (fun h => apart h.2) handlers -> apart (try m handlers).
Proof.
  intros [r Hr] Hh. destruct r as [a|e].
  - exists (Ok a). intros st. unfold try. rewrite Hr. reflexivity.
  - destruct (find (fun h : exn * io A => bool_decide (h.1 = e)) handlers)
      as [h|] eqn:Hfind.
    + apply find_some in Hfind as Hin. destruct Hin as [Hin _].
      rewrite Forall_forall in Hh. rewrite <- list_elem_of_In in Hin.
      destruct (Hh h Hin) as [r' Hr']. exists r'. intros st.
      unfold try. rewrite Hr, Hfind. apply Hr'.
    + exists (Raise e). intros st. unfold try. rewrite Hr, Hfind. reflexivity.
Qed.

(** The input is read without the stores. *)
Lemma deposit_input_apart input_file : apart (deposit_input input_file).
Proof.
  unfold deposit_input.
  apply apart_bind.
  { apply apart_try; [apply apart_lift|].
    repeat (apply List.Forall_cons; [apply apart_raise|]). apply List.Forall_nil. }
  intros input_data. apply apart_bind.
  { apply apart_try; [apply apart_lift|].
    repeat (apply List.Forall_cons; [apply apart_raise|]). apply List.Forall_nil. }
  intros [vi va]. apply apart_bind; [apply apart_lift|].
  intros ?. apply apart_bind; [apply apart_lift|].
  intros ?. apply apart_bind; [apply apart_guard|].
  intros ?. apply apart_bind; [apply apart_lift|].
  intros ?. apply apart_bind; [apply apart_guard|].
  intros ?. apply apart_ret.
Qed.

(** The IBAN it returns is valid. *)
Lemma deposit_input_valid input_file st iban value st' :
  deposit_input input_file st = (Ok (iban, value), st') ->
  validate_iban iban = Ok iban.
Proof.
  unfold deposit_input. intros E.
  apply DepositFacts.bind_ok in E. destruct E as (input_data & st1 & _ & E).
  apply DepositFacts.bind_ok in E. destruct E as ([vi va] & st2 & _ & E).
  apply DepositFacts.bind_ok in E. destruct E as (deposit_iban & st3 & E1 & E).
  apply DepositFacts.lift_ok in E1. destruct E1 as [E1 _].
  apply DepositFacts.bind_ok in E. destruct E as (deposit_amount & st4 & _ & E).
  apply DepositFacts.bind_ok in E. destruct E as (u1 & st5 & _ & E).
  apply DepositFacts.bind_ok in E. destruct E as (v & st6 & _ & E).
  apply DepositFacts.bind_ok in E. destruct E as (u2 & st7 & _ & E).
  injection E as <- _ _.
  destruct (as_str vi) as [s|]; [|discriminate E1]. cbn [mbind result_bind] in E1.
  pose proof (validate_iban_returns _ _ E1) as ->. exact E1.
Qed.

Lemma valid_iban_ascii iban :
  validate_iban iban = Ok iban -> Spec.is_ascii iban = true.
Proof.
  intros Hv.
  destruct (CheckDigitFacts.valid_shape iban Hv) as (c1 & c2 & account & -> & Hd & _).
  unfold Spec.is_ascii. cbn [forallb]. 
  change (forallb is_ascii_digit (c1 :: c2 :: account) = true) in Hd.
  change (forallb (fun c => (c <? 128)%N) (c1 :: c2 :: account) = true).
  rewrite forallb_forall in Hd |- *. intros c Hc.
  apply DepositAmountFacts.digit_ascii, Hd, Hc.
Qed.

(** What the second part does with a deposit to an ASCII IBAN. *)
Lemma store_deposit_cases now iban value :
  Spec.is_ascii iban = true ->
  exists signature record,
    AccountDeposit.deposit_signature (AccountDeposit.new now iban value)
    = Ok signature
    /\ AccountDeposit.to_json (AccountDeposit.new now iban value)
       = Ok (PDict record)
    /\ forall st,
         store_deposit (AccountDeposit.new now iban value) st =
         match deposits st with
         | NoDirectory => (Raise StoreUnreadable, st)
         | NoFile =>
             (Ok signature,
              set_store DEPOSITS_STORE_FILE (Json (PList [PDict record])) st)
         | NotJson _ => (Raise MalformedStore, st)
         | Json (PList old) =>
             (Ok signature,
              set_store DEPOSITS_STORE_FILE
                (Json (PList (old ++ [PDict record]))) st)
         | Json _ => (Raise AttributeError, st)
         end.
Proof.
  intros Hi.
  pose proof (SignatureFacts.deposit_signature_ascii now iban value Hi) as Hsig.
  set (deposit_obj := AccountDeposit.new now iban value) in *.
  set (signature := Sha256.hexdigest _) in Hsig. clearbody signature.
  assert (exists record, AccountDeposit.to_json deposit_obj = Ok (PDict record))
    as [record Hjson].
  { unfold AccountDeposit.to_json. rewrite Hsig. cbn [mbind result_bind].
    eexists. reflexivity. }
  exists signature, record. split; [exact Hsig|]. split; [exact Hjson|].
  intros st. unfold store_deposit, mbind, io_bind, try, load, dump, lift.
  cbn [store]. rewrite Hjson, Hsig.
  destruct (deposits st) as [| |?|v] eqn:Ed; cbn [json_load].
  - rewrite find_handler_here.
    cbn [snd mret io_ret append mbind result_bind app]. rewrite Ed.
    rewrite find_handler_here. reflexivity.
  - rewrite find_handler_here.
    cbn [snd mret io_ret append mbind result_bind app]. rewrite Ed. reflexivity.
  - reflexivity.
  - destruct v as [| | | | |old|]; cbn [append mbind result_bind];
      try reflexivity.
    rewrite Ed. reflexivity.
Qed.

Lemma within_lift_bind {A B} es (r : result A) (f : A -> io B) :
  fails_within es r -> (forall a, r = Ok a -> raises_within es (f a)) ->
  raises_within es (lift r ≫= f).
Proof.
  intros Hr Hf st e. unfold mbind, io_bind, lift.
  destruct r as [a|e']; [apply (Hf a eq_refl)|].
  intros [= <-]. apply Hr. reflexivity.
Qed.

Lemma within_guard_bind {B} es (b : bool) e (k : io B) :
  In e es -> (b = false -> raises_within es k) ->
  raises_within es ((if b then raise e else mret tt) ≫= fun _ => k).
Proof.
  intros He Hk st e'. destruct b.
  - intros [= <-]. exact He.
  - apply (Hk eq_refl).
Qed.

Lemma as_str_fails v : fails_within [TypeError] (as_str v).
Proof. intros e. destruct v; cbn; try discriminate; intros [= <-]; auto. Qed.

(** What the first part raises. *)
Lemma deposit_input_raises input_file :
  raises_within
    [ InputNotFound; MalformedStore; InvalidInputKey; InvalidFormat;
      InvalidCheckDigit; InvalidDepositAmount; ZeroDeposit; TypeError ]
    (deposit_input input_file).
Proof.
  unfold deposit_input.
  apply within_bind.
  { apply (within_try [FileNotFoundError; JSONDecodeError]).
    - intros st e. unfold lift. cbn [fst].
      destruct input_file; cbn; intros [= <-]; auto.
    - apply List.Forall_cons; [|apply List.Forall_cons; [|apply List.Forall_nil]].
      + rewrite find_handler_here. apply within_raise. cbn. auto.
      + cbn. apply within_raise. cbn. auto. }
  intros input_data. apply within_bind.
  { apply (within_try [KeyError; TypeError]).
    - apply within_lift. intros e.
      pose proof (subscript_fails input_data "IBAN") as H1.
      pose proof (subscript_fails input_data "AMOUNT") as H2.
      destruct (subscript input_data "IBAN"); cbn [mbind result_bind];
        [|intros [= <-]; apply H1; reflexivity].
      destruct (subscript input_data "AMOUNT"); cbn [mbind result_bind];
        [discriminate|intros [= <-]; apply H2; reflexivity].
    - apply List.Forall_cons; [|apply List.Forall_cons; [|apply List.Forall_nil]].
      + rewrite find_handler_here. apply within_raise. cbn. tauto.
      + cbn [find fst]. rewrite bool_decide_eq_false_2 by discriminate.
        cbn. tauto. }
  intros [vi va]. apply within_bind.
  { apply within_lift. intros e.
    pose proof (as_str_fails vi) as H1.
    destruct (as_str vi) as [s|]; cbn [mbind result_bind].
    - intros He. apply validate_iban_fails in He. cbn in *. tauto.
    - intros [= <-]. specialize (H1 _ eq_refl). cbn in *. tauto. }
  intros deposit_iban. apply within_bind.
  { apply within_lift. intros e He. apply as_str_fails in He. cbn in *. tauto. }
  intros deposit_amount. apply within_guard_bind; [cbn; tauto|].
  intros Hm. apply negb_false_iff in Hm.
  apply DepositAmountFacts.fullmatch_deposit_amount in Hm
    as (whole & cents & -> & Hw & Hc & Hdw & Hdc).
  destruct whole as [|d1 [|d2 [|d3 [|d4 [|]]]]]; try discriminate Hw.
  destruct cents as [|d5 [|d6 [|]]]; try discriminate Hc.
  change (skipn 4 (lit "EUR " ++ [d1; d2; d3; d4] ++ 46%N :: [d5; d6]))
    with [d1; d2; d3; d4; 46%N; d5; d6].
  cbn [to_float]. rewrite DepositAmountFacts.float_of_amount.
  2:{ cbn [forallb] in *. rewrite !andb_true_iff in *. tauto. }
  apply within_lift_bind; [discriminate|]. intros v _.
  apply within_bind; [apply within_guard; cbn; tauto|].
  intros _. apply within_ret.
Qed.

End DepositSteps.

(** X9.  A call of [deposit_into_account] that raises, whatever it
    raises, leaves the stores as they were.  No call writes to the
    transfers, transactions and balances stores; a call that succeeds
    found a list of records in the deposits store, or no file, and
    leaves those records followed by one more. *)
Theorem deposit_into_account_writes (now : clock) (input_file : file)
    (st : stores) :
  let call := deposit_into_account now input_file st in
  (forall e, call.1 = Raise e -> call.2 = st)
  /\ transfers call.2 = transfers st
  /\ transactions call.2 = transactions st
  /\ balances call.2 = balances st
  /\ forall signature,
       call.1 = Ok signature ->
       exists old record,
         Spec.ledger (deposits st) = Some old
         /\ deposits call.2 = Json (PList (old ++ [record])).
Proof.
  intros call. subst call. rewrite DepositSteps.deposit_steps.
  destruct (DepositSteps.deposit_input_apart input_file) as [r Hr].
  unfold mbind, io_bind. pose proof (Hr st) as Hin. rewrite Hin.
  destruct r as [[iban value]|e].
  2:{ cbn [fst snd]. repeat split; try reflexivity. discriminate. }
  cbn [fst snd].
  apply DepositSteps.deposit_input_valid, DepositSteps.valid_iban_ascii in Hin.
  destruct (DepositSteps.store_deposit_cases now iban value Hin)
    as (signature & record & _ & _ & Hstore).
  rewrite Hstore.
  destruct (deposits st) as [| |?|v] eqn:Ed.
  - repeat split; try reflexivity. discriminate.
  - repeat split; try reflexivity; [discriminate|].
    intros _ _. exists [], (PDict record). auto.
  - repeat split; try reflexivity. discriminate.
  - destruct v as [| | | | |old|];
      try (repeat split; try reflexivity; discriminate).
    repeat split; try reflexivity; [discriminate|].
    intros _ _. exists old, (PDict record). auto.
Qed.

(** X10.  With a valid IBAN and a [str] amount in the input,
    [deposit_into_account] fails with [InvalidDepositAmount] exactly
    when the amount is not [EUR ], four digits, a point and two
    digits. *)
Theorem deposit_amount_format (now : clock) (input : gmap str pyval)
    (iban amount : str) (st : stores) :
  input !! lit "IBAN" = Some (PStr iban) ->
  input !! lit "AMOUNT" = Some (PStr amount) ->
  validate_iban iban = Ok iban ->
  (deposit_into_account now (Json (PDict input)) st).1
  = Raise InvalidDepositAmount
  <-> ~ exists whole cents,
          amount = lit "EUR " ++ whole ++ 46%N :: cents
          /\ length whole = 4%nat /\ length cents = 2%nat
          /\ forallb is_ascii_digit whole = true
          /\ forallb is_ascii_digit cents = true.
Proof.
  intros Hiban Hamount Hvalid.
  rewrite <- DepositAmountFacts.fullmatch_deposit_amount.
  rewrite DepositSteps.deposit_steps.
  unfold Steps.deposit_input.
  unfold mbind at 2, io_bind at 2. cbn [try lift json_load].
  unfold mbind at 2, io_bind at 2. cbn [try lift subscript].
  rewrite Hiban, Hamount. cbn [mbind result_bind].
  unfold mbind at 2, io_bind at 2. cbn [lift as_str mbind result_bind].
  rewrite Hvalid.
  unfold mbind at 2, io_bind at 2. cbn [lift as_str].
  unfold mbind at 2, io_bind at 2.
  destruct (fullmatch deposit_amount_pattern amount) eqn:Hm; cbn [negb].
  2:{ cbn. split; [intros _; discriminate|reflexivity]. }
  split; [|intros H; contradiction H; reflexivity].
  intros H. exfalso. revert H. cbn [mret io_ret].
  unfold mbind at 2, io_bind at 2, lift at 1.
  pose proof (AmountFacts.to_float_errors (PStr (skipn 4 amount))) as Hf.
  destruct (to_float (PStr (skipn 4 amount))) as [v|e].
  2:{ cbn. intros [= ->]. destruct (Hf _ eq_refl) as [H|[H|H]]; discriminate H. }
  unfold mbind at 2, io_bind at 2.
  destruct (py_eq (PFloat v) (PInt 0)); [cbn; discriminate|].
  unfold mbind, io_bind. cbn [mret io_ret fst snd].
  destruct (DepositSteps.store_deposit_cases now iban v
              (DepositSteps.valid_iban_ascii iban Hvalid))
    as (signature & record & _ & _ & Hstore).
  rewrite Hstore.
  destruct (deposits st) as [| |?|[| | | | |old|]]; cbn; discriminate.
Qed.

Lemma deposit_amount_format_witness :
  (deposit_into_account
     (Clock (Date 2023 11 14) (Py.of_decimal false 1700000000123456 (-6)))
     (Json (PDict (list_to_map
                     [ (lit "IBAN", PStr (lit "ES9121000418450200051332"));
                       (lit "AMOUNT", PStr (lit "EUR 10.00")) ])))
     (Stores NoFile NoFile NoFile NoFile)).1
  = Raise InvalidDepositAmount.
Proof.
  apply (deposit_amount_format
           (Clock (Date 2023 11 14) (Py.of_decimal false 1700000000123456 (-6)))
           (list_to_map
              [ (lit "IBAN", PStr (lit "ES9121000418450200051332"));
                (lit "AMOUNT", PStr (lit "EUR 10.00")) ])
           (lit "ES9121000418450200051332") (lit "EUR 10.00")
           (Stores NoFile NoFile NoFile NoFile));
    [reflexivity|reflexivity|reflexivity|].
  intros (whole & cents & H & Hw & Hc & _).
  apply (f_equal (@length N)) in H.
  rewrite !length_app in H. cbn [length] in H. rewrite Hw, Hc in H.
  discriminate H.
Defined.

(** What [deposit_into_account] raises over the files as they are
    modelled, where reading a file either succeeds or raises
    [FileNotFoundError] or [JSONDecodeError]. *)
Lemma deposit_into_account_within (now : clock) (input_file : file)
    (st : stores) (e : exn) :
  (deposit_into_account now input_file st).1 = Raise e ->
  In e [ InputNotFound; MalformedStore; InvalidInputKey; InvalidFormat;
         InvalidCheckDigit; InvalidDepositAmount; ZeroDeposit; StoreUnreadable;
         TypeError; AttributeError ].
Proof.
  rewrite DepositSteps.deposit_steps.
  pose proof (DepositSteps.deposit_input_raises input_file st) as Hr.
  unfold mbind, io_bind.
  destruct (Steps.deposit_input input_file st) as [[[iban value]|e'] st1] eqn:Hin.
  2:{ cbn [fst] in *. intros [= <-]. specialize (Hr _ eq_refl). cbn in *. tauto. }
  clear Hr. cbn [fst snd].
  apply DepositSteps.deposit_input_valid, DepositSteps.valid_iban_ascii in Hin.
  destruct (DepositSteps.store_deposit_cases now iban value Hin)
    as (signature & record & _ & _ & Hstore).
  rewrite Hstore.
  destruct (deposits st1) as [| |?|[| | | | |old|]]; cbn [fst];
    try discriminate; intros [= <-]; cbn; tauto.
Qed.

(** X11.  An [AccountManagementException] that [deposit_into_account]
    raises is one of eight: input not found, malformed JSON, invalid key,
    invalid IBAN format, invalid check digit, invalid deposit amount,
    zero deposit, unreadable store.  The failures of [open] and
    [json.load] that [file] leaves out are of other classes and no [except] of the
    manager catches them, so they add no message; what is raised
    besides an [AccountManagementException] is not stated here. *)
Theorem deposit_into_account_messages (now : clock) (input_file : file)
    (st : stores) (message : string) :
  (deposit_into_account now input_file st).1
  = Raise (AccountManagementException message) ->
  In (AccountManagementException message)
    [ InputNotFound; MalformedStore; InvalidInputKey; InvalidFormat;
      InvalidCheckDigit; InvalidDepositAmount; ZeroDeposit; StoreUnreadable ].
Proof.
  intros H. apply deposit_into_account_within in H. cbn [In] in *.
  repeat (destruct H as [H|H]; [try discriminate H; tauto|]). contradiction H.
Qed.

Lemma deposit_into_account_messages_witness :
  In (AccountManagementException "Error: file input not found")
    [ InputNotFound; MalformedStore; InvalidInputKey; InvalidFormat;
      InvalidCheckDigit; InvalidDepositAmount; ZeroDeposit; StoreUnreadable ].
Proof.
  apply (deposit_into_account_messages
           (Clock (Date 2023 11 14) (S754_zero false)) NoFile
           (Stores NoFile NoFile NoFile NoFile)).
  reflexivity.
Defined.

(** X12.  Deposits are not compared with the stored ones: after a
    deposit has succeeded, the same input deposited again succeeds, and
    the store holds a record for each; made at the same time, the two
    records and the two signatures are the same. *)
Theorem deposit_twice (now now' : clock) (input_file : file) (st : stores)
    (signature : str) :
  (deposit_into_account now input_file st).1 = Ok signature ->
  exists signature' old record record',
    Spec.ledger (deposits st) = Some old
    /\ deposit_into_account now' input_file
         (deposit_into_account now input_file st).2
       = (Ok signature',
          set_store DEPOSITS_STORE_FILE
            (Json (PList (old ++ [record; record']))) st)
    /\ (now' = now -> record' = record /\ signature' = signature).
Proof.
  rewrite !DepositSteps.deposit_steps.
  destruct (DepositSteps.deposit_input_apart input_file) as [r Hr].
  unfold mbind, io_bind. pose proof (Hr st) as Hin. rewrite Hin.
  destruct r as [[iban value]|e]; [|discriminate].
  cbn [fst snd].
  apply DepositSteps.deposit_input_valid, DepositSteps.valid_iban_ascii in Hin.
  destruct (DepositSteps.store_deposit_cases now iban value Hin)
    as (sig1 & record & Hsig1 & Hjson1 & Hstore).
  destruct (DepositSteps.store_deposit_cases now' iban value Hin)
    as (sig2 & record' & Hsig2 & Hjson2 & Hstore').
  rewrite Hstore.
  assert (now' = now -> PDict record' = PDict record /\ sig2 = sig1) as Hsame.
  { intros ->. rewrite Hsig1 in Hsig2. rewrite Hjson1 in Hjson2.
    injection Hsig2 as <-. injection Hjson2 as <-. auto. }
  destruct (deposits st) as [| |?|[| | | | |old|]] eqn:Ed; cbn [fst snd];
    try discriminate; intros [= <-].
  - exists sig2, [], (PDict record), (PDict record'). split; [reflexivity|].
    rewrite Hr. cbn [fst snd]. rewrite Hstore'.
    destruct st. cbn. cbn in Ed. split; [reflexivity|exact Hsame].
  - exists sig2, old, (PDict record), (PDict record'). split; [reflexivity|].
    rewrite Hr. cbn [fst snd]. rewrite Hstore'.
    destruct st. cbn. rewrite <- app_assoc. split; [reflexivity|exact Hsame].
Qed.

Lemma deposit_twice_witness :
  exists signature' old record record',
    Spec.ledger NoFile = Some old
    /\ deposit_into_account
         (Clock (Date 2023 11 14) (Py.of_decimal false 1700000000123456 (-6)))
         (Json (PDict (list_to_map
                         [ (lit "IBAN", PStr (lit "ES9121000418450200051332"));
                           (lit "AMOUNT", PStr (lit "EUR 1234.56")) ])))
         (deposit_into_account
            (Clock (Date 2023 11 14) (Py.of_decimal false 1700000000123456 (-6)))
            (Json (PDict (list_to_map
                            [ (lit "IBAN", PStr (lit "ES9121000418450200051332"));
                              (lit "AMOUNT", PStr (lit "EUR 1234.56")) ])))
            (Stores NoFile NoFile NoFile NoFile)).2
       = (Ok signature',
          set_store DEPOSITS_STORE_FILE
            (Json (PList (old ++ [record; record'])))
            (Stores NoFile NoFile NoFile NoFile))
    /\ (Clock (Date 2023 11 14) (Py.of_decimal false 1700000000123456 (-6))
        = Clock (Date 2023 11 14) (Py.of_decimal false 1700000000123456 (-6)) ->
        record' = record
        /\ signature'
           = lit "45a7c133c0d6e516e25bda145ad249bc85002bcb343871f57b981b1c12259959").
Proof.
  apply (deposit_twice
           (Clock (Date 2023 11 14) (Py.of_decimal false 1700000000123456 (-6)))
           (Clock (Date 2023 11 14) (Py.of_decimal false 1700000000123456 (-6)))
           (Json (PDict (list_to_map
                           [ (lit "IBAN", PStr (lit "ES9121000418450200051332"));
                             (lit "AMOUNT", PStr (lit "EUR 1234.56")) ])))
           (Stores NoFile NoFile NoFile NoFile)).
  vm_compute. reflexivity.
Defined.

(** ** calculate_balance: what it raises and writes *)

Module BalanceSteps.
Import Aux Outcome OutcomeFacts IoFacts Steps DepositSteps.

(** The two parts of [calculate_balance]. *)
Lemma balance_steps now iban st :
  calculate_balance now iban st
  = (sum_balance iban ≫= fun p => store_balance now p.1 p.2) st.
Proof.
  unfold calculate_balance, sum_balance.
  rewrite bind_assoc. apply bind_ext. intros iban' st1.
  rewrite bind_assoc. apply bind_ext. intros transactions st2.
  rewrite bind_assoc. apply bind_ext. intros transactions' st3.
  rewrite bind_assoc. apply bind_ext. intros [iban_found balance_sum] st4.
  rewrite bind_assoc. apply bind_ext. intros _ st5.
  reflexivity.
Qed.

Lemma quiet_read_transactions_file : quiet read_transactions_file.
Proof.
  unfold read_transactions_file.
  apply quiet_try; [apply quiet_load|repeat constructor].
Qed.

Lemma quiet_guard (b : bool) e : quiet (if b then raise e else mret tt).
Proof. destruct b; [apply quiet_raise|apply quiet_ret]. Qed.

(** The first part writes nothing. *)
Lemma quiet_sum_balance iban : quiet (sum_balance iban).
Proof.
  unfold sum_balance.
  apply quiet_bind; [apply quiet_lift|]. intros ?.
  apply quiet_bind; [apply quiet_read_transactions_file|]. intros ?.
  apply quiet_bind; [apply quiet_lift|]. intros ?.
  apply quiet_bind; [apply quiet_lift|]. intros [? ?].
  apply quiet_bind; [apply quiet_guard|]. intros ?.
  apply quiet_ret.
Qed.

Lemma reads_apart {A} i (m : io A) : apart m -> reads_only i m.
Proof. intros [r Hr] st st' _. rewrite !Hr. reflexivity. Qed.

Lemma reads_bind {A B} i (m : io A) (f : A -> io B) :
  quiet m -> reads_only i m -> (forall a, reads_only i (f a)) ->
  reads_only i (m ≫= f).
Proof.
  intros Hq Hm Hf st st' Hs. unfold mbind, io_bind.
  pose proof (Hq st) as Q. pose proof (Hq st') as Q'. pose proof (Hm st st' Hs) as E.
  destruct (m st) as [r s], (m st') as [r' s']. cbn [fst snd] in *. subst.
  destruct r' as [a|e]; [apply Hf; exact Hs|reflexivity].
Qed.

(** It reads the transactions store, no other. *)
Lemma sum_balance_reads iban :
  reads_only TRANSACTIONS_STORE_FILE (sum_balance iban).
Proof.
  unfold sum_balance.
  apply reads_bind; [apply quiet_lift|apply reads_apart, apart_lift|]. intros ?.
  apply reads_bind; [apply quiet_read_transactions_file| |].
  { intros st st' Hs. unfold read_transactions_file, try, load. rewrite Hs.
    destruct (json_load _) as [v|e]; [reflexivity|].
    destruct e; reflexivity. }
  intros ?.
  apply reads_bind; [apply quiet_lift|apply reads_apart, apart_lift|]. intros ?.
  apply reads_bind; [apply quiet_lift|apply reads_apart, apart_lift|]. intros [? ?].
  apply reads_bind; [apply quiet_guard|apply reads_apart, apart_guard|]. intros ?.
  apply reads_apart, apart_ret.
Qed.

(** What the second part does. *)
Lemma store_balance_cases now iban balance_sum st :
  store_balance now iban balance_sum st =
  match balances st with
  | NoDirectory => (Raise StoreUnreadable, st)
  | NoFile =>
      (Ok true,
       set_store BALANCES_STORE_FILE
         (Json (PList [last_balance now iban balance_sum])) st)
  | NotJson _ => (Raise MalformedStore, st)
  | Json (PList old) =>
      (Ok true,
       set_store BALANCES_STORE_FILE
         (Json (PList (old ++ [last_balance now iban balance_sum]))) st)
  | Json _ => (Raise AttributeError, st)
  end.
Proof.
  unfold store_balance, mbind, io_bind, try, load, dump, lift. cbn [store].
  destruct (balances st) as [| |?|v] eqn:Eb; cbn [json_load].
  - rewrite find_handler_here.
    cbn [snd mret io_ret append mbind result_bind app]. rewrite Eb.
    rewrite find_handler_here. reflexivity.
  - rewrite find_handler_here.
    cbn [snd mret io_ret append mbind result_bind app]. rewrite Eb. reflexivity.
  - reflexivity.
  - destruct v as [| | | | |old|]; cbn [append mbind result_bind];
      try reflexivity.
    rewrite Eb. reflexivity.
Qed.

(** What the loop raises. *)
Lemma sum_transactions_fails iban txs : forall state,
  fails_within [KeyError; TypeError; ValueError; OverflowError]
    (sum_transactions txs iban state).
Proof.
  induction txs as [|t txs IH]; intros state e; cbn [sum_transactions];
    [discriminate|].
  pose proof (subscript_fails t "IBAN") as H1.
  destruct (subscript t "IBAN") as [v|e1]; cbn [mbind result_bind].
  2:{ intros [= <-]. specialize (H1 _ eq_refl). cbn in *. tauto. }
  destruct (py_eq v (PStr iban)); cbn [mbind result_bind]; [|apply IH].
  pose proof (subscript_fails t "amount") as H2.
  destruct (subscript t "amount") as [a|e2]; cbn [mbind result_bind].
  2:{ intros [= <-]. specialize (H2 _ eq_refl). cbn in *. tauto. }
  pose proof (AmountFacts.to_float_errors a) as H3.
  destruct (to_float a) as [f|e3]; cbn [mbind result_bind].
  2:{ intros [= <-]. specialize (H3 _ eq_refl). cbn in *. intuition congruence. }
  destruct (add_float state.2 f) as [s|e4] eqn:E4; cbn [mbind result_bind];
    [apply IH|].
  intros [= <-]. unfold add_float in E4.
  destruct state.2 as [| |z|g| | |]; try (injection E4 as <-; cbn; tauto);
    try discriminate E4.
  unfold Py.of_int in E4.
  destruct (Py.round_ratio _ _ _); cbn [mbind result_bind] in E4;
    try discriminate E4; injection E4 as <-; cbn; tauto.
Qed.

(** What the first part raises. *)
Lemma sum_balance_raises iban :
  raises_within
    [ InvalidFormat; InvalidCheckDigit; StoreUnreadable; MalformedStore;
      IbanNotFound; KeyError; TypeError; ValueError; OverflowError ]
    (sum_balance iban).
Proof.
  unfold sum_balance.
  apply within_bind.
  { apply within_lift. intros e He. apply validate_iban_fails in He.
    cbn in *. tauto. }
  intros ?. apply within_bind.
  { unfold read_transactions_file.
    apply (within_try [FileNotFoundError; JSONDecodeError]); [apply within_load|].
    apply List.Forall_cons; [|apply List.Forall_cons; [|apply List.Forall_nil]].
    - rewrite find_handler_here. apply within_raise. cbn. tauto.
    - cbn. apply within_raise. cbn. tauto. }
  intros ?. apply within_bind.
  { apply within_lift. intros e He. apply iterate_fails in He. cbn in *. tauto. }
  intros ?. apply within_bind.
  { apply within_lift. intros e He. apply sum_transactions_fails in He.
    cbn in *. tauto. }
  intros [? ?]. apply within_bind; [apply within_guard; cbn; tauto|].
  intros ?. apply within_ret.
Qed.

(** The loop goes through the parts of a list in turn. *)
Lemma sum_transactions_app iban l1 l2 : forall state,
  sum_transactions (l1 ++ l2) iban state
  = sum_transactions l1 iban state ≫= sum_transactions l2 iban.
Proof.
  induction l1 as [|t l1 IH]; intros state; cbn [app sum_transactions];
    [reflexivity|].
  destruct (subscript t "IBAN") as [v|]; cbn [mbind result_bind]; [|reflexivity].
  destruct (py_eq v (PStr iban)); cbn [mbind result_bind]; [|apply IH].
  destruct (subscript t "amount") as [a|]; cbn [mbind result_bind]; [|reflexivity].
  destruct (to_float a) as [f|]; cbn [mbind result_bind]; [|reflexivity].
  destruct (add_float state.2 f); cbn [mbind result_bind]; [apply IH|reflexivity].
Qed.

End BalanceSteps.

(** X13.  A call of [calculate_balance] that raises, whatever it
    raises, leaves the stores as they were.  No call writes to the
    transfers, deposits and transactions stores; a call that succeeds
    returns [True], found a list of snapshots in the balances store, or
    no file, and leaves those snapshots followed by one more, of the
    IBAN and the time of the call. *)
Theorem calculate_balance_writes (now : clock) (iban : str) (st : stores) :
  let call := calculate_balance now iban st in
  (forall e, call.1 = Raise e -> call.2 = st)
  /\ transfers call.2 = transfers st
  /\ deposits call.2 = deposits st
  /\ transactions call.2 = transactions st
  /\ forall b,
       call.1 = Ok b ->
       b = true
       /\ exists old balance_sum,
            Spec.ledger (balances st) = Some old
            /\ balances call.2
               = Json (PList (old ++
                                [Steps.last_balance now iban balance_sum])).
Proof.
  intros call. subst call. rewrite BalanceSteps.balance_steps.
  unfold mbind, io_bind.
  pose proof (BalanceSteps.quiet_sum_balance iban st) as Hq.
  destruct (Steps.sum_balance iban st) as [[[iban' s]|e] st1] eqn:Hsum;
    cbn [fst snd] in *; subst st1.
  2:{ repeat split; try reflexivity; congruence. }
  assert (iban' = iban) as ->.
  { unfold Steps.sum_balance in Hsum.
    apply DepositFacts.bind_ok in Hsum. destruct Hsum as (i & st1 & E1 & E).
    apply DepositFacts.lift_ok in E1. destruct E1 as [E1 _].
    apply validate_iban_returns in E1. subst i.
    apply DepositFacts.bind_ok in E. destruct E as (? & ? & _ & E).
    apply DepositFacts.bind_ok in E. destruct E as (? & ? & _ & E).
    apply DepositFacts.bind_ok in E. destruct E as ([? ?] & ? & _ & E).
    apply DepositFacts.bind_ok in E. destruct E as (? & ? & _ & E).
    injection E as <- _ _. reflexivity. }
  rewrite BalanceSteps.store_balance_cases.
  destruct (balances st) as [| |?|v] eqn:Eb; cbn [fst snd].
  - repeat split; try reflexivity; congruence.
  - repeat split; try reflexivity; try discriminate; try congruence.
    exists [], s. auto.
  - repeat split; try reflexivity; congruence.
  - destruct v as [| | | | |old|]; cbn [fst snd];
      try (repeat split; try reflexivity; congruence).
    repeat split; try reflexivity; try discriminate; try congruence.
    exists old, s. auto.
Qed.

(** What [calculate_balance] raises over the stores as they are
    modelled, where reading a store either succeeds or raises
    [FileNotFoundError] or [JSONDecodeError]. *)
Lemma calculate_balance_within (now : clock) (iban : str) (st : stores)
    (e : exn) :
  (calculate_balance now iban st).1 = Raise e ->
  In e [ InvalidFormat; InvalidCheckDigit; StoreUnreadable; MalformedStore;
         IbanNotFound; KeyError; TypeError; ValueError; OverflowError;
         AttributeError ].
Proof.
  rewrite BalanceSteps.balance_steps.
  pose proof (BalanceSteps.sum_balance_raises iban st) as Hr.
  unfold mbind, io_bind.
  destruct (Steps.sum_balance iban st) as [[[iban' s]|e'] st1]; cbn [fst snd] in *.
  2:{ intros [= <-]. specialize (Hr _ eq_refl). cbn in *. tauto. }
  rewrite BalanceSteps.store_balance_cases.
  destruct (balances st1) as [| |?|[| | | | |old|]]; cbn [fst];
    try discriminate; intros [= <-]; cbn; tauto.
Qed.

(** X14.  An [AccountManagementException] that [calculate_balance]
    raises is one of five: invalid IBAN format, invalid check digit,
    unreadable store, malformed JSON, IBAN not found.  The failures of
    [open] and [json.load] that [file] leaves out are of other classes and no [except] of the
    manager catches them, so they add no message; what is raised
    besides an [AccountManagementException] is not stated here. *)
Theorem calculate_balance_messages (now : clock) (iban : str) (st : stores)
    (message : string) :
  (calculate_balance now iban st).1
  = Raise (AccountManagementException message) ->
  In (AccountManagementException message)
    [ InvalidFormat; InvalidCheckDigit; StoreUnreadable; MalformedStore;
      IbanNotFound ].
Proof.
  intros H. apply calculate_balance_within in H. cbn [In] in *.
  repeat (destruct H as [H|H]; [try discriminate H; tauto|]). contradiction H.
Qed.

Lemma calculate_balance_messages_witness :
  In (AccountManagementException "Invalid IBAN format")
    [ InvalidFormat; InvalidCheckDigit; StoreUnreadable; MalformedStore;
      IbanNotFound ].
Proof.
  apply (calculate_balance_messages (Clock (Date 2026 11 3) (S754_zero false))
           (lit "ES00") (Stores NoFile NoFile NoFile NoFile)).
  reflexivity.
Defined.

(** X15.  A transaction of the IBAN whose amount is a [str] that
    [float] cannot read makes [calculate_balance] fail with
    [ValueError], not with a failure of the manager, when the
    transactions before it are readable; nothing is written. *)
Theorem calculate_balance_unreadable_amount (now : clock) (iban : str)
    (st : stores) (before after : list pyval) (transaction : gmap str pyval)
    (amount : str) :
  validate_iban iban = Ok iban ->
  transactions st = Json (PList (before ++ PDict transaction :: after)) ->
  forallb (Spec.readable iban) before = true ->
  transaction !! lit "IBAN" = Some (PStr iban) ->
  transaction !! lit "amount" = Some (PStr amount) ->
  Py.float_of_str amount = None ->
  calculate_balance now iban st = (Raise ValueError, st).
Proof.
  intros Hv Ht Hr Hiban Hamount Hfloat.
  unfold calculate_balance, read_transactions_file.
  unfold mbind at 1, io_bind at 1, lift at 1. rewrite Hv.
  unfold mbind at 1, io_bind at 1. unfold try at 1, load at 1. cbn [store].
  rewrite Ht. cbn [json_load].
  unfold mbind at 1, io_bind at 1, lift at 1. cbn [iterate].
  unfold mbind at 1, io_bind at 1, lift at 1.
  rewrite BalanceSteps.sum_transactions_app.
  rewrite (BalanceFacts.sum_transactions_start iban before Hr).
  assert (forall state,
            sum_transactions (PDict transaction :: after) iban state
            = Raise ValueError) as Hhead.
  { intros state. cbn [sum_transactions]. unfold subscript.
    rewrite Hiban, Hamount. cbn [mbind result_bind].
    assert (py_eq (PStr iban) (PStr iban) = true) as ->
      by (cbn [py_eq]; unfold str_eqb; apply bool_decide_eq_true_2; reflexivity).
    cbn [mbind result_bind to_float]. rewrite Hfloat. reflexivity. }
  destruct (existsb _ before); cbn [mbind result_bind]; rewrite Hhead; reflexivity.
Qed.

Lemma calculate_balance_unreadable_amount_witness :
  calculate_balance (Clock (Date 2026 11 3) (S754_zero false))
    (lit "ES9121000418450200051332")
    (Stores NoFile NoFile
       (Json (PList
          [PDict (list_to_map
                    [ (lit "IBAN", PStr (lit "ES9121000418450200051332"));
                      (lit "amount", PStr (lit "ten")) ])]))
       NoFile)
  = (Raise ValueError,
     Stores NoFile NoFile
       (Json (PList
          [PDict (list_to_map
                    [ (lit "IBAN", PStr (lit "ES9121000418450200051332"));
                      (lit "amount", PStr (lit "ten")) ])]))
       NoFile).
Proof.
  apply (calculate_balance_unreadable_amount
           (Clock (Date 2026 11 3) (S754_zero false))
           (lit "ES9121000418450200051332") _ [] []
           (list_to_map
              [ (lit "IBAN", PStr (lit "ES9121000418450200051332"));
                (lit "amount", PStr (lit "ten")) ])
           (lit "ten")); reflexivity.
Defined.

(** X16.  The balance is computed from the transactions alone: after a
    call has succeeded, a call for the same IBAN at any time succeeds,
    and the balances store holds the snapshots of both, with the same
    balance. *)
Theorem calculate_balance_twice (now now' : clock) (iban : str) (st : stores) :
  (calculate_balance now iban st).1 = Ok true ->
  exists old balance_sum,
    Spec.ledger (balances st) = Some old
    /\ calculate_balance now' iban (calculate_balance now iban st).2
       = (Ok true,
          set_store BALANCES_STORE_FILE
            (Json (PList (old ++ [Steps.last_balance now iban balance_sum;
                                  Steps.last_balance now' iban balance_sum])))
            st).
Proof.
  rewrite !BalanceSteps.balance_steps.
  unfold mbind at 1 3, io_bind at 1 3.
  pose proof (BalanceSteps.quiet_sum_balance iban st) as Hq.
  destruct (Steps.sum_balance iban st) as [[[iban' s]|e] st1] eqn:Hsum;
    cbn [fst snd] in *; subst st1; [|discriminate].
  rewrite BalanceSteps.store_balance_cases.
  assert (forall f,
            Steps.sum_balance iban (set_store BALANCES_STORE_FILE f st)
            = (Ok (iban', s), set_store BALANCES_STORE_FILE f st)) as Hagain.
  { intros f.
    pose proof (BalanceSteps.quiet_sum_balance iban
                  (set_store BALANCES_STORE_FILE f st)) as Hq'.
    pose proof (BalanceSteps.sum_balance_reads iban st
                  (set_store BALANCES_STORE_FILE f st)) as Hsame.
    rewrite Hsum in Hsame. cbn [fst] in Hsame.
    destruct (Steps.sum_balance iban (set_store BALANCES_STORE_FILE f st))
      as [r st2]. cbn [fst snd] in *. subst st2. f_equal. symmetry. apply Hsame.
    destruct st. reflexivity. }
  assert (iban' = iban) as ->.
  { unfold Steps.sum_balance in Hsum.
    apply DepositFacts.bind_ok in Hsum. destruct Hsum as (i & st1 & E1 & E).
    apply DepositFacts.lift_ok in E1. destruct E1 as [E1 _].
    apply validate_iban_returns in E1. subst i.
    apply DepositFacts.bind_ok in E. destruct E as (? & ? & _ & E).
    apply DepositFacts.bind_ok in E. destruct E as (? & ? & _ & E).
    apply DepositFacts.bind_ok in E. destruct E as ([? ?] & ? & _ & E).
    apply DepositFacts.bind_ok in E. destruct E as (? & ? & _ & E).
    injection E as <- _ _. reflexivity. }
  destruct (balances st) as [| |?|[| | | | |old|]] eqn:Eb; cbn [fst snd];
    try discriminate; intros _.
  - exists [], s. split; [reflexivity|].
    unfold mbind, io_bind. rewrite Hagain. cbn [fst snd].
    rewrite BalanceSteps.store_balance_cases. destruct st. reflexivity.
  - exists old, s. split; [reflexivity|].
    unfold mbind, io_bind. rewrite Hagain. cbn [fst snd].
    rewrite BalanceSteps.store_balance_cases. destruct st. cbn.
    rewrite <- app_assoc. reflexivity.
Qed.

Lemma calculate_balance_twice_witness :
  exists old balance_sum,
    Spec.ledger NoFile = Some old
    /\ calculate_balance (Clock (Date 2026 11 4) (S754_zero false))
         (lit "ES9121000418450200051332")
         (calculate_balance (Clock (Date 2026 11 3) (S754_zero false))
            (lit "ES9121000418450200051332")
            (Stores NoFile NoFile
               (Json (PList
                  [PDict (list_to_map
                     [ (lit "IBAN", PStr (lit "ES9121000418450200051332"));
                       (lit "amount", PInt 50) ])]))
               NoFile)).2
       = (Ok true,
          set_store BALANCES_STORE_FILE
            (Json (PList (old ++
               [Steps.last_balance (Clock (Date 2026 11 3) (S754_zero false))
                  (lit "ES9121000418450200051332") balance_sum;
                Steps.last_balance (Clock (Date 2026 11 4) (S754_zero false))
                  (lit "ES9121000418450200051332") balance_sum])))
            (Stores NoFile NoFile
               (Json (PList
                  [PDict (list_to_map
                     [ (lit "IBAN", PStr (lit "ES9121000418450200051332"));
                       (lit "amount", PInt 50) ])]))
               NoFile)).
Proof.
  apply (calculate_balance_twice
           (Clock (Date 2026 11 3) (S754_zero false))
           (Clock (Date 2026 11 4) (S754_zero false))
           (lit "ES9121000418450200051332")
           (Stores NoFile NoFile
              (Json (PList
                 [PDict (list_to_map
                    [ (lit "IBAN", PStr (lit "ES9121000418450200051332"));
                      (lit "amount", PInt 50) ])]))
              NoFile)).
  vm_compute. reflexivity.
Defined.

(** ** validate_transfer_date and the clock *)

Module ClockFacts.

Lemma date_ltb_spec a b :
  date_ltb a b = true <->
  year a < year b
  \/ (year a = year b
      /\ (month a < month b \/ (month a = month b /\ day a < day b))).
Proof.
  unfold date_ltb.
  rewrite !orb_true_iff, !andb_true_iff, !orb_true_iff, !andb_true_iff,
    !Z.ltb_lt, !Z.eqb_eq.
  reflexivity.
Qed.

Lemma date_geb_spec a b :
  date_ltb a b = false <->
  year b < year a
  \/ (year a = year b
      /\ (month b < month a \/ (month a = month b /\ day b <= day a))).
Proof.
  rewrite <- not_true_iff_false, date_ltb_spec. lia.
Qed.

End ClockFacts.

(** X17.  The clock only decides whether a date is in the past: a date
    string accepted on a day is accepted on every day that is not later,
    and one refused as past on a day is refused as past on every day
    that is not earlier. *)
Theorem validate_transfer_date_clock (earlier later : date) (date_str : str) :
  date_ltb later earlier = false ->
  (validate_transfer_date later date_str = Ok date_str ->
   validate_transfer_date earlier date_str = Ok date_str)
  /\ (validate_transfer_date earlier date_str = Raise DateInPast ->
      validate_transfer_date later date_str = Raise DateInPast).
Proof.
  intros Hle. apply ClockFacts.date_geb_spec in Hle.
  unfold validate_transfer_date.
  destruct (negb (fullmatch date_pattern date_str));
    [split; discriminate|].
  destruct (except (strptime_date date_str) ValueError (Raise InvalidDateFormat))
    as [d|e]; cbn [mbind result_bind]; [|split; intros H; exact H].
  destruct (date_ltb d later) eqn:E1, (date_ltb d earlier) eqn:E2.
  - split; [discriminate|reflexivity].
  - split; [discriminate|reflexivity].
  - apply ClockFacts.date_geb_spec in E1. apply ClockFacts.date_ltb_spec in E2.
    exfalso. lia.
  - split; intros H'; exact H'.
Qed.

Lemma validate_transfer_date_clock_witness :
  validate_transfer_date (Date 2026 11 3) (lit "24/12/2026")
  = Ok (lit "24/12/2026").
Proof.
  apply (proj1 (validate_transfer_date_clock (Date 2026 11 3) (Date 2026 12 24)
                  (lit "24/12/2026") eq_refl)).
  reflexivity.
Defined.

(** ** _SingletonMeta *)

Module SingletonFacts.
Import SingletonMeta.

Section Meta.
Context {class object args : Type} `{Countable class}.

(** A call that returns an instance leaves it as the instance of the
    class. *)
Lemma call_returns (construct : class -> args -> result object) cls a
    (insts : gmap class object) o :
  (call construct cls a insts).1 = Ok o ->
  (call construct cls a insts).2 !! cls = Some o.
Proof.
  unfold SingletonMeta.call. destruct (insts !! cls) as [o'|] eqn:E.
  - cbn. intros [= <-]. exact E.
  - destruct (construct cls a) as [o'|e]; cbn; [|discriminate].
    intros [= <-]. apply lookup_insert_eq.
Qed.

(** No call replaces an instance. *)
Lemma call_keeps (construct : class -> args -> result object) cls a
    (insts : gmap class object) cls' o :
  insts !! cls' = Some o ->
  (call construct cls a insts).2 !! cls' = Some o.
Proof.
  intros Hk. unfold SingletonMeta.call. destruct (insts !! cls) as [o'|] eqn:E.
  - exact Hk.
  - destruct (construct cls a) as [o'|e]; cbn; [|exact Hk].
    rewrite lookup_insert_ne; [exact Hk|]. intros ->. congruence.
Qed.

(** A class that has an instance gets it from every call. *)
Lemma calls_known
    (l : list ((class -> args -> result object) * class * args)) :
  forall (insts : gmap class object) cls o j construct a r,
  insts !! cls = Some o ->
  l !! j = Some (construct, cls, a) ->
  (calls l insts).1 !! j = Some r ->
  r = Ok o.
Proof.
  induction l as [|[[c0 cls0] a0] l IH]; intros insts cls o j construct a r Hk Hj Hr;
    [discriminate Hj|].
  cbn [SingletonMeta.calls] in Hr.
  pose proof (call_keeps c0 cls0 a0 insts cls o Hk) as Hk'.
  destruct (call c0 cls0 a0 insts) as [r0 insts'] eqn:E0.
  destruct (calls l insts') as [rs insts''] eqn:El. cbn [fst snd] in *.
  destruct j as [|j].
  - injection Hj as -> -> ->. injection Hr as <-.
    unfold SingletonMeta.call in E0. rewrite Hk in E0. injection E0 as <- _.
    reflexivity.
  - cbn in Hj, Hr. apply (IH insts' cls o j construct a r Hk' Hj).
    rewrite El. exact Hr.
Qed.

End Meta.

End SingletonFacts.

(** X18.  In any sequence of calls of classes of the metaclass, from
    any state of [_instances], two calls of the same class that return
    return the same instance, whatever their arguments. *)
Theorem singleton_same_instance
    {class object args : Type} `{Countable class}
    (l : list ((class -> args -> result object) * class * args))
    (_instances : gmap class object)
    (i j : nat) (cls : class) construct_i a_i construct_j a_j
    (o_i o_j : object) :
  l !! i = Some (construct_i, cls, a_i) ->
  l !! j = Some (construct_j, cls, a_j) ->
  (SingletonMeta.calls l _instances).1 !! i = Some (Ok o_i) ->
  (SingletonMeta.calls l _instances).1 !! j = Some (Ok o_j) ->
  o_i = o_j.
Proof.
  revert _instances i j.
  induction l as [|[[c0 cls0] a0] l IH]; intros insts i j Hi Hj Ri Rj;
    [discriminate Hi|].
  cbn [SingletonMeta.calls] in Ri, Rj.
  pose proof (SingletonFacts.call_returns c0 cls0 a0 insts) as Hret.
  destruct (SingletonMeta.call c0 cls0 a0 insts) as [r0 insts'] eqn:E0.
  destruct (SingletonMeta.calls l insts') as [rs insts''] eqn:El.
  cbn [fst snd] in *.
  destruct i as [|i], j as [|j].
  - cbn in Ri, Rj. congruence.
  - injection Hi as -> -> ->. cbn in Ri, Rj, Hj. injection Ri as ->.
    specialize (Hret o_i eq_refl).
    pose proof (SingletonFacts.calls_known l insts' cls o_i j construct_j a_j
                  (Ok o_j) Hret Hj) as Hk.
    rewrite El in Hk. specialize (Hk Rj). congruence.
  - injection Hj as -> -> ->. cbn in Ri, Rj, Hi. injection Rj as ->.
    specialize (Hret o_j eq_refl).
    pose proof (SingletonFacts.calls_known l insts' cls o_j i construct_i a_i
                  (Ok o_i) Hret Hi) as Hk.
    rewrite El in Hk. specialize (Hk Ri). congruence.
  - cbn in Hi, Hj, Ri, Rj. apply (IH insts' i j Hi Hj); rewrite El; assumption.
Qed.

Lemma singleton_same_instance_witness : 1%nat = 1%nat.
Proof.
  apply (singleton_same_instance
           [ (fun (_ : nat) (a : nat) => Ok a, 7%nat, 1%nat);
             (fun (_ : nat) (a : nat) => Ok a, 7%nat, 2%nat) ]
           ∅ 0 1 7%nat (fun _ a => Ok a) 1%nat (fun _ a => Ok a) 2%nat 1%nat 1%nat);
    reflexivity.
Defined.
